(** * QuestLog: the quest store, the gamification rules and the request
      handlers of [main.py], embedded in Rocq.

    The two SQL tables are lists of rows in rowid order, a request handler is
    a function from the store and the request's inputs (form fields, clock
    readings, answers of the AI service) to the store it commits and the
    response, or the exception, the caller sees.

    Conventions of the embedding:
    - Python [int] is [Z]; Python [float] is IEEE 754 binary64, computed with
      the Standard Library's [SpecFloat];
    - Python [str] is [string] (one-byte characters: the embedding covers
      ASCII text);
    - [None] is [None]; a nullable column is an [option];
    - a naive [datetime] is its proleptic Gregorian ordinal and the
      microseconds elapsed since midnight. *)

From Stdlib Require Import ZArith List Bool Ascii String Lia.
From Stdlib Require Import Floats.SpecFloat.
From Stdlib Require Import Sorted Permutation.
Import ListNotations.

Open Scope string_scope.
Open Scope list_scope.
Open Scope Z_scope.

(** ** Python values *)

Module Py.

(** Exceptions that escape a handler. *)
Inductive exn := AttributeError | ValueError | OverflowError.

(** Truth value of a [str]. *)
Definition truthy_str (s : string) : bool :=
  match s with EmptyString => false | _ => true end.

(** Truth value of an optional [str] ([None] and the empty string are false). *)
Definition truthy_ostr (o : option string) : bool :=
  match o with Some s => truthy_str s | None => false end.

(** Truth value of an optional [int] ([None] and [0] are false). *)
Definition truthy_oint (o : option Z) : bool :=
  match o with Some n => negb (n =? 0) | None => false end.

Definition code (c : ascii) : Z := Z.of_N (N_of_ascii c).

Definition is_digit (c : ascii) : bool := (48 <=? code c) && (code c <=? 57).

Definition digit_val (c : ascii) : Z := code c - 48.

Definition is_upper (c : ascii) : bool := (65 <=? code c) && (code c <=? 90).

Definition lower_char (c : ascii) : ascii :=
  if is_upper c then ascii_of_N (Z.to_N (code c + 32)) else c.

(** [str.lower]. *)
Fixpoint lower (s : string) : string :=
  match s with
  | EmptyString => EmptyString
  | String c r => String (lower_char c) (lower r)
  end.

(** [needle in s]. *)
Fixpoint contains (needle s : string) : bool :=
  String.prefix needle s
  || match s with
     | EmptyString => false
     | String _ r => contains needle r
     end.

(** Value of the longest run of digits at the head of [s], continuing [acc]. *)
Fixpoint digits_value (s : string) (acc : Z) : Z :=
  match s with
  | String c r => if is_digit c then digits_value r (10 * acc + digit_val c) else acc
  | EmptyString => acc
  end.

(** [re.search(r'\d+', s)] followed by [int(m.group())]: the leftmost,
    longest run of digits, as a number. *)
Fixpoint search_int (s : string) : option Z :=
  match s with
  | EmptyString => None
  | String c r => if is_digit c then Some (digits_value s 0) else search_int r
  end.

(** [s.split(sep)] for a one-character separator. *)
Fixpoint split_aux (sep : ascii) (s : string) (cur : string) : list string :=
  match s with
  | EmptyString => [cur]
  | String c r =>
      if Ascii.eqb c sep then cur :: split_aux sep r EmptyString
      else split_aux sep r (String.append cur (String c EmptyString))
  end.

Definition split (sep : ascii) (s : string) : list string :=
  split_aux sep s EmptyString.

Definition is_space (c : ascii) : bool :=
  ((9 <=? code c) && (code c <=? 13)) || ((28 <=? code c) && (code c <=? 32)).

Fixpoint lstrip (s : string) : string :=
  match s with
  | String c r => if is_space c then lstrip r else s
  | EmptyString => EmptyString
  end.

(** White space around an [int] literal: tab to carriage return and the
    blank (the separators 28 to 31, which [str.strip] removes, are not
    skipped by [int]). *)
Definition is_int_space (c : ascii) : bool :=
  ((9 <=? code c) && (code c <=? 13)) || (code c =? 32).

Fixpoint int_lstrip (s : string) : string :=
  match s with
  | String c r => if is_int_space c then int_lstrip r else s
  | EmptyString => EmptyString
  end.

(** Digits of an [int] literal: single underscores are allowed between
    digits.  [prev] tells whether the previous character was a digit; the
    text after the literal may only be white space. *)
Fixpoint int_digits (s : string) (prev : bool) (acc : Z) : option Z :=
  match s with
  | EmptyString => if prev then Some acc else None
  | String c r =>
      if is_digit c then int_digits r true (10 * acc + digit_val c)
      else if Ascii.eqb c "_" then
        if prev then int_digits r false acc else None
      else if is_int_space c then
        if prev then match int_lstrip r with EmptyString => Some acc | _ => None end
        else None
      else None
  end.

(** The literal read without a bound on its length. *)
Definition int_literal (s : string) : option Z :=
  match int_lstrip s with
  | String "+" (String c r) =>
      if is_digit c then int_digits (String c r) false 0 else None
  | String "-" (String c r) =>
      if is_digit c then option_map Z.opp (int_digits (String c r) false 0) else None
  | String c r =>
      if is_digit c then int_digits (String c r) false 0 else None
  | EmptyString => None
  end.

(** CPython refuses a decimal literal of more than
    [sys.int_info.default_max_str_digits] digits with [ValueError]. *)
Definition MAX_STR_DIGITS : Z := 4300.

Fixpoint count_digits (s : string) : Z :=
  match s with
  | EmptyString => 0
  | String c r => (if is_digit c then 1 else 0) + count_digits r
  end.

(** [int(s)] in base ten; [None] stands for [ValueError]. *)
Definition int_of_str (s : string) : option Z :=
  if MAX_STR_DIGITS <? count_digits s then None else int_literal s.

(** *** Floats *)

Definition prec : Z := 53.
Definition emax : Z := 1024.

(** [float(n)], exact for [|n| < 2^53]. *)
Definition float_of_int (n : Z) : spec_float := binary_normalize prec emax n 0 false.

(** [a / b] on two [int]s with [b <> 0]: the correctly rounded quotient. *)
Definition truediv (a b : Z) : spec_float :=
  SFdiv prec emax (float_of_int a) (float_of_int b).

Definition fmul (x y : spec_float) : spec_float := SFmul prec emax x y.

(** [int(x)]: truncation towards zero; [None] on infinities and NaN. *)
Definition int_of_float (x : spec_float) : option Z :=
  match x with
  | S754_zero _ => Some 0
  | S754_finite s m e =>
      let a := if 0 <=? e then Z.pos m * 2 ^ e else Z.pos m / 2 ^ (- e) in
      Some (if s then - a else a)
  | S754_infinity _ => None
  | S754_nan => None
  end.

End Py.

(** ** Naive datetimes *)

Module datetime.

Record t := mk { ordinal : Z; micros : Z }.

(** [date.max.toordinal()]. *)
Definition MAXORDINAL : Z := 3652059.

(** Largest [timedelta(days=...)]. *)
Definition MAXDAYS : Z := 999999999.

(** [a < b]. *)
Definition ltb (a b : t) : bool :=
  (ordinal a <? ordinal b)
  || ((ordinal a =? ordinal b) && (micros a <? micros b)).

(** [d.date()], as an ordinal. *)
Definition date (d : t) : Z := ordinal d.

(** [d + timedelta(days=n)]; [None] stands for [OverflowError]. *)
Definition add_days (d : t) (n : Z) : option t :=
  if (Z.abs n >? MAXDAYS) then None
  else
    let o := ordinal d + n in
    if (1 <=? o) && (o <=? MAXORDINAL) then Some (mk o (micros d)) else None.

Definition is_leap (y : Z) : bool :=
  (y mod 4 =? 0) && (negb (y mod 100 =? 0) || (y mod 400 =? 0)).

Definition days_in_month (y m : Z) : Z :=
  if m =? 2 then (if is_leap y then 29 else 28)
  else if (m =? 4) || (m =? 6) || (m =? 9) || (m =? 11) then 30
  else 31.

Definition days_before_year (year : Z) : Z :=
  let y := year - 1 in y * 365 + y / 4 - y / 100 + y / 400.

Fixpoint days_before_month_aux (y : Z) (m : nat) : Z :=
  match m with
  | O => 0
  | S k => days_before_month_aux y k + days_in_month y (Z.of_nat (S k))
  end.

Definition days_before_month (y m : Z) : Z :=
  days_before_month_aux y (Z.to_nat (m - 1)).

(** [datetime(y, m, d)]; [None] stands for [ValueError]. *)
Definition of_ymd (y m d : Z) : option t :=
  if (1 <=? y) && (y <=? 9999) && (1 <=? m) && (m <=? 12)
     && (1 <=? d) && (d <=? days_in_month y m)
  then Some (mk (days_before_year y + days_before_month y m + d) 0)
  else None.

(** The month field of [%m]: [1[0-2]|0[1-9]|[1-9]], alternatives in order. *)
Definition month_field (s : string) : list (Z * string) :=
  match s with
  | String c1 r1 =>
      (match r1 with
       | String c2 r2 =>
           (if Ascii.eqb c1 "1" && (48 <=? Py.code c2) && (Py.code c2 <=? 50)
            then [(10 + Py.digit_val c2, r2)] else [])
           ++ (if Ascii.eqb c1 "0" && (49 <=? Py.code c2) && (Py.code c2 <=? 57)
               then [(Py.digit_val c2, r2)] else [])
       | EmptyString => []
       end)
      ++ (if (49 <=? Py.code c1) && (Py.code c1 <=? 57)
          then [(Py.digit_val c1, r1)] else [])
  | EmptyString => []
  end.

(** The day field of [%d]: [3[01]|[12]\d|0[1-9]|[1-9]| [1-9]]. *)
Definition day_field (s : string) : list (Z * string) :=
  match s with
  | String c1 r1 =>
      (match r1 with
       | String c2 r2 =>
           (if Ascii.eqb c1 "3" && (48 <=? Py.code c2) && (Py.code c2 <=? 49)
            then [(30 + Py.digit_val c2, r2)] else [])
           ++ (if (49 <=? Py.code c1) && (Py.code c1 <=? 50) && Py.is_digit c2
               then [(10 * Py.digit_val c1 + Py.digit_val c2, r2)] else [])
           ++ (if Ascii.eqb c1 "0" && (49 <=? Py.code c2) && (Py.code c2 <=? 57)
               then [(Py.digit_val c2, r2)] else [])
       | EmptyString => []
       end)
      ++ (if (49 <=? Py.code c1) && (Py.code c1 <=? 57)
          then [(Py.digit_val c1, r1)] else [])
      ++ (match r1 with
          | String c2 r2 =>
              if Ascii.eqb c1 " " && (49 <=? Py.code c2) && (Py.code c2 <=? 57)
              then [(Py.digit_val c2, r2)] else []
          | EmptyString => []
          end)
  | EmptyString => []
  end.

(** The first month alternative after which ["-"] and a day field match. *)
Fixpoint first_match (ms : list (Z * string)) : option (Z * Z * string) :=
  match ms with
  | [] => None
  | (m, String "-" r) :: ms' =>
      match day_field r with
      | (d, rest) :: _ => Some (m, d, rest)
      | [] => first_match ms'
      end
  | _ :: ms' => first_match ms'
  end.

(** [datetime.strptime(s, "%Y-%m-%d")]; [None] stands for [ValueError]
    (no match, unconverted data, or a date that does not exist). *)
Definition strptime (s : string) : option t :=
  match s with
  | String y1 (String y2 (String y3 (String y4 (String "-" r)))) =>
      if Py.is_digit y1 && Py.is_digit y2 && Py.is_digit y3 && Py.is_digit y4 then
        match first_match (month_field r) with
        | Some (m, d, EmptyString) =>
            of_ymd (Py.digits_value (String y1 (String y2 (String y3 (String y4 EmptyString)))) 0) m d
        | _ => None
        end
      else None
  | _ => None
  end.

End datetime.

(** ** database/models.py *)

Module Quest.

Record t := mk {
  id : Z;
  title : string;
  description : option string;
  category : option string;
  parent_id : option Z;
  is_completed : bool;
  deadline : option datetime.t;
  created_at : datetime.t;
  image_url : option string;
  position : Z
}.

Definition set_title (q : t) (v : string) : t :=
  mk (id q) v (description q) (category q) (parent_id q) (is_completed q)
     (deadline q) (created_at q) (image_url q) (position q).

Definition set_parent_id (q : t) (v : option Z) : t :=
  mk (id q) (title q) (description q) (category q) v (is_completed q)
     (deadline q) (created_at q) (image_url q) (position q).

Definition set_is_completed (q : t) (v : bool) : t :=
  mk (id q) (title q) (description q) (category q) (parent_id q) v
     (deadline q) (created_at q) (image_url q) (position q).

Definition set_deadline (q : t) (v : option datetime.t) : t :=
  mk (id q) (title q) (description q) (category q) (parent_id q) (is_completed q)
     v (created_at q) (image_url q) (position q).

Definition set_image_url (q : t) (v : option string) : t :=
  mk (id q) (title q) (description q) (category q) (parent_id q) (is_completed q)
     (deadline q) (created_at q) v (position q).

Definition set_position (q : t) (v : Z) : t :=
  mk (id q) (title q) (description q) (category q) (parent_id q) (is_completed q)
     (deadline q) (created_at q) (image_url q) v.

(** Column defaults applied at insert. *)
Definition default_is_completed : bool := false.
Definition default_position : Z := 0.

End Quest.

Module Settings.

Record t := mk {
  id : Z;
  hero_name : string;
  theme_name : string;
  xp : Z;
  level : Z;
  daily_quote : option string;
  last_quote_date : option datetime.t
}.

Definition set_names (s : t) (theme hero : string) : t :=
  mk (id s) hero theme (xp s) (level s) (daily_quote s) (last_quote_date s).

Definition set_xp (s : t) (v : Z) : t :=
  mk (id s) (hero_name s) (theme_name s) v (level s) (daily_quote s) (last_quote_date s).

Definition set_level (s : t) (v : Z) : t :=
  mk (id s) (hero_name s) (theme_name s) (xp s) v (daily_quote s) (last_quote_date s).

Definition set_quote (s : t) (q : option string) (d : option datetime.t) : t :=
  mk (id s) (hero_name s) (theme_name s) (xp s) (level s) q d.

(** Column defaults applied at insert. *)
Definition default_xp : Z := 0.
Definition default_level : Z := 1.

End Settings.

(** ** The store: the two tables, rows in rowid order *)

Record Store := mkStore {
  quests : list Quest.t;
  settings : list Settings.t
}.

Definition empty_store : Store := mkStore [] [].

Definition ostr_eqb (o : option string) (s : string) : bool :=
  match o with Some x => String.eqb x s | None => false end.

Definition oint_eqb (o : option Z) (n : Z) : bool :=
  match o with Some x => x =? n | None => false end.

(** [db.query(Quest).filter(Quest.id == quest_id).first()] *)
Definition query_quest (db : Store) (quest_id : Z) : option Quest.t :=
  find (fun q => Quest.id q =? quest_id) (quests db).

(** [db.query(Quest).filter(Quest.category == "Main").first()] *)
Definition query_main_quest (db : Store) : option Quest.t :=
  find (fun q => ostr_eqb (Quest.category q) "Main") (quests db).

(** [db.query(Settings).first()] *)
Definition query_settings (db : Store) : option Settings.t :=
  hd_error (settings db).

(** [db.query(Quest).filter(Quest.parent_id == pid)] *)
Definition children_of (db : Store) (pid : Z) : list Quest.t :=
  filter (fun q => oint_eqb (Quest.parent_id q) pid) (quests db).

(** [....filter(Quest.parent_id == pid).count()] *)
Definition count_children (db : Store) (pid : Z) : Z :=
  Z.of_nat (List.length (children_of db pid)).

(** [....filter(Quest.parent_id == pid, Quest.is_completed == True).count()] *)
Definition count_completed_children (db : Store) (pid : Z) : Z :=
  Z.of_nat (List.length (filter Quest.is_completed (children_of db pid))).

(** Insertion by ascending position, before the rows of the same position. *)
Fixpoint insert_by_position (q : Quest.t) (l : list Quest.t) : list Quest.t :=
  match l with
  | [] => [q]
  | x :: r =>
      if Quest.position q <=? Quest.position x then q :: l
      else x :: insert_by_position q r
  end.

(** [.order_by(Quest.position)]: ascending position, rows with the same
    position in rowid order (the rows are inserted from the last to the
    first, each before its equals). *)
Definition order_by_position (l : list Quest.t) : list Quest.t :=
  fold_right insert_by_position [] l.

(** [....filter(Quest.parent_id == pid).order_by(Quest.position).all()] *)
Definition subquests_of (db : Store) (pid : Z) : list Quest.t :=
  order_by_position (children_of db pid).

(** The rowid SQLite gives to the next row: one more than the largest. *)
Definition next_id {A} (key : A -> Z) (rows : list A) : Z :=
  1 + fold_right (fun r m => Z.max (key r) m) 0 rows.

(** [db.add(q)] followed by the flush: [mkq] receives the new primary key. *)
Definition add_quest_row (db : Store) (mkq : Z -> Quest.t) : Store * Quest.t :=
  let q := mkq (next_id Quest.id (quests db)) in
  (mkStore (quests db ++ [q]) (settings db), q).

(** Flush of a modified [Quest] object: the row with its primary key. *)
Definition save_quest (db : Store) (q : Quest.t) : Store :=
  mkStore (map (fun x => if Quest.id x =? Quest.id q then q else x) (quests db))
          (settings db).

(** Flush of a modified [Settings] object: the row with its primary key. *)
Definition save_settings (db : Store) (s : Settings.t) : Store :=
  mkStore (quests db)
          (map (fun x => if Settings.id x =? Settings.id s then s else x) (settings db)).

(** [db.delete(quest)] followed by the flush.  The one-to-many side of the
    self-referential relationship has no delete cascade, so the unit of work
    sets [parent_id] of the rows that point to the deleted quest to NULL. *)
Definition delete_quest_row (db : Store) (q : Quest.t) : Store :=
  mkStore
    (map (fun x => if oint_eqb (Quest.parent_id x) (Quest.id q)
                   then Quest.set_parent_id x None else x)
         (filter (fun x => negb (Quest.id x =? Quest.id q)) (quests db)))
    (settings db).

(** ** services/ai.py *)

Module ai_service.

Definition hex_digit (n : Z) : ascii :=
  if n <? 10 then ascii_of_N (Z.to_N (48 + n)) else ascii_of_N (Z.to_N (55 + n)).

Definition is_alpha (c : ascii) : bool :=
  Py.is_upper c || ((97 <=? Py.code c) && (Py.code c <=? 122)).

(** Characters [urllib.parse.quote] leaves alone (with the default [safe="/"]). *)
Definition is_safe (c : ascii) : bool :=
  is_alpha c || Py.is_digit c
  || Ascii.eqb c "_" || Ascii.eqb c "." || Ascii.eqb c "-" || Ascii.eqb c "~"
  || Ascii.eqb c "/".

(** [urllib.parse.quote] *)
Fixpoint quote (s : string) : string :=
  match s with
  | EmptyString => EmptyString
  | String c r =>
      if is_safe c then String c (quote r)
      else String "%" (String (hex_digit (Py.code c / 16))
                         (String (hex_digit (Py.code c mod 16)) (quote r)))
  end.

Definition get_vision_image (main_quest : string) : string :=
  let prompt :=
    String.append "cyberpunk futuristic vision board style art for goal: "
      (String.append main_quest ", cinematic lighting, high quality, 8k") in
  String.append "https://image.pollinations.ai/prompt/"
    (String.append (quote prompt) "?width=1200&height=400&nologo=true").

(** One entry of the list [generate_subquests] returns. *)
Record task := mk_task {
  task_title : string;
  task_deadline : string;
  task_category : string
}.

End ai_service.

(** ** main.py *)

(** What a request reads from outside the store: the two clocks and the
    answers of the AI service. *)
Record Env := mkEnv {
  utcnow : datetime.t;                                   (* datetime.utcnow() *)
  now : datetime.t;                                      (* datetime.now() *)
  suggest_goal : option string -> string;
  generate_subquests : string -> list ai_service.task;
  generate_motivation : string -> string
}.

(** Calls to the AI service, in the order they are made. *)
Inductive ai_call :=
| CallSuggestGoal (user_hint : option string)
| CallGenerateSubquests (main_quest : string)
| CallGenerateMotivation (main_quest : string)
| CallGetVisionImage (main_quest : string).

Inductive date_display :=
| ShowDate (d : datetime.t)       (* deadline.strftime('%b %d, %Y') *)
| ShowText (s : string).

(** The data a quest card is rendered from. *)
Record Card := mkCard {
  card_id : Z;
  card_category : option string;
  card_title : string;
  card_completed : bool;
  card_overdue : bool;
  card_date : date_display
}.

(** Bodies of the responses, by the data they are rendered from. *)
Inductive Response :=
| Body (html : string)                       (* a literal body *)
| IndexPage                                  (* index.html *)
| Dashboard (main_quest : option Quest.t) (subquests : list Quest.t)
            (st : Settings.t) (xp_percent : spec_float)
| SettingsPage (st : Settings.t)
| NoContent                                  (* status 204 *)
| GoalInput (suggestion : string)
| Cards (cards : list Card)
| ToggleFragments (progress level xp : Z) (xp_percent : spec_float) (toast : bool)
| ProgressRing (progress : Z)
| EditForm (q : Quest.t) (date_val : option datetime.t)
| HxRedirect (url : string)
| Export (st : option Settings.t) (qs : list Quest.t) (exported_at : datetime.t).

Inductive result (A : Type) :=
| Ok (a : A)
| Raise (e : Py.exn).
Arguments Ok {A} a.
Arguments Raise {A} e.

(** What a request leaves behind: the store as last committed (the session
    is closed without a commit when the handler raises), the AI calls made,
    and the response or the exception. *)
Record outcome := mkOutcome {
  committed : Store;
  calls : list ai_call;
  response : result Response
}.

(** *** Gamification *)

Definition xp_gain : Z := 100.

(** [1 + (xp // 500)] *)
Definition level_of (xp : Z) : Z := 1 + xp / 500.

(** [int((completed / total) * 100) if total > 0 else 0]; [None] when
    [int] raises. *)
Definition progress_of (completed_subquests total_subquests : Z) : option Z :=
  if total_subquests >? 0
  then Py.int_of_float
         (Py.fmul (Py.truediv completed_subquests total_subquests) (Py.float_of_int 100))
  else Some 0.

(** [(xp % 500) / 500 * 100] *)
Definition xp_percent_of (xp : Z) : spec_float :=
  Py.fmul (Py.truediv (xp mod 500) 500) (Py.float_of_int 100).

(** The progress block shared by [toggle_quest] and [delete_quest]: the
    parent is looked up and its children counted. *)
Definition parent_progress (db : Store) (parent_id : Z) : result Z :=
  match query_quest db parent_id with
  | None => Raise Py.AttributeError                     (* parent.id on None *)
  | Some parent =>
      match progress_of (count_completed_children db (Quest.id parent))
                        (count_children db (Quest.id parent)) with
      | Some p => Ok p
      | None => Raise Py.ValueError
      end
  end.

(** *** render_quest_card *)

Definition is_overdue (q : Quest.t) (clock : datetime.t) : bool :=
  match Quest.deadline q with
  | Some d => negb (Quest.is_completed q) && datetime.ltb d clock
  | None => false
  end.

(** The card of a quest row. *)
Definition quest_card (e : Env) (q : Quest.t) : Card :=
  let date_display :=
    match Quest.deadline q with
    | Some d => ShowDate d
    | None =>
        if Py.truthy_ostr (Quest.description q)
        then ShowText (match Quest.description q with Some s => s | None => "" end)
        else ShowText "No deadline"
    end in
  mkCard (Quest.id q) (Quest.category q) (Quest.title q)
         (Quest.is_completed q) (is_overdue q (utcnow e)) date_display.

(** [render_quest_card(quest)], where [quest] is the result of a query. *)
Definition render_quest_card (e : Env) (quest : option Quest.t) : result Card :=
  match quest with
  | None => Raise Py.AttributeError                     (* quest.deadline on None *)
  | Some q => Ok (quest_card e q)
  end.

Definition card_response (db : Store) (cs : list ai_call) (c : result Card) : outcome :=
  match c with
  | Ok card => mkOutcome db cs (Ok (Cards [card]))
  | Raise x => mkOutcome db cs (Raise x)
  end.

(** *** The handlers *)

(** Visual Vision Board: the Main Quest gets an image when it has none. *)
Definition ensure_image (db : Store) (main_quest : Quest.t)
    : Store * Quest.t * list ai_call :=
  if negb (Py.truthy_ostr (Quest.image_url main_quest)) then
    let mq1 :=
      Quest.set_image_url main_quest
        (Some (ai_service.get_vision_image (Quest.title main_quest))) in
    (save_quest db mq1, mq1, [CallGetVisionImage (Quest.title main_quest)])
  else (db, main_quest, []).

(** [last_date != today] is false: the cached quote is of today. *)
Definition quote_is_fresh (e : Env) (st : Settings.t) : bool :=
  let today := datetime.date (utcnow e) in
  match Settings.last_quote_date st with
  | Some d => datetime.date d =? today
  | None => false
  end.

Definition read_root (e : Env) (db : Store) : outcome :=
  match query_settings db with
  | None => mkOutcome db [] (Ok IndexPage)
  | Some st =>
      match query_main_quest db with
      | None => mkOutcome db [] (Ok (Dashboard None [] st (xp_percent_of (Settings.xp st))))
      | Some main_quest =>
          let '(db1, mq1, calls1) := ensure_image db main_quest in
          let subquests := subquests_of db1 (Quest.id mq1) in
          if quote_is_fresh e st then
            mkOutcome db1 calls1
              (Ok (Dashboard (Some mq1) subquests st (xp_percent_of (Settings.xp st))))
          else
            let new_quote := generate_motivation e (Quest.title mq1) in
            let st1 := Settings.set_quote st (Some new_quote) (Some (utcnow e)) in
            mkOutcome (save_settings db1 st1)
              (calls1 ++ [CallGenerateMotivation (Quest.title mq1)])
              (Ok (Dashboard (Some mq1) subquests st1 (xp_percent_of (Settings.xp st1))))
      end
  end.

Definition settings_page (db : Store) : outcome :=
  match query_settings db with
  | None => mkOutcome db [] (Ok (Body "<p>Please finish onboarding first.</p>"))
  | Some st => mkOutcome db [] (Ok (SettingsPage st))
  end.

(** The integers SQLite stores: a query parameter outside of them makes the
    driver raise [OverflowError]. *)
Definition SQLITE_MIN : Z := - 2 ^ 63.
Definition SQLITE_MAX : Z := 2 ^ 63 - 1.

Definition sqlite_int (n : Z) : bool := (SQLITE_MIN <=? n) && (n <=? SQLITE_MAX).

(** The body of the loop of [reorder_quests] for one entry of [item]:
    [IndexError] and [ValueError] are caught and the entry is skipped, the
    [OverflowError] of the query is not. *)
Definition reorder_one (index : Z) (item_str : string) (db : Store) : result Store :=
  match nth_error (Py.split "-" item_str) 1 with
  | None => Ok db                                       (* IndexError *)
  | Some tok =>
      match Py.int_of_str tok with
      | None => Ok db                                   (* ValueError *)
      | Some quest_id =>
          if sqlite_int quest_id then
            match query_quest db quest_id with
            | Some quest => Ok (save_quest db (Quest.set_position quest index))
            | None => Ok db
            end
          else Raise Py.OverflowError
      end
  end.

Fixpoint reorder_loop (index : Z) (item : list string) (db : Store) : result Store :=
  match item with
  | [] => Ok db
  | item_str :: rest =>
      match reorder_one index item_str db with
      | Ok db1 => reorder_loop (index + 1) rest db1
      | Raise x => Raise x
      end
  end.

(** The positions are committed after the loop: when the loop raises,
    nothing is committed. *)
Definition reorder_quests (item : list string) (db : Store) : outcome :=
  match reorder_loop 0 item db with
  | Ok db1 => mkOutcome db1 [] (Ok (Body ""))
  | Raise x => mkOutcome db [] (Raise x)
  end.

Definition update_settings (theme_name hero_name : string) (db : Store) : outcome :=
  match query_settings db with
  | Some st => mkOutcome (save_settings db (Settings.set_names st theme_name hero_name)) [] (Ok NoContent)
  | None => mkOutcome db [] (Ok NoContent)
  end.

Definition ai_suggest_goal (e : Env) (goal : option string) (db : Store) : outcome :=
  mkOutcome db [CallSuggestGoal goal] (Ok (GoalInput (suggest_goal e goal))).

(** The number of days the duration text of a task stands for: the first
    integer of the text (1 when there is none) times the factor of the first
    unit found, 0 when no unit is found. *)
Definition days_to_add (duration_str : string) : Z :=
  let num := match Py.search_int duration_str with Some n => n | None => 1 end in
  if Py.contains "month" duration_str then num * 30
  else if Py.contains "week" duration_str then num * 7
  else if Py.contains "day" duration_str then num
  else if Py.contains "year" duration_str then num * 365
  else 0.

(** The [try] block of [ai_architect]: the deadline of a task, [None] when
    no positive number of days comes out or the addition overflows. *)
Definition deadline_of_duration (e : Env) (text : string) : option datetime.t :=
  let d := days_to_add (Py.lower text) in
  if d >? 0 then datetime.add_days (now e) d else None.

(** The quest [ai_architect] builds from a task, before its insert. *)
Definition architect_quest (e : Env) (main_quest : Quest.t) (task : ai_service.task)
    (new_id : Z) : Quest.t :=
  Quest.mk new_id
    (ai_service.task_title task)
    (Some (String.append "Duration: " (ai_service.task_deadline task)))
    (Some (ai_service.task_category task))
    (Some (Quest.id main_quest))
    Quest.default_is_completed
    (deadline_of_duration e (ai_service.task_deadline task))
    (utcnow e)
    None
    Quest.default_position.

Fixpoint architect_loop (e : Env) (main_quest : Quest.t) (tasks : list ai_service.task)
    (db : Store) : Store * list Quest.t :=
  match tasks with
  | [] => (db, [])
  | task :: rest =>
      let '(db1, q) := add_quest_row db (architect_quest e main_quest task) in
      let '(db2, saved) := architect_loop e main_quest rest db1 in
      (db2, q :: saved)
  end.

Definition ai_architect (e : Env) (db : Store) : outcome :=
  match query_main_quest db with
  | None => mkOutcome db [] (Ok (Body "<p>Error: No Main Quest found.</p>"))
  | Some main_quest =>
      let tasks := generate_subquests e (Quest.title main_quest) in
      let '(db1, saved_quests) := architect_loop e main_quest tasks db in
      mkOutcome db1 [CallGenerateSubquests (Quest.title main_quest)]
        (Ok (Cards (map (quest_card e) saved_quests)))
  end.

(** The XP after a toggle that took the quest from [previous_state] to
    [negb previous_state]. *)
Definition toggled_xp (previous_state : bool) (xp : Z) : Z :=
  let is_completed := negb previous_state in
  if is_completed && negb previous_state then xp + xp_gain
  else if negb is_completed && previous_state then Z.max 0 (xp - xp_gain)
  else xp.

Definition toggle_quest (quest_id : Z) (db : Store) : outcome :=
  let quest := query_quest db quest_id in
  let settings := query_settings db in
  match quest with
  | Some q =>
      match settings with
      | None => mkOutcome db [] (Raise Py.AttributeError)       (* settings.xp on None *)
      | Some st =>
          let previous_state := Quest.is_completed q in
          let q1 := Quest.set_is_completed q (negb previous_state) in
          let st1 := Settings.set_xp st (toggled_xp previous_state (Settings.xp st)) in
          let st2 := Settings.set_level st1 (level_of (Settings.xp st1)) in
          let db1 := save_settings (save_quest db q1) st2 in
          let progress :=
            if Py.truthy_oint (Quest.parent_id q1)
            then match Quest.parent_id q1 with
                 | Some pid => parent_progress db1 pid
                 | None => Ok 0
                 end
            else Ok 0 in
          match progress with
          | Raise x => mkOutcome db1 [] (Raise x)
          | Ok p =>
              mkOutcome db1 []
                (Ok (ToggleFragments p (Settings.level st2) (Settings.xp st2)
                       (xp_percent_of (Settings.xp st2))
                       (Quest.is_completed q1 && negb previous_state)))
          end
      end
  | None =>
      (* nothing is committed; settings.xp is read, then quest.is_completed *)
      mkOutcome db [] (Raise Py.AttributeError)
  end.

Definition delete_quest (quest_id : Z) (db : Store) : outcome :=
  match query_quest db quest_id with
  | Some quest =>
      let parent_id := Quest.parent_id quest in
      let db1 := delete_quest_row db quest in
      if Py.truthy_oint parent_id then
        match parent_id with
        | Some pid =>
            match parent_progress db1 pid with
            | Ok p => mkOutcome db1 [] (Ok (ProgressRing p))
            | Raise x => mkOutcome db1 [] (Raise x)
            end
        | None => mkOutcome db1 [] (Ok (Body ""))
        end
      else mkOutcome db1 [] (Ok (Body ""))
  | None => mkOutcome db [] (Ok (Body ""))
  end.

Definition add_quest (e : Env) (title category : string) (db : Store) : outcome :=
  match query_main_quest db with
  | None => mkOutcome db [] (Ok (Body ""))
  | Some main_quest =>
      let max_pos := count_children db (Quest.id main_quest) in
      let '(db1, new_quest) :=
        add_quest_row db
          (fun new_id =>
             Quest.mk new_id title (Some "Manual Entry") (Some category)
               (Some (Quest.id main_quest)) false None (utcnow e) None max_pos) in
      card_response db1 [] (render_quest_card e (Some new_quest))
  end.

Definition edit_quest_form (quest_id : Z) (db : Store) : outcome :=
  match query_quest db quest_id with
  | None => mkOutcome db [] (Ok (Body ""))
  | Some quest => mkOutcome db [] (Ok (EditForm quest (Quest.deadline quest)))
  end.

Definition cancel_edit_quest (e : Env) (quest_id : Z) (db : Store) : outcome :=
  card_response db [] (render_quest_card e (query_quest db quest_id)).

Definition update_quest (e : Env) (quest_id : Z) (title : string) (deadline : option string)
    (db : Store) : outcome :=
  match query_quest db quest_id with
  | Some quest =>
      let q1 := Quest.set_title quest title in
      let q2 :=
        if Py.truthy_ostr deadline then
          match deadline with
          | Some s =>
              match datetime.strptime s with
              | Some d => Quest.set_deadline q1 (Some d)
              | None => q1                                  (* except ValueError: pass *)
              end
          | None => q1
          end
        else Quest.set_deadline q1 None in
      card_response (save_quest db q2) [] (render_quest_card e (Some q2))
  | None => card_response db [] (render_quest_card e None)
  end.

Definition onboarding_submit (e : Env) (goal : string) (deadline : option string)
    (db : Store) : outcome :=
  let deadline_dt :=
    if Py.truthy_ostr deadline then
      match deadline with
      | Some s => datetime.strptime s                       (* None if invalid *)
      | None => None
      end
    else None in
  let '(db1, _) :=
    add_quest_row db
      (fun new_id =>
         Quest.mk new_id goal None (Some "Main") None false deadline_dt (utcnow e)
           (Some (ai_service.get_vision_image goal)) Quest.default_position) in
  let db2 :=
    match query_settings db1 with
    | None =>
        mkStore (quests db1)
          (settings db1
           ++ [Settings.mk (next_id Settings.id (settings db1)) "Hero" "Cyberpunk"
                 Settings.default_xp Settings.default_level None None])
    | Some _ => db1
    end in
  mkOutcome db2 [CallGetVisionImage goal] (Ok (HxRedirect "/")).

Definition export_data (e : Env) (db : Store) : outcome :=
  mkOutcome db [] (Ok (Export (query_settings db) (quests db) (utcnow e))).

Definition reset_data (db : Store) : outcome :=
  mkOutcome empty_store [] (Ok (HxRedirect "/")).

(** *** Requests and the reachable stores *)

Inductive Request :=
| GetRoot
| GetSettings
| PostReorder (item : list string)
| PostSettingsUpdate (theme_name hero_name : string)
| PostSuggestGoal (goal : option string)
| PostArchitect
| PostToggle (quest_id : Z)
| DeleteQuest (quest_id : Z)
| PostAdd (title category : string)
| GetEdit (quest_id : Z)
| GetCancel (quest_id : Z)
| PutQuest (quest_id : Z) (title : string) (deadline : option string)
| PostOnboarding (goal : string) (deadline : option string)
| GetExport
| PostReset.

Definition handle (e : Env) (r : Request) (db : Store) : outcome :=
  match r with
  | GetRoot => read_root e db
  | GetSettings => settings_page db
  | PostReorder item => reorder_quests item db
  | PostSettingsUpdate theme_name hero_name => update_settings theme_name hero_name db
  | PostSuggestGoal goal => ai_suggest_goal e goal db
  | PostArchitect => ai_architect e db
  | PostToggle quest_id => toggle_quest quest_id db
  | DeleteQuest quest_id => delete_quest quest_id db
  | PostAdd title category => add_quest e title category db
  | GetEdit quest_id => edit_quest_form quest_id db
  | GetCancel quest_id => cancel_edit_quest e quest_id db
  | PutQuest quest_id title deadline => update_quest e quest_id title deadline db
  | PostOnboarding goal deadline => onboarding_submit e goal deadline db
  | GetExport => export_data e db
  | PostReset => reset_data db
  end.

(** The store after a request. *)
Definition step (e : Env) (r : Request) (db : Store) : Store :=
  committed (handle e r db).

(** Stores the handlers can produce from the empty database. *)
Inductive reachable : Store -> Prop :=
| reachable_empty : reachable empty_store
| reachable_step e r db : reachable db -> reachable (step e r db).

(** * Definitions used by the statements *)

(** ** Concrete stores used in the examples *)

(** An environment whose AI service answers with the fallbacks and the
    example of the prompt of [generate_subquests]. *)
Definition demo_env : Env :=
  mkEnv (datetime.mk 739000 0) (datetime.mk 739000 3600000000)
    (fun _ => "Project Hercules: Become Fit (AI Unavailable)")
    (fun _ => [ai_service.mk_task "Research Running Shoes" "1 week" "Preparation"])
    (fun _ => "Keep moving forward. Your vision awaits.").

(** The store after onboarding with the goal "Run a Marathon". *)
Definition onboarded : Store :=
  step demo_env (PostOnboarding "Run a Marathon" None) empty_store.

Fixpoint add_many (n : nat) (db : Store) : Store :=
  match n with
  | O => db
  | S k => step demo_env (PostAdd "Sub-quest" "General") (add_many k db)
  end.

Fixpoint toggle_range (first : Z) (n : nat) (db : Store) : Store :=
  match n with
  | O => db
  | S k => step demo_env (PostToggle first) (toggle_range (first + 1) k db)
  end.

(** The progress a toggle response shows. *)
Definition shown_progress (o : outcome) : option Z :=
  match response o with
  | Ok (ToggleFragments p _ _ _ _) => Some p
  | Ok (ProgressRing p) => Some p
  | _ => None
  end.

(** Fifty sub-quests of the Main Quest, the first thirty completed. *)
Definition fifty_subquests : Store :=
  toggle_range 2 30 (add_many 50 onboarded).

(** [p] holds of every integer from 0 to [n]. *)
Fixpoint all_upto (n : nat) (p : Z -> bool) : bool :=
  match n with
  | O => p 0
  | S k => p (Z.of_nat (S k)) && all_upto k p
  end.

(** The invariant of a [Settings] row. *)
Definition settings_ok (st : Settings.t) : Prop :=
  0 <= Settings.xp st /\ Settings.level st = 1 + Settings.xp st / 500.

Definition settings_inv (db : Store) : Prop :=
  forall st, In st (settings db) -> settings_ok st.

(** A database created before the gamification columns existed: [init_db]
    added [xp] with default 0 and [level] with default 1 to the row, and the
    quest was completed before. *)
Definition migrated_db : Store :=
  mkStore
    [Quest.mk 1 "Run a Marathon" None (Some "Main") None false None (datetime.mk 738000 0) None 0;
     Quest.mk 2 "Research Running Shoes" (Some "Manual Entry") (Some "Preparation") (Some 1)
       true None (datetime.mk 738001 0) None 0]
    [Settings.mk 1 "Hero" "Cyberpunk" 0 1 None None].

(** The store after two toggles of the same quest. *)
Definition toggle_twice (quest_id : Z) (db : Store) : Store :=
  committed (toggle_quest quest_id (committed (toggle_quest quest_id db))).

(** One sub-quest with a deadline set through the edit form. *)
Definition with_deadline : Store :=
  step demo_env (PutQuest 2 "Research Running Shoes" (Some "2026-12-31"))
    (add_many 1 onboarded).

(** Two manual sub-quests, then one run of the Quest Architect. *)
Definition after_architect : Store :=
  step demo_env PostArchitect (add_many 2 onboarded).

(** The deadline [update_quest] leaves on a quest whose deadline was [old]. *)
Definition updated_deadline (old : option datetime.t) (deadline : option string)
    : option datetime.t :=
  match deadline with
  | None => None
  | Some EmptyString => None
  | Some s => match datetime.strptime s with Some d => Some d | None => old end
  end.

(** The unit keywords of the duration texts with their factors, in the order
    they are looked for. *)
Definition unit_factors : list (string * Z) :=
  [("month", 30); ("week", 7); ("day", 1); ("year", 365)].

(** The first unit keyword of the table found in the text. *)
Definition first_unit (text : string) : option (string * Z) :=
  find (fun u => Py.contains (fst u) text) unit_factors.

(** The first integer of the text, 1 when it has none. *)
Definition first_integer (text : string) : Z :=
  match Py.search_int text with Some n => n | None => 1 end.

(** A task of the AI service with the given duration text. *)
Definition demo_task (duration : string) : ai_service.task :=
  ai_service.mk_task "Join a local running club" duration "Social".

(** The Main Quest of the store [onboarded]. *)
Definition demo_main : Quest.t :=
  match query_main_quest onboarded with
  | Some q => q
  | None => Quest.mk 0 "" None None None false None (datetime.mk 1 0) None 0
  end.

(** [Quest.category == "Main"] *)
Definition is_main (q : Quest.t) : bool := ostr_eqb (Quest.category q) "Main".

(** The number of quests with the category "Main". *)
Definition count_main (db : Store) : nat :=
  List.length (filter is_main (quests db)).

(** Requests as the pages send them: the onboarding form is submitted while
    there is no Main Quest, and neither the add form nor the AI service
    names the category "Main". *)
Definition keeps_single_main (e : Env) (r : Request) (db : Store) : Prop :=
  match r with
  | PostOnboarding _ _ => query_main_quest db = None
  | PostAdd _ category => category <> "Main"
  | PostArchitect =>
      forall mq t,
        query_main_quest db = Some mq ->
        In t (generate_subquests e (Quest.title mq)) ->
        ai_service.task_category t <> "Main"
  | _ => True
  end.

(** Stores reachable from the empty database by such requests. *)
Inductive reachable_guarded : Store -> Prop :=
| guarded_empty : reachable_guarded empty_store
| guarded_step e r db :
    reachable_guarded db -> keeps_single_main e r db -> reachable_guarded (step e r db).

(** Primary keys are unique and at most one quest is a Main Quest. *)
Definition main_inv (db : Store) : Prop :=
  NoDup (map Quest.id (quests db)) /\ (count_main db <= 1)%nat.

(** The store after a second onboarding. *)
Definition onboarded_twice : Store :=
  step demo_env (PostOnboarding "Learn French" None) onboarded.

(** The number of completed quests. *)
Definition completed_count (db : Store) : Z :=
  Z.of_nat (List.length (filter Quest.is_completed (quests db))).

(** Every completed quest has been paid for: primary keys are unique, quests
    exist only together with a settings row, and the XP of the first
    settings row covers 100 per completed quest. *)
Definition paid_inv (db : Store) : Prop :=
  NoDup (map Quest.id (quests db))
  /\ (settings db = [] -> quests db = [])
  /\ (forall st, query_settings db = Some st ->
      xp_gain * completed_count db <= Settings.xp st).

(** * Definitions used by the further properties *)

(** The quest id a token of the sortable list names:
    [int(item_str.split("-")[1])], [None] when [IndexError] or [ValueError]
    is raised. *)
Definition token_id (item_str : string) : option Z :=
  match nth_error (Py.split "-" item_str) 1 with
  | Some tok => Py.int_of_str tok
  | None => None
  end.

(** The token fits a query parameter: it names no id, or one SQLite stores. *)
Definition token_in_range (item_str : string) : bool :=
  match token_id item_str with
  | Some quest_id => sqlite_int quest_id
  | None => true
  end.

(** The writes of the loop of [reorder_quests] for one entry, when its
    query does not overflow. *)
Definition assign_one (index : Z) (item_str : string) (db : Store) : Store :=
  match token_id item_str with
  | Some quest_id =>
      match query_quest db quest_id with
      | Some quest => save_quest db (Quest.set_position quest index)
      | None => db
      end
  | None => db
  end.

(** The writes of the whole loop, when no query overflows. *)
Fixpoint assign_loop (index : Z) (item : list string) (db : Store) : Store :=
  match item with
  | [] => db
  | item_str :: rest => assign_loop (index + 1) rest (assign_one index item_str db)
  end.

(** The tokens the dashboard sends for the quests of the given ids, as the
    list [item] of [reorder_quests] holds them after parsing. *)
Definition names (quest_id : Z) (item_str : string) : Prop :=
  token_id item_str = Some quest_id.

(** A store with three sub-quests, for the examples. *)
Definition three_subquests : Store := add_many 3 onboarded.

(** References of the quests table: primary keys start at 1, there is at
    most one settings row, and a parent reference names a quest that exists
    and was inserted before its child. *)
Definition refs_inv (db : Store) : Prop :=
  (forall q, In q (quests db) -> 1 <= Quest.id q)
  /\ (List.length (settings db) <= 1)%nat
  /\ (forall q p, In q (quests db) -> Quest.parent_id q = Some p ->
      In p (map Quest.id (quests db)) /\ p < Quest.id q).

(** The quest [add_quest] inserts under the Main Quest [main_quest]. *)
Definition added_quest (e : Env) (title category : string) (db : Store)
    (main_quest : Quest.t) : Quest.t :=
  Quest.mk (next_id Quest.id (quests db)) title (Some "Manual Entry") (Some category)
    (Some (Quest.id main_quest)) false None (utcnow e) None
    (count_children db (Quest.id main_quest)).

(** The quests [ai_architect] inserts for a list of tasks, the first one
    with the primary key [first_id]. *)
Fixpoint architect_rows (e : Env) (main_quest : Quest.t) (tasks : list ai_service.task)
    (first_id : Z) : list Quest.t :=
  match tasks with
  | [] => []
  | task :: rest =>
      architect_quest e main_quest task first_id
      :: architect_rows e main_quest rest (first_id + 1)
  end.

(** The quest [onboarding_submit] inserts. *)
Definition onboarding_quest (e : Env) (goal : string) (deadline : option string)
    (db : Store) : Quest.t :=
  Quest.mk (next_id Quest.id (quests db)) goal None (Some "Main") None false
    (if Py.truthy_ostr deadline
     then match deadline with Some s => datetime.strptime s | None => None end
     else None)
    (utcnow e) (Some (ai_service.get_vision_image goal)) Quest.default_position.

(** The settings row [onboarding_submit] creates in a database without one. *)
Definition default_settings : Settings.t :=
  Settings.mk 1 "Hero" "Cyberpunk" Settings.default_xp Settings.default_level None None.

(** The order of the dashboard: positions do not decrease. *)
Definition position_le (a b : Quest.t) : Prop := Quest.position a <= Quest.position b.

(** Every character of the string satisfies [p]. *)
Fixpoint string_forall (p : ascii -> bool) (s : string) : bool :=
  match s with
  | EmptyString => true
  | String c r => p c && string_forall p r
  end.

(** Characters of the image URLs: the unreserved ones and the delimiters of
    the fixed parts of the URL. *)
Definition url_char (c : ascii) : bool :=
  ai_service.is_safe c
  || Ascii.eqb c "%" || Ascii.eqb c ":" || Ascii.eqb c "?" || Ascii.eqb c "&"
  || Ascii.eqb c "=".

(** ** services/ai.py: the text processing of [AIService] *)

Module AIService.

Definition newline : ascii := ascii_of_N 10.
Definition dquote : ascii := ascii_of_N 34.

(** [str.rstrip] *)
Fixpoint rstrip (s : string) : string :=
  match s with
  | EmptyString => EmptyString
  | String c r =>
      match rstrip r with
      | EmptyString => if Py.is_space c then EmptyString else String c EmptyString
      | String c1 r1 => String c (String c1 r1)
      end
  end.

(** [str.strip] *)
Definition strip (s : string) : string := rstrip (Py.lstrip s).

(** [s.replace(c, '')] for a one-character [c]. *)
Fixpoint remove_char (c : ascii) (s : string) : string :=
  match s with
  | EmptyString => EmptyString
  | String x r => if Ascii.eqb x c then remove_char c r else String x (remove_char c r)
  end.

(** The body of the loop of [generate_subquests] for one line. *)
Definition parse_line (line : string) : list ai_service.task :=
  match Py.split "|" line with
  | p0 :: p1 :: p2 :: _ => [ai_service.mk_task (strip p0) (strip p1) (strip p2)]
  | _ => []
  end.

(** The list [generate_subquests] builds from [response.text]. *)
Definition parse_subquests (raw_text : string) : list ai_service.task :=
  flat_map parse_line (Py.split newline (strip raw_text)).

(** [generate_subquests]: [client] tells whether the API key was found,
    [api] is the text of the answer of the model, [None] when the call or
    the access to the text raises. *)
Definition generate_subquests (client : bool) (api : option string)
    : list ai_service.task :=
  if negb client then []
  else match api with
       | Some text => parse_subquests text
       | None => []                                     (* except Exception *)
       end.

(** [generate_motivation], with the same inputs. *)
Definition generate_motivation (client : bool) (api : option string) : string :=
  if negb client then "Keep moving forward. Your vision awaits."
  else match api with
       | Some text => remove_char dquote (strip text)
       | None => "The journey of a thousand miles begins with a single step."
       end.

End AIService.

(** The fields of a task. *)
Definition task_fields (t : ai_service.task) : list string :=
  [ai_service.task_title t; ai_service.task_deadline t; ai_service.task_category t].

(** No white space at either end. *)
Definition stripped (s : string) : Prop :=
  Py.lstrip s = s /\ AIService.rstrip s = s.

(** The prompt's example of an answer, with Windows line ends and a line
    that is no task. *)
Definition demo_answer : string :=
  String.append "  Research Running Shoes | 1 week | Preparation "
    (String (ascii_of_N 13) (String (ascii_of_N 10)
       (String.append "Here is more:"
          (String (ascii_of_N 10) "Run 5km | 1 month | Training | extra")))).

(** A line of the format the prompt of [generate_subquests] asks for:
    [Title] | [Estimated Duration] | [Category]. *)
Definition format_line (t : ai_service.task) : string :=
  String.append (ai_service.task_title t)
    (String.append " | "
       (String.append (ai_service.task_deadline t)
          (String.append " | " (ai_service.task_category t)))).

(** The decimal digits of a natural number [n], most significant first;
    [fuel] bounds the number of digits. *)
Fixpoint digits_of (fuel : nat) (n : Z) : string :=
  match fuel with
  | O => EmptyString
  | S f =>
      if n <? 10 then String (ascii_of_N (Z.to_N (48 + n))) EmptyString
      else String.append (digits_of f (n / 10))
             (String (ascii_of_N (Z.to_N (48 + n mod 10))) EmptyString)
  end.

(** [str(n)] for an [int]. *)
Definition str_of_int (n : Z) : string :=
  if n <? 0 then String "-" (digits_of (S (Z.to_nat (- n))) (- n))
  else digits_of (S (Z.to_nat n)) n.

(** The [id] attribute of the card of a quest, ["quest-{quest.id}"], which
    the sortable list sends back as a token. *)
Definition card_dom_id (quest_id : Z) : string :=
  String.append "quest-" (str_of_int quest_id).
(** * Properties *)

(** ** Queries after a flush *)

Lemma query_quest_id (db : Store) (quest_id : Z) (q : Quest.t) :
  query_quest db quest_id = Some q -> Quest.id q = quest_id.
Proof.
  unfold query_quest. intros H. apply find_some in H as [_ H].
  now apply Z.eqb_eq in H.
Qed.

Lemma query_quest_In (db : Store) (quest_id : Z) (q : Quest.t) :
  query_quest db quest_id = Some q -> In q (quests db).
Proof.
  unfold query_quest. intros H. now apply find_some in H as [H _].
Qed.

Lemma query_quest_save_same (db : Store) (q q1 : Quest.t) :
  query_quest db (Quest.id q1) = Some q ->
  query_quest (save_quest db q1) (Quest.id q1) = Some q1.
Proof.
  unfold query_quest, save_quest. simpl.
  induction (quests db) as [|x l IH]; simpl; [discriminate|].
  destruct (Quest.id x =? Quest.id q1) eqn:E.
  - intros _. now rewrite Z.eqb_refl.
  - rewrite E. exact IH.
Qed.

Lemma query_quest_save_other (db : Store) (q1 : Quest.t) (quest_id : Z) :
  quest_id <> Quest.id q1 ->
  query_quest (save_quest db q1) quest_id = query_quest db quest_id.
Proof.
  unfold query_quest, save_quest. simpl. intros Hne.
  induction (quests db) as [|x l IH]; simpl; [reflexivity|].
  destruct (Quest.id x =? Quest.id q1) eqn:E.
  - apply Z.eqb_eq in E.
    destruct (Quest.id q1 =? quest_id) eqn:E1; [apply Z.eqb_eq in E1; congruence|].
    destruct (Quest.id x =? quest_id) eqn:E2; [apply Z.eqb_eq in E2; congruence|].
    exact IH.
  - destruct (Quest.id x =? quest_id); [reflexivity | exact IH].
Qed.

Lemma query_settings_save (db : Store) (st st1 : Settings.t) :
  query_settings db = Some st ->
  Settings.id st1 = Settings.id st ->
  query_settings (save_settings db st1) = Some st1.
Proof.
  unfold query_settings, save_settings. simpl.
  destruct (settings db) as [|x l]; simpl; [discriminate|].
  intros [= ->] ->. now rewrite Z.eqb_refl.
Qed.

(** The store [toggle_quest] commits when the quest and the settings exist. *)
Lemma toggle_committed (quest_id : Z) (db : Store) (q : Quest.t) (st : Settings.t) :
  query_quest db quest_id = Some q ->
  query_settings db = Some st ->
  committed (toggle_quest quest_id db)
  = save_settings
      (save_quest db (Quest.set_is_completed q (negb (Quest.is_completed q))))
      (Settings.set_level
         (Settings.set_xp st (toggled_xp (Quest.is_completed q) (Settings.xp st)))
         (level_of (toggled_xp (Quest.is_completed q) (Settings.xp st)))).
Proof.
  intros Hq Hs. unfold toggle_quest. rewrite Hq, Hs.
  match goal with |- committed (match ?p with _ => _ end) = _ => destruct p end;
    reflexivity.
Qed.

(** Quest and settings after a toggle. *)
Lemma toggle_queries (quest_id : Z) (db : Store) (q : Quest.t) (st : Settings.t) :
  query_quest db quest_id = Some q ->
  query_settings db = Some st ->
  query_quest (committed (toggle_quest quest_id db)) quest_id
  = Some (Quest.set_is_completed q (negb (Quest.is_completed q)))
  /\ query_settings (committed (toggle_quest quest_id db))
     = Some (Settings.set_level
               (Settings.set_xp st (toggled_xp (Quest.is_completed q) (Settings.xp st)))
               (level_of (toggled_xp (Quest.is_completed q) (Settings.xp st)))).
Proof.
  intros Hq Hs. rewrite (toggle_committed _ _ _ _ Hq Hs).
  pose proof (query_quest_id _ _ _ Hq) as Hid. split.
  - change (query_quest (save_quest db (Quest.set_is_completed q (negb (Quest.is_completed q))))
              quest_id = Some (Quest.set_is_completed q (negb (Quest.is_completed q)))).
    rewrite <- Hid in Hq |- *.
    exact (query_quest_save_same db q (Quest.set_is_completed q _) Hq).
  - apply query_settings_save with (st := st); [exact Hs | reflexivity].
Qed.

Lemma toggled_xp_nonneg (c : bool) (xp : Z) : 0 <= xp -> 0 <= toggled_xp c xp.
Proof.
  unfold toggled_xp, xp_gain. destruct c; simpl; lia.
Qed.

Lemma toggled_xp_twice (c : bool) (xp : Z) :
  0 <= xp -> (c = true -> 100 <= xp) ->
  toggled_xp (negb c) (toggled_xp c xp) = xp.
Proof.
  unfold toggled_xp, xp_gain. destruct c; cbn [negb andb]; intros H0 Hc.
  - specialize (Hc eq_refl). lia.
  - lia.
Qed.

(** ** Toggling twice *)

(** C1 (counterexample): in a store whose completed quest was never paid
    for (XP 0), the first toggle clamps the XP at 0 and the second one
    awards 100: the XP is not restored. *)
Lemma toggle_twice_not_restored :
  option_map Settings.xp (query_settings migrated_db) = Some 0
  /\ option_map Quest.is_completed (query_quest migrated_db 2) = Some true
  /\ option_map Settings.xp (query_settings (toggle_twice 2 migrated_db)) = Some 100.
Proof.
  vm_compute. repeat split; reflexivity.
Qed.

(** C1 (amended): when the settings satisfy their invariant and a completed
    quest finds at least 100 XP to revoke, two toggles of the quest restore
    the completion flag, the XP and the level. *)
Theorem toggle_twice_restores (quest_id : Z) (db : Store) (q : Quest.t) (st : Settings.t) :
  query_quest db quest_id = Some q ->
  query_settings db = Some st ->
  0 <= Settings.xp st ->
  Settings.level st = 1 + Settings.xp st / 500 ->
  (Quest.is_completed q = true -> 100 <= Settings.xp st) ->
  exists q2 st2,
    query_quest (toggle_twice quest_id db) quest_id = Some q2
    /\ query_settings (toggle_twice quest_id db) = Some st2
    /\ Quest.is_completed q2 = Quest.is_completed q
    /\ Settings.xp st2 = Settings.xp st
    /\ Settings.level st2 = Settings.level st.
Proof.
  intros Hq Hs Hxp Hlv Hc. unfold toggle_twice.
  destruct (toggle_queries _ _ _ _ Hq Hs) as [Hq1 Hs1].
  destruct (toggle_queries _ _ _ _ Hq1 Hs1) as [Hq2 Hs2].
  eexists. eexists. split; [exact Hq2|]. split; [exact Hs2|].
  cbn [Quest.set_is_completed Quest.is_completed Settings.set_level Settings.set_xp
       Settings.xp Settings.level].
  rewrite (toggled_xp_twice _ _ Hxp Hc), Hlv.
  split; [apply negb_involutive|]. split; reflexivity.
Qed.

Lemma toggle_twice_restores_witness :
  exists q2 st2,
    query_quest (toggle_twice 2 (add_many 1 onboarded)) 2 = Some q2
    /\ query_settings (toggle_twice 2 (add_many 1 onboarded)) = Some st2
    /\ Quest.is_completed q2 = false
    /\ Settings.xp st2 = 0
    /\ Settings.level st2 = 1.
Proof.
  refine (toggle_twice_restores 2 (add_many 1 onboarded) _ _ eq_refl eq_refl _ _ _).
  - vm_compute. discriminate.
  - reflexivity.
  - vm_compute. discriminate.
Defined.

(** ** Progress of a parent quest *)

Lemma all_upto_spec (p : Z -> bool) (n : nat) :
  all_upto n p = true -> forall k, 0 <= k <= Z.of_nat n -> p k = true.
Proof.
  induction n as [|n IH]; simpl; intros H k Hk.
  - assert (k = 0) by lia. subst k. exact H.
  - apply andb_true_iff in H as [H1 H2].
    destruct (Z.eq_dec k (Z.pos (Pos.of_succ_nat n))) as [->|Hne].
    + exact H1.
    + apply IH; [exact H2 | lia].
Qed.

(** Up to 49 children the float computation of the handlers agrees with
    the integer formula. *)
Lemma progress_of_small (completed total : Z) :
  0 <= completed <= total -> total <= 49 ->
  progress_of completed total = Some (if total =? 0 then 0 else 100 * completed / total).
Proof.
  intros Hc Ht.
  assert (H : all_upto 49 (fun n => all_upto 49 (fun k =>
             negb (k <=? n)
             || match progress_of k n with
                | Some p => p =? (if n =? 0 then 0 else 100 * k / n)
                | None => false
                end)) = true) by (vm_compute; reflexivity).
  pose proof (all_upto_spec _ _ H total ltac:(simpl; lia)) as H1.
  cbv beta in H1.
  pose proof (all_upto_spec _ _ H1 completed ltac:(simpl; lia)) as H2.
  cbv beta in H2.
  apply orb_true_iff in H2 as [H2|H2].
  - apply negb_true_iff, Z.leb_gt in H2. lia.
  - destruct (progress_of completed total) as [p|]; [|discriminate].
    apply Z.eqb_eq in H2. now subst p.
Qed.

(** C4 (the code at the failing input): with 50 children of which 29 are
    completed after the toggle, [toggle_quest] shows 57 where
    floor(100 * 29 / 50) is 58; the same block of [delete_quest] shows 57 as
    well, and a parent without children shows 0. *)
Theorem progress_float_truncation :
  count_children (step demo_env (PostToggle 2) fifty_subquests) 1 = 50
  /\ count_completed_children (step demo_env (PostToggle 2) fifty_subquests) 1 = 29
  /\ shown_progress (toggle_quest 2 fifty_subquests) = Some 57
  /\ 100 * 29 / 50 = 58
  /\ shown_progress
       (delete_quest 52 (step demo_env (PostAdd "Extra" "General")
                           (step demo_env (PostToggle 2) fifty_subquests))) = Some 57
  /\ progress_of 0 0 = Some 0.
Proof.
  vm_compute. repeat split; reflexivity.
Qed.

(** ** The loop of the reordering *)

Lemma reorder_one_assign (index : Z) (item_str : string) (db : Store) :
  reorder_one index item_str db
  = if token_in_range item_str then Ok (assign_one index item_str db)
    else Raise Py.OverflowError.
Proof.
  unfold reorder_one, token_in_range, assign_one, token_id.
  destruct (nth_error _ 1) as [tok|]; [|reflexivity].
  destruct (Py.int_of_str tok) as [quest_id|]; [|reflexivity].
  destruct (sqlite_int quest_id); [|reflexivity].
  destruct (query_quest db quest_id); reflexivity.
Qed.

Lemma reorder_loop_assign (item : list string) (index : Z) (db : Store) :
  reorder_loop index item db
  = if forallb token_in_range item then Ok (assign_loop index item db)
    else Raise Py.OverflowError.
Proof.
  revert index db. induction item as [|s item IH]; intros index db;
    cbn [reorder_loop assign_loop forallb]; [reflexivity|].
  rewrite reorder_one_assign. destruct (token_in_range s); cbn [andb]; [apply IH | reflexivity].
Qed.

Lemma reorder_quests_cases (item : list string) (db : Store) :
  reorder_quests item db
  = if forallb token_in_range item
    then mkOutcome (assign_loop 0 item db) [] (Ok (Body ""))
    else mkOutcome db [] (Raise Py.OverflowError).
Proof.
  unfold reorder_quests. rewrite reorder_loop_assign.
  destruct (forallb token_in_range item); reflexivity.
Qed.

(** ** The settings invariant *)

Lemma query_settings_In (db : Store) (st : Settings.t) :
  query_settings db = Some st -> In st (settings db).
Proof.
  unfold query_settings. destruct (settings db); simpl; [discriminate|].
  intros [= ->]. now left.
Qed.

Lemma settings_inv_save (db : Store) (s : Settings.t) :
  settings_inv db -> settings_ok s -> settings_inv (save_settings db s).
Proof.
  intros Hinv Hs st Hin. unfold save_settings in Hin. simpl in Hin.
  apply in_map_iff in Hin as [x [Hx Hin]].
  destruct (Settings.id x =? Settings.id s); subst st; auto.
Qed.

Lemma settings_inv_same (db db1 : Store) :
  settings db1 = settings db -> settings_inv db -> settings_inv db1.
Proof.
  unfold settings_inv. intros ->. auto.
Qed.

Lemma assign_loop_settings (item : list string) (index : Z) (db : Store) :
  settings (assign_loop index item db) = settings db.
Proof.
  revert index db. induction item as [|s item IH]; intros index db; simpl; [reflexivity|].
  rewrite IH. unfold assign_one.
  destruct (token_id _); [|reflexivity].
  destruct (query_quest _ _); reflexivity.
Qed.

Lemma architect_loop_settings (e : Env) (mq : Quest.t) (tasks : list ai_service.task)
    (db : Store) :
  settings (fst (architect_loop e mq tasks db)) = settings db.
Proof.
  revert db. induction tasks as [|t tasks IH]; intros db; simpl; [reflexivity|].
  specialize (IH (mkStore (quests db
      ++ [architect_quest e mq t (next_id Quest.id (quests db))]) (settings db))).
  destruct (architect_loop e mq tasks _) as [db2 saved]. exact IH.
Qed.

Lemma card_response_committed (db : Store) (cs : list ai_call) (c : result Card) :
  committed (card_response db cs c) = db.
Proof.
  destruct c; reflexivity.
Qed.

(** Every handler keeps the invariant of the settings rows. *)
Lemma step_settings_inv (e : Env) (r : Request) (db : Store) :
  settings_inv db -> settings_inv (step e r db).
Proof.
  intros Hinv. unfold step, handle. destruct r.
  - (* read_root *)
    unfold read_root. destruct (query_settings db) as [st|] eqn:Hs; [|exact Hinv].
    pose proof (Hinv _ (query_settings_In _ _ Hs)) as Hst.
    destruct (query_main_quest db) as [mq|]; [|exact Hinv].
    destruct (ensure_image db mq) as [[db1 mq1] calls1] eqn:E.
    assert (Hdb1 : settings_inv db1).
    { eapply settings_inv_same; [|exact Hinv].
      unfold ensure_image in E. destruct (negb _); inversion E; reflexivity. }
    destruct (quote_is_fresh e st); simpl.
    + exact Hdb1.
    + apply settings_inv_save; [exact Hdb1 | exact Hst].
  - unfold settings_page. destruct (query_settings db); exact Hinv.
  - rewrite reorder_quests_cases. destruct (forallb _ _); cbn [committed]; [|exact Hinv].
    eapply settings_inv_same; [apply assign_loop_settings | exact Hinv].
  - unfold update_settings. destruct (query_settings db) as [st|] eqn:Hs; [|exact Hinv].
    simpl. apply settings_inv_save; [exact Hinv|].
    exact (Hinv _ (query_settings_In _ _ Hs)).
  - exact Hinv.
  - unfold ai_architect. destruct (query_main_quest db) as [mq|]; [|exact Hinv].
    pose proof (architect_loop_settings e mq (generate_subquests e (Quest.title mq)) db) as H.
    destruct (architect_loop e mq _ db) as [db1 saved]. simpl in *.
    eapply settings_inv_same; [exact H | exact Hinv].
  - (* toggle_quest *)
    destruct (query_quest db quest_id) as [q|] eqn:Hq.
    + destruct (query_settings db) as [st|] eqn:Hs.
      * rewrite (toggle_committed _ _ _ _ Hq Hs).
        apply settings_inv_save.
        -- eapply settings_inv_same; [|exact Hinv]. reflexivity.
        -- destruct (Hinv _ (query_settings_In _ _ Hs)) as [H0 _].
           split; simpl; [now apply toggled_xp_nonneg | reflexivity].
      * unfold toggle_quest. rewrite Hq, Hs. exact Hinv.
    + unfold toggle_quest. rewrite Hq. exact Hinv.
  - unfold delete_quest. destruct (query_quest db quest_id) as [q|]; [|exact Hinv].
    destruct (Py.truthy_oint _); [|exact Hinv].
    destruct (Quest.parent_id q); [|exact Hinv].
    destruct (parent_progress _ _); exact Hinv.
  - unfold add_quest. destruct (query_main_quest db); [|exact Hinv].
    simpl. exact Hinv.
  - unfold edit_quest_form. destruct (query_quest db quest_id); exact Hinv.
  - unfold cancel_edit_quest. rewrite card_response_committed. exact Hinv.
  - unfold update_quest. destruct (query_quest db quest_id); simpl; exact Hinv.
  - unfold onboarding_submit. simpl.
    unfold query_settings. simpl.
    destruct (settings db) as [|s l] eqn:Hsl; simpl.
    + intros st [<-|[]]. split; simpl; [unfold Settings.default_xp; lia | reflexivity].
    + intros st Hin. apply Hinv. rewrite Hsl. exact Hin.
  - exact Hinv.
  - intros st [].
Qed.

(** C2: every operation preserves the invariant of the settings rows, a
    non-negative XP and the level [1 + xp // 500], from any store that has
    it, reachable or not; so every reachable store has it; and in any store,
    with or without the invariant, unchecking a completed quest stores the
    clamped XP [max(0, xp - 100)] together with the level recomputed from
    it, which is an XP and a level as the invariant asks. *)
Theorem xp_level_invariant :
  (forall e r db,
     (forall st, In st (settings db) ->
        0 <= Settings.xp st /\ Settings.level st = 1 + Settings.xp st / 500) ->
     forall st, In st (settings (step e r db)) ->
       0 <= Settings.xp st /\ Settings.level st = 1 + Settings.xp st / 500)
  /\ (forall db, reachable db ->
        forall st, In st (settings db) ->
          0 <= Settings.xp st /\ Settings.level st = 1 + Settings.xp st / 500)
  /\ (forall quest_id db q st,
        query_quest db quest_id = Some q ->
        Quest.is_completed q = true ->
        query_settings db = Some st ->
        exists st1,
          query_settings (committed (toggle_quest quest_id db)) = Some st1
          /\ Settings.xp st1 = Z.max 0 (Settings.xp st - 100)
          /\ Settings.level st1 = 1 + Settings.xp st1 / 500
          /\ 0 <= Settings.xp st1).
Proof.
  split; [|split].
  - intros e r db Hinv. exact (step_settings_inv e r db Hinv).
  - intros db Hr. induction Hr as [|e r db Hr IH].
    + intros st [].
    + exact (step_settings_inv e r db IH).
  - intros quest_id db q st Hq Hc Hs.
    destruct (toggle_queries _ _ _ _ Hq Hs) as [_ Hs1].
    eexists. split; [exact Hs1|].
    simpl. rewrite Hc. split; [reflexivity|]. split; [reflexivity|].
    apply Z.le_max_l.
Qed.

Lemma xp_level_invariant_witness :
  query_settings migrated_db = Some (Settings.mk 1 "Hero" "Cyberpunk" 0 1 None None)
  /\ exists st1,
       query_settings (committed (toggle_quest 2 migrated_db)) = Some st1
       /\ Settings.xp st1 = 0
       /\ Settings.level st1 = 1.
Proof.
  split; [reflexivity|].
  destruct xp_level_invariant as [_ [_ H]].
  destruct (H 2 migrated_db _ _ eq_refl eq_refl eq_refl) as [st1 [H1 [H2 [H3 _]]]].
  exists st1. split; [exact H1|]. split.
  - rewrite H2. reflexivity.
  - rewrite H3, H2. reflexivity.
Defined.

(** ** Requests that name a missing quest *)

(** C3 (the code at the failing input): on a quest id that is not in the
    store, [toggle_quest], [cancel_edit_quest] and [update_quest] raise
    [AttributeError] (nothing is committed), where [delete_quest] and
    [edit_quest_form] answer with an empty body. *)
Theorem missing_quest_raises (e : Env) (quest_id : Z) (title : string)
    (deadline : option string) (db : Store) :
  query_quest db quest_id = None ->
  toggle_quest quest_id db = mkOutcome db [] (Raise Py.AttributeError)
  /\ cancel_edit_quest e quest_id db = mkOutcome db [] (Raise Py.AttributeError)
  /\ update_quest e quest_id title deadline db = mkOutcome db [] (Raise Py.AttributeError)
  /\ delete_quest quest_id db = mkOutcome db [] (Ok (Body ""))
  /\ edit_quest_form quest_id db = mkOutcome db [] (Ok (Body "")).
Proof.
  intros H.
  unfold toggle_quest, cancel_edit_quest, update_quest, delete_quest, edit_quest_form.
  rewrite H. repeat split; reflexivity.
Qed.

Lemma missing_quest_raises_witness :
  toggle_quest 42 onboarded = mkOutcome onboarded [] (Raise Py.AttributeError)
  /\ cancel_edit_quest demo_env 42 onboarded = mkOutcome onboarded [] (Raise Py.AttributeError)
  /\ update_quest demo_env 42 "Title" None onboarded
     = mkOutcome onboarded [] (Raise Py.AttributeError)
  /\ delete_quest 42 onboarded = mkOutcome onboarded [] (Ok (Body ""))
  /\ edit_quest_form 42 onboarded = mkOutcome onboarded [] (Ok (Body "")).
Proof.
  apply (missing_quest_raises demo_env 42 "Title" None onboarded).
  reflexivity.
Defined.

(** ** Position of the quests of the Quest Architect *)

(** C5 (the code at the failing input): the quest [ai_architect] builds is a
    child of the Main Quest and gets the default position 0; after two manual
    sub-quests (positions 0 and 1) the new quest 4 is listed before quest 3. *)
Theorem architect_not_appended :
  (forall e mq task new_id,
     Quest.parent_id (architect_quest e mq task new_id) = Some (Quest.id mq)
     /\ Quest.position (architect_quest e mq task new_id) = 0)
  /\ map (fun q => (Quest.id q, Quest.position q)) (subquests_of (add_many 2 onboarded) 1)
     = [(2, 0); (3, 1)]
  /\ map (fun q => (Quest.id q, Quest.position q)) (subquests_of after_architect 1)
     = [(2, 0); (4, 0); (3, 1)].
Proof.
  split; [intros; split; reflexivity|].
  vm_compute. split; reflexivity.
Qed.

(** ** The edit form *)

Lemma update_committed (e : Env) (quest_id : Z) (title : string) (deadline : option string)
    (db : Store) (q : Quest.t) :
  query_quest db quest_id = Some q ->
  update_quest e quest_id title deadline db
  = let q2 := Quest.set_deadline (Quest.set_title q title)
                (updated_deadline (Quest.deadline q) deadline) in
    mkOutcome (save_quest db q2) [] (Ok (Cards [quest_card e q2])).
Proof.
  intros Hq. unfold update_quest. rewrite Hq.
  destruct deadline as [[|c s]|]; cbv zeta;
    unfold Py.truthy_ostr, Py.truthy_str, updated_deadline.
  - destruct q; reflexivity.
  - destruct (datetime.strptime (String c s)); destruct q; reflexivity.
  - destruct q; reflexivity.
Qed.

(** C6 (counterexample): a quest with the deadline 2026-12-31 keeps it when
    the form sends a date that does not parse. *)
Lemma invalid_date_keeps_deadline :
  option_map Quest.deadline (query_quest with_deadline 2)
  = Some (Some (datetime.mk 739981 0))
  /\ datetime.strptime "31/12/2026" = None
  /\ option_map Quest.deadline
       (query_quest (step demo_env (PutQuest 2 "Research Running Shoes" (Some "31/12/2026"))
                       with_deadline) 2)
     = Some (Some (datetime.mk 739981 0)).
Proof.
  vm_compute. repeat split; reflexivity.
Qed.

(** C6 (amended): an update of an existing quest answers with the card and
    raises nothing; an absent or empty date clears the deadline, a date that
    does not parse leaves the deadline the quest had, a date that parses
    replaces it. *)
Theorem update_quest_deadline (e : Env) (quest_id : Z) (title : string)
    (deadline : option string) (db : Store) (q : Quest.t) :
  query_quest db quest_id = Some q ->
  exists q1,
    query_quest (step e (PutQuest quest_id title deadline) db) quest_id = Some q1
    /\ response (update_quest e quest_id title deadline db) = Ok (Cards [quest_card e q1])
    /\ (Py.truthy_ostr deadline = false -> Quest.deadline q1 = None)
    /\ (forall s, deadline = Some s -> Py.truthy_str s = true ->
        datetime.strptime s = None -> Quest.deadline q1 = Quest.deadline q)
    /\ (forall s d, deadline = Some s -> Py.truthy_str s = true ->
        datetime.strptime s = Some d -> Quest.deadline q1 = Some d).
Proof.
  intros Hq. unfold step, handle. rewrite (update_committed e _ title deadline _ _ Hq).
  cbv zeta. eexists. split; [|split; [reflexivity|]].
  - simpl. pose proof (query_quest_id _ _ _ Hq) as Hid. rewrite <- Hid in Hq |- *.
    exact (query_quest_save_same db q
             (Quest.set_deadline (Quest.set_title q title) _) Hq).
  - simpl. repeat split.
    + destruct deadline as [[|c s]|]; simpl; intros H; try reflexivity; discriminate.
    + intros s -> Hs Hp. destruct s; [discriminate|].
      unfold updated_deadline. now rewrite Hp.
    + intros s d -> Hs Hp. destruct s; [discriminate|].
      unfold updated_deadline. now rewrite Hp.
Qed.

Lemma update_quest_deadline_witness :
  exists q1,
    query_quest (step demo_env (PutQuest 2 "Shoes" (Some "31/12/2026")) with_deadline) 2
    = Some q1
    /\ Quest.deadline q1 = Some (datetime.mk 739981 0).
Proof.
  destruct (update_quest_deadline demo_env 2 "Shoes" (Some "31/12/2026") with_deadline _
              eq_refl) as [q1 [H1 [_ [_ [H2 _]]]]].
  exists q1. split; [exact H1|].
  exact (H2 "31/12/2026" eq_refl eq_refl eq_refl).
Defined.

(** ** Duration texts of the Quest Architect *)

(** The days computed by the handler are the first integer times the factor
    of the first unit of the table, 0 without a unit. *)
Lemma days_to_add_units (text : string) :
  days_to_add text
  = match first_unit text with
    | Some (_, factor) => first_integer text * factor
    | None => 0
    end.
Proof.
  unfold days_to_add, first_unit, first_integer, unit_factors. simpl.
  destruct (Py.contains "month" text); [reflexivity|].
  destruct (Py.contains "week" text); [reflexivity|].
  destruct (Py.contains "day" text); [lia|].
  destruct (Py.contains "year" text); reflexivity.
Qed.

(** C7 (counterexample): in "0 weeks" the unit week is found and the first
    integer is 0; an offset of 0 days from now is the present instant, but
    the quest gets no deadline. *)
Lemma zero_weeks_no_deadline :
  first_unit (Py.lower "0 weeks") = Some ("week", 7)
  /\ first_integer (Py.lower "0 weeks") = 0
  /\ datetime.add_days (now demo_env) (0 * 7) = Some (now demo_env)
  /\ Quest.deadline (architect_quest demo_env demo_main (demo_task "0 weeks") 2) = None.
Proof.
  vm_compute. repeat split; reflexivity.
Qed.

(** The guarded addition of the [try] block, by cases on the days. *)
Lemma guarded_add_days (clock : datetime.t) (days : Z) :
  (0 < days -> 1 <= datetime.ordinal clock ->
   datetime.ordinal clock + days <= datetime.MAXORDINAL ->
   (if days >? 0 then datetime.add_days clock days else None)
   = Some (datetime.mk (datetime.ordinal clock + days) (datetime.micros clock)))
  /\ (days <= 0 -> (if days >? 0 then datetime.add_days clock days else None) = None)
  /\ (datetime.MAXORDINAL < datetime.ordinal clock + days ->
      (if days >? 0 then datetime.add_days clock days else None) = None).
Proof.
  unfold datetime.add_days, datetime.MAXORDINAL, datetime.MAXDAYS.
  destruct clock as [o m]. cbn [datetime.ordinal datetime.micros].
  destruct (Z.gtb_spec days 0) as [Hpos|Hnpos].
  - destruct (Z.gtb_spec (Z.abs days) 999999999) as [Hbig|Hsmall].
    + repeat split; intros; try reflexivity; lia.
    + destruct (Z.leb_spec 1 (o + days)); destruct (Z.leb_spec (o + days) 3652059);
        cbn [andb]; repeat split; intros; try reflexivity; lia.
  - repeat split; intros; try reflexivity; lia.
Qed.

(** C7 (amended): the description keeps the duration text after the prefix
    "Duration: "; without a unit keyword the deadline is null; with the first
    unit keyword found (month 30, week 7, day 1, year 365) and the first
    integer of the text (1 if none), a positive product that stays within
    the range of dates is the offset in days of the deadline from now, and a
    product of zero or one beyond that range leaves the deadline null. *)
Theorem architect_duration (e : Env) (main_quest : Quest.t) (task : ai_service.task)
    (new_id : Z) :
  Quest.description (architect_quest e main_quest task new_id)
  = Some (String.append "Duration: " (ai_service.task_deadline task))
  /\ (first_unit (Py.lower (ai_service.task_deadline task)) = None ->
      Quest.deadline (architect_quest e main_quest task new_id) = None)
  /\ (forall unit factor,
      first_unit (Py.lower (ai_service.task_deadline task)) = Some (unit, factor) ->
      (0 < first_integer (Py.lower (ai_service.task_deadline task)) * factor ->
       1 <= datetime.ordinal (now e) ->
       datetime.ordinal (now e)
       + first_integer (Py.lower (ai_service.task_deadline task)) * factor
       <= datetime.MAXORDINAL ->
       Quest.deadline (architect_quest e main_quest task new_id)
       = Some (datetime.mk
                 (datetime.ordinal (now e)
                  + first_integer (Py.lower (ai_service.task_deadline task)) * factor)
                 (datetime.micros (now e))))
      /\ (first_integer (Py.lower (ai_service.task_deadline task)) * factor <= 0 ->
          Quest.deadline (architect_quest e main_quest task new_id) = None)
      /\ (datetime.MAXORDINAL
          < datetime.ordinal (now e)
            + first_integer (Py.lower (ai_service.task_deadline task)) * factor ->
          Quest.deadline (architect_quest e main_quest task new_id) = None))
  /\ days_to_add (Py.lower "2 weeks") = 14
  /\ days_to_add (Py.lower "1 month") = 30
  /\ days_to_add (Py.lower "10 days") = 10.
Proof.
  change (Quest.description (architect_quest e main_quest task new_id))
    with (Some (String.append "Duration: " (ai_service.task_deadline task))).
  change (Quest.deadline (architect_quest e main_quest task new_id))
    with (if days_to_add (Py.lower (ai_service.task_deadline task)) >? 0
          then datetime.add_days (now e)
                 (days_to_add (Py.lower (ai_service.task_deadline task)))
          else None).
  rewrite days_to_add_units.
  generalize (first_integer (Py.lower (ai_service.task_deadline task))) as num.
  generalize (first_unit (Py.lower (ai_service.task_deadline task))) as u.
  intros u num. split; [reflexivity|]. split; [|split].
  - intros ->. reflexivity.
  - intros unit factor ->. exact (guarded_add_days (now e) (num * factor)).
  - split; [|split]; vm_compute; reflexivity.
Qed.

Lemma architect_duration_witness :
  Quest.description (architect_quest demo_env demo_main (demo_task "2 Weeks") 2)
  = Some "Duration: 2 Weeks"
  /\ Quest.deadline (architect_quest demo_env demo_main (demo_task "2 Weeks") 2)
     = Some (datetime.mk 739014 3600000000)
  /\ Quest.deadline (architect_quest demo_env demo_main (demo_task "soon") 2) = None.
Proof.
  destruct (architect_duration demo_env demo_main (demo_task "2 Weeks") 2)
    as [H1 [_ [H3 _]]].
  destruct (architect_duration demo_env demo_main (demo_task "soon") 2)
    as [_ [H2 _]].
  split; [exact H1|]. split.
  - destruct (H3 "week" 7 eq_refl) as [H _].
    apply H; vm_compute; congruence.
  - apply H2. reflexivity.
Defined.

(** ** The daily quote *)

Lemma ensure_image_facts (db db1 : Store) (mq mq1 : Quest.t) (calls1 : list ai_call) :
  ensure_image db mq = (db1, mq1, calls1) ->
  settings db1 = settings db
  /\ Quest.title mq1 = Quest.title mq
  /\ (forall t, ~ In (CallGenerateMotivation t) calls1).
Proof.
  unfold ensure_image. destruct (negb _); intros [= <- <- <-]; repeat split;
    try reflexivity; intros t Hin; simpl in Hin; intuition discriminate.
Qed.

(** C8: on a dashboard load with a Main Quest, a quote stamped today (UTC)
    is shown as it is, without a call to [generate_motivation] and without a
    change of the settings row; a quote of another day, or none, is replaced
    by the answer of [generate_motivation], stamped with the present instant;
    without a Main Quest no call is made and nothing is committed. *)
Theorem daily_quote_cache (e : Env) (db : Store) (st : Settings.t) :
  query_settings db = Some st ->
  (forall mq d,
     query_main_quest db = Some mq ->
     Settings.last_quote_date st = Some d ->
     datetime.date d = datetime.date (utcnow e) ->
     query_settings (step e GetRoot db) = Some st
     /\ (forall t, ~ In (CallGenerateMotivation t) (calls (read_root e db)))
     /\ exists m subs x, response (read_root e db) = Ok (Dashboard m subs st x))
  /\ (forall mq,
        query_main_quest db = Some mq ->
        (Settings.last_quote_date st = None
         \/ exists d, Settings.last_quote_date st = Some d
                      /\ datetime.date d <> datetime.date (utcnow e)) ->
        In (CallGenerateMotivation (Quest.title mq)) (calls (read_root e db))
        /\ exists st1,
             query_settings (step e GetRoot db) = Some st1
             /\ Settings.daily_quote st1 = Some (generate_motivation e (Quest.title mq))
             /\ Settings.last_quote_date st1 = Some (utcnow e)
             /\ exists m subs x, response (read_root e db) = Ok (Dashboard m subs st1 x))
  /\ (query_main_quest db = None ->
      calls (read_root e db) = [] /\ step e GetRoot db = db).
Proof.
  intros Hs. unfold step, handle, read_root. rewrite Hs. split; [|split].
  - intros mq d Hm Hd Hday. rewrite Hm.
    destruct (ensure_image db mq) as [[db1 mq1] calls1] eqn:E.
    destruct (ensure_image_facts _ _ _ _ _ E) as [Hset [_ Hcalls]].
    assert (Hfresh : quote_is_fresh e st = true)
      by (unfold quote_is_fresh; rewrite Hd; now apply Z.eqb_eq).
    rewrite Hfresh. simpl. repeat split.
    + unfold query_settings in *. now rewrite Hset.
    + exact Hcalls.
    + eauto.
  - intros mq Hm Hstale. rewrite Hm.
    destruct (ensure_image db mq) as [[db1 mq1] calls1] eqn:E.
    destruct (ensure_image_facts _ _ _ _ _ E) as [Hset [Htitle _]].
    assert (Hfresh : quote_is_fresh e st = false).
    { unfold quote_is_fresh. destruct Hstale as [->|[d [-> Hne]]]; [reflexivity|].
      now apply Z.eqb_neq. }
    rewrite Hfresh. simpl. rewrite Htitle. split.
    + apply in_or_app. right. now left.
    + eexists. split.
      * apply query_settings_save with (st := st); [|reflexivity].
        unfold query_settings in *. now rewrite Hset.
      * split; [reflexivity|]. split; [reflexivity|]. eauto.
  - intros ->. split; reflexivity.
Qed.

Lemma daily_quote_cache_witness :
  In (CallGenerateMotivation "Run a Marathon") (calls (read_root demo_env onboarded))
  /\ (forall t, ~ In (CallGenerateMotivation t)
                  (calls (read_root demo_env (step demo_env GetRoot onboarded)))).
Proof.
  split.
  - destruct (daily_quote_cache demo_env onboarded _ eq_refl) as [_ [H _]].
    destruct (H demo_main eq_refl (or_introl eq_refl)) as [Hin _]. exact Hin.
  - destruct (daily_quote_cache demo_env (step demo_env GetRoot onboarded) _ eq_refl)
      as [H _].
    destruct (H demo_main (utcnow demo_env) eq_refl eq_refl eq_refl) as [_ [Hno _]].
    exact Hno.
Defined.

(** ** Frame of the quest update *)

(** C10: the update of an existing quest writes the title and the deadline
    (null when the form sends no date or an empty one) and nothing else: the
    other columns of the quest, the other quests and the settings stay. *)
Theorem update_quest_frame (e : Env) (quest_id : Z) (title : string)
    (deadline : option string) (db : Store) (q : Quest.t) :
  query_quest db quest_id = Some q ->
  exists q1,
    query_quest (step e (PutQuest quest_id title deadline) db) quest_id = Some q1
    /\ Quest.title q1 = title
    /\ (Py.truthy_ostr deadline = false -> Quest.deadline q1 = None)
    /\ Quest.id q1 = Quest.id q
    /\ Quest.category q1 = Quest.category q
    /\ Quest.parent_id q1 = Quest.parent_id q
    /\ Quest.is_completed q1 = Quest.is_completed q
    /\ Quest.position q1 = Quest.position q
    /\ Quest.description q1 = Quest.description q
    /\ Quest.image_url q1 = Quest.image_url q
    /\ Quest.created_at q1 = Quest.created_at q
    /\ (forall other, other <> quest_id ->
        query_quest (step e (PutQuest quest_id title deadline) db) other
        = query_quest db other)
    /\ settings (step e (PutQuest quest_id title deadline) db) = settings db.
Proof.
  intros Hq. unfold step, handle. rewrite (update_committed e _ title deadline _ _ Hq).
  cbv zeta. cbn [committed].
  pose proof (query_quest_id _ _ _ Hq) as Hid.
  eexists. split.
  - rewrite <- Hid in Hq |- *.
    exact (query_quest_save_same db q
             (Quest.set_deadline (Quest.set_title q title) _) Hq).
  - cbn [Quest.set_deadline Quest.set_title Quest.title Quest.deadline Quest.id
         Quest.category Quest.parent_id Quest.is_completed Quest.position
         Quest.description Quest.image_url Quest.created_at].
    repeat split.
    + destruct deadline as [[|c s]|]; intros H; try reflexivity; discriminate.
    + intros other Hne. apply query_quest_save_other.
      cbn [Quest.set_deadline Quest.set_title Quest.id]. congruence.
Qed.

Lemma update_quest_frame_witness :
  exists q1,
    query_quest (step demo_env (PutQuest 2 "Buy shoes" (Some "")) with_deadline) 2 = Some q1
    /\ Quest.title q1 = "Buy shoes"
    /\ Quest.deadline q1 = None
    /\ Quest.category q1 = Some "General"
    /\ Quest.parent_id q1 = Some 1.
Proof.
  destruct (update_quest_frame demo_env 2 "Buy shoes" (Some "") with_deadline _ eq_refl)
    as [q1 [H1 [H2 [H3 [_ [H5 [H6 _]]]]]]].
  exists q1. repeat split; [exact H1 | exact H2 | exact (H3 eq_refl) | exact H5 | exact H6].
Defined.

(** ** At most one Main Quest *)

(** C9 (counterexample): the onboarding form submitted a second time adds a
    second quest of category "Main". *)
Lemma second_onboarding_two_mains :
  reachable onboarded_twice
  /\ count_main onboarded = 1%nat
  /\ count_main onboarded_twice = 2%nat.
Proof.
  split; [|split; vm_compute; reflexivity].
  unfold onboarded_twice, onboarded. repeat apply reachable_step. apply reachable_empty.
Qed.

Lemma main_inv_quests (db db1 : Store) :
  quests db1 = quests db -> main_inv db -> main_inv db1.
Proof.
  unfold main_inv, count_main. intros ->. auto.
Qed.

Lemma unique_by_id (l : list Quest.t) (x y : Quest.t) :
  NoDup (map Quest.id l) -> In x l -> In y l -> Quest.id x = Quest.id y -> x = y.
Proof.
  induction l as [|a l IH]; simpl; [tauto|].
  intros Hnd Hx Hy Hid. inversion Hnd as [|? ? Hnotin Hnd']; subst.
  destruct Hx as [->|Hx], Hy as [->|Hy]; auto.
  - exfalso. apply Hnotin. rewrite Hid. now apply in_map.
  - exfalso. apply Hnotin. rewrite <- Hid. now apply in_map.
Qed.

Section RowFlags.

(** A boolean column of the quests, or a test on one: the category test
    [is_main], the column [is_completed]. *)
Variable flag : Quest.t -> bool.

(** A flush that replaces rows by a row of the same key and the same flag
    keeps the keys and the number of flagged rows. *)
Lemma replace_rows (l : list Quest.t) (q1 : Quest.t) :
  (forall x, In x l -> Quest.id x = Quest.id q1 -> flag x = flag q1) ->
  map Quest.id (map (fun x => if Quest.id x =? Quest.id q1 then q1 else x) l)
  = map Quest.id l
  /\ List.length (filter flag
       (map (fun x => if Quest.id x =? Quest.id q1 then q1 else x) l))
     = List.length (filter flag l).
Proof.
  induction l as [|a l IH]; simpl; intros H; [split; reflexivity|].
  destruct IH as [IH1 IH2]; [intros x Hx; apply H; now right|].
  destruct (Quest.id a =? Quest.id q1) eqn:E.
  - apply Z.eqb_eq in E. rewrite <- (H a (or_introl eq_refl) E).
    split; [now rewrite IH1, E|].
    destruct (flag a); simpl; now rewrite IH2.
  - split; [now rewrite IH1|].
    destruct (flag a); simpl; now rewrite IH2.
Qed.

(** Rows rewritten without a change of key or flag. *)
Lemma map_preserving (g : Quest.t -> Quest.t) (l : list Quest.t) :
  (forall x, Quest.id (g x) = Quest.id x /\ flag (g x) = flag x) ->
  map Quest.id (map g l) = map Quest.id l
  /\ List.length (filter flag (map g l)) = List.length (filter flag l).
Proof.
  intros Hg. induction l as [|a l [IH1 IH2]]; cbn [map filter]; [split; reflexivity|].
  destruct (Hg a) as [H1 H2]. rewrite H1, H2, IH1. split; [reflexivity|].
  destruct (flag a); cbn [List.length]; now rewrite IH2.
Qed.

(** Rows removed by a filter. *)
Lemma filter_rows (p : Quest.t -> bool) (l : list Quest.t) :
  NoDup (map Quest.id l) ->
  NoDup (map Quest.id (filter p l))
  /\ (List.length (filter flag (filter p l)) <= List.length (filter flag l))%nat.
Proof.
  induction l as [|a l IH]; cbn [map filter]; intros Hnd; [split; [constructor | lia]|].
  inversion Hnd as [|? ? Hnotin Hnd']; subst.
  destruct (IH Hnd') as [IH1 IH2].
  destruct (p a); cbn [map filter].
  - split.
    + constructor; [|exact IH1]. intros Hin. apply Hnotin.
      apply in_map_iff in Hin as [x [Hx Hin]]. apply filter_In in Hin as [Hin _].
      apply in_map_iff. eauto.
    + destruct (flag a); cbn [List.length]; lia.
  - split; [exact IH1|]. destruct (flag a); cbn [List.length]; lia.
Qed.

(** A flush that replaces the row of a key by one with the opposite flag
    moves the number of flagged rows by one. *)
Lemma flip_row (l : list Quest.t) (q q1 : Quest.t) :
  NoDup (map Quest.id l) -> In q l ->
  Quest.id q1 = Quest.id q -> flag q1 = negb (flag q) ->
  Z.of_nat (List.length (filter flag
              (map (fun x => if Quest.id x =? Quest.id q1 then q1 else x) l)))
  = Z.of_nat (List.length (filter flag l)) + (if flag q then -1 else 1).
Proof.
  intros Hnd Hin Hid Hflag. induction l as [|a l IH]; [destruct Hin|].
  inversion Hnd as [|? ? Hnotin Hnd']; subst.
  cbn [map filter]. destruct Hin as [->|Hin].
  - assert (E : (Quest.id q =? Quest.id q1) = true) by (apply Z.eqb_eq; congruence).
    rewrite E, Hflag.
    destruct (replace_rows l q1) as [_ H2].
    { intros x Hx Hxid. exfalso. apply Hnotin. rewrite <- Hid, <- Hxid. now apply in_map. }
    destruct (flag q); cbn [negb List.length]; rewrite H2; lia.
  - destruct (Quest.id a =? Quest.id q1) eqn:E.
    + exfalso. apply Z.eqb_eq in E. apply Hnotin. rewrite E, Hid. now apply in_map.
    + specialize (IH Hnd' Hin).
      destruct (flag a); cbn [List.length]; lia.
Qed.

End RowFlags.

Lemma save_quest_inv (db : Store) (q q1 : Quest.t) :
  main_inv db -> In q (quests db) ->
  Quest.id q1 = Quest.id q -> is_main q1 = is_main q ->
  main_inv (save_quest db q1).
Proof.
  intros [Hnd Hc] Hin Hid Hm.
  destruct (replace_rows is_main (quests db) q1) as [H1 H2].
  - intros x Hx Hxid.
    rewrite (unique_by_id _ x q Hnd Hx Hin) by congruence. now symmetry.
  - unfold main_inv, count_main, save_quest. simpl. now rewrite H1, H2.
Qed.

Lemma next_id_fresh (l : list Quest.t) (x : Quest.t) :
  In x l -> Quest.id x < next_id Quest.id l.
Proof.
  unfold next_id. induction l as [|a l IH]; cbn [fold_right In]; [tauto|].
  intros [->|Hin].
  - pose proof (Z.le_max_l (Quest.id x) (fold_right (fun r m => Z.max (Quest.id r) m) 0 l)).
    lia.
  - specialize (IH Hin).
    pose proof (Z.le_max_r (Quest.id a) (fold_right (fun r m => Z.max (Quest.id r) m) 0 l)).
    lia.
Qed.

Lemma add_quest_row_inv (db : Store) (mkq : Z -> Quest.t) :
  main_inv db ->
  (forall n, Quest.id (mkq n) = n) ->
  (forall n, is_main (mkq n) = true -> count_main db = 0%nat) ->
  main_inv (fst (add_quest_row db mkq)).
Proof.
  intros [Hnd Hc] Hid Hm. unfold main_inv, count_main, add_quest_row in *. simpl.
  rewrite map_app, filter_app, length_app. simpl. split.
  - rewrite Hid. apply NoDup_app; [exact Hnd | repeat constructor; simpl; tauto |].
    intros k Hk [<-|[]]. apply in_map_iff in Hk as [x [Hx Hin]].
    pose proof (next_id_fresh _ _ Hin). lia.
  - destruct (is_main (mkq _)) eqn:E; simpl; [|lia].
    specialize (Hm _ E). lia.
Qed.

Lemma delete_quest_row_inv (db : Store) (q : Quest.t) :
  main_inv db -> main_inv (delete_quest_row db q).
Proof.
  intros [Hnd Hc]. unfold main_inv, count_main, delete_quest_row in *.
  cbn [quests].
  destruct (filter_rows is_main (fun x => negb (Quest.id x =? Quest.id q)) (quests db) Hnd)
    as [F1 F2].
  destruct (map_preserving is_main
              (fun x => if oint_eqb (Quest.parent_id x) (Quest.id q)
                        then Quest.set_parent_id x None else x)
              (filter (fun x => negb (Quest.id x =? Quest.id q)) (quests db)))
    as [M1 M2].
  - intros x. destruct (oint_eqb _ _); split; reflexivity.
  - rewrite M1, M2. split; [exact F1 | lia].
Qed.

Lemma no_main_count (db : Store) :
  query_main_quest db = None -> count_main db = 0%nat.
Proof.
  unfold query_main_quest, count_main. fold is_main.
  induction (quests db) as [|a l IH]; simpl; [reflexivity|].
  destruct (is_main a); [discriminate | exact IH].
Qed.

Lemma query_main_In (db : Store) (mq : Quest.t) :
  query_main_quest db = Some mq -> In mq (quests db).
Proof.
  unfold query_main_quest. intros H. now apply find_some in H as [H _].
Qed.

Lemma assign_loop_inv (item : list string) (index : Z) (db : Store) :
  main_inv db -> main_inv (assign_loop index item db).
Proof.
  revert index db. induction item as [|s item IH]; intros index db Hinv; simpl; [exact Hinv|].
  apply IH. unfold assign_one.
  destruct (token_id _) as [quest_id|]; [|exact Hinv].
  destruct (query_quest db quest_id) as [q|] eqn:Hq; [|exact Hinv].
  apply save_quest_inv with (q := q); eauto using query_quest_In.
Qed.

Lemma architect_loop_inv (e : Env) (mq : Quest.t) (tasks : list ai_service.task)
    (db : Store) :
  main_inv db ->
  (forall t, In t tasks -> ai_service.task_category t <> "Main") ->
  main_inv (fst (architect_loop e mq tasks db)).
Proof.
  revert db. induction tasks as [|t tasks IH]; intros db Hinv Hcat; simpl; [exact Hinv|].
  pose proof (add_quest_row_inv db (architect_quest e mq t) Hinv) as Hadd.
  unfold add_quest_row in *. simpl in Hadd.
  specialize (IH (mkStore (quests db
      ++ [architect_quest e mq t (next_id Quest.id (quests db))]) (settings db))).
  destruct (architect_loop e mq tasks _) as [db2 saved]. simpl in *.
  apply IH.
  - apply Hadd; [reflexivity|].
    intros n Hn. unfold is_main, architect_quest in Hn. simpl in Hn.
    apply String.eqb_eq in Hn. exfalso. exact (Hcat t (or_introl eq_refl) Hn).
  - intros t1 Ht1. apply Hcat. now right.
Qed.

(** Every such request keeps the keys unique and the Main Quest single. *)
Lemma step_main_inv (e : Env) (r : Request) (db : Store) :
  main_inv db -> keeps_single_main e r db -> main_inv (step e r db).
Proof.
  intros Hinv Hg. unfold step, handle. destruct r.
  - unfold read_root. destruct (query_settings db) as [st|]; [|exact Hinv].
    destruct (query_main_quest db) as [mq|] eqn:Hm; [|exact Hinv].
    destruct (ensure_image db mq) as [[db1 mq1] calls1] eqn:E.
    assert (Hdb1 : main_inv db1).
    { unfold ensure_image in E. destruct (negb _); inversion E; subst; [|exact Hinv].
      apply save_quest_inv with (q := mq); eauto using query_main_In. }
    destruct (quote_is_fresh e st); simpl; [exact Hdb1|].
    eapply main_inv_quests; [|exact Hdb1]. reflexivity.
  - unfold settings_page. destruct (query_settings db); exact Hinv.
  - rewrite reorder_quests_cases. destruct (forallb _ _); cbn [committed]; [|exact Hinv].
    now apply assign_loop_inv.
  - unfold update_settings. destruct (query_settings db); [|exact Hinv].
    simpl. eapply main_inv_quests; [|exact Hinv]. reflexivity.
  - exact Hinv.
  - unfold ai_architect. destruct (query_main_quest db) as [mq|] eqn:Hm; [|exact Hinv].
    pose proof (architect_loop_inv e mq (generate_subquests e (Quest.title mq)) db Hinv)
      as H.
    destruct (architect_loop e mq _ db) as [db1 saved]. simpl in *.
    apply H. intros t Ht. exact (Hg mq t Hm Ht).
  - destruct (query_quest db quest_id) as [q|] eqn:Hq.
    + destruct (query_settings db) as [st|] eqn:Hs.
      * rewrite (toggle_committed _ _ _ _ Hq Hs).
        eapply main_inv_quests; [reflexivity|].
        apply save_quest_inv with (q := q); eauto using query_quest_In.
      * unfold toggle_quest. rewrite Hq, Hs. exact Hinv.
    + unfold toggle_quest. rewrite Hq. exact Hinv.
  - unfold delete_quest. destruct (query_quest db quest_id) as [q|]; [|exact Hinv].
    pose proof (delete_quest_row_inv db q Hinv) as Hdel.
    destruct (Py.truthy_oint _); [|exact Hdel].
    destruct (Quest.parent_id q); [|exact Hdel].
    destruct (parent_progress _ _); exact Hdel.
  - unfold add_quest. destruct (query_main_quest db) as [mq|]; [|exact Hinv].
    simpl in Hg. simpl.
    refine (add_quest_row_inv db
              (fun new_id => Quest.mk new_id title (Some "Manual Entry") (Some category)
                               (Some (Quest.id mq)) false None (utcnow e) None
                               (count_children db (Quest.id mq))) Hinv _ _).
    + reflexivity.
    + intros n Hn. unfold is_main in Hn. simpl in Hn.
      apply String.eqb_eq in Hn. contradiction.
  - unfold edit_quest_form. destruct (query_quest db quest_id); exact Hinv.
  - unfold cancel_edit_quest. rewrite card_response_committed. exact Hinv.
  - destruct (query_quest db quest_id) as [q|] eqn:Hq.
    + rewrite (update_committed e _ title deadline _ _ Hq). cbv zeta. cbn [committed].
      apply save_quest_inv with (q := q); eauto using query_quest_In.
    + unfold update_quest. rewrite Hq. exact Hinv.
  - simpl in Hg. unfold onboarding_submit.
    match goal with
    | |- main_inv (committed (let '(db1, _) := add_quest_row db ?f in _)) =>
        pose proof (add_quest_row_inv db f Hinv (fun n => eq_refl)
                      (fun n _ => no_main_count db Hg)) as Hadd
    end.
    unfold add_quest_row in *. simpl in Hadd. simpl.
    destruct (query_settings _); (eapply main_inv_quests; [|exact Hadd]); reflexivity.
  - exact Hinv.
  - split; [apply NoDup_nil | unfold count_main; simpl; lia].
Qed.

(** C9 (amended): every operation keeps the primary keys unique and at
    most one quest of the category "Main", from any store where that holds,
    when the onboarding form is submitted only without a Main Quest and no
    added or AI-supplied category is "Main"; so in every store reachable by
    such requests at most one quest has the category "Main". *)
Theorem single_main_quest :
  (forall e r db,
     NoDup (map Quest.id (quests db)) -> (count_main db <= 1)%nat ->
     keeps_single_main e r db ->
     NoDup (map Quest.id (quests (step e r db))) /\ (count_main (step e r db) <= 1)%nat)
  /\ (forall db, reachable_guarded db -> (count_main db <= 1)%nat).
Proof.
  split.
  - intros e r db Hnd Hc Hg. exact (step_main_inv e r db (conj Hnd Hc) Hg).
  - intros db Hr.
    assert (H : main_inv db).
    { induction Hr as [|e r db Hr IH Hg].
      - split; [apply NoDup_nil | unfold count_main; simpl; lia].
      - now apply step_main_inv. }
    exact (proj2 H).
Qed.

Lemma single_main_quest_witness : (count_main (add_many 2 onboarded) <= 1)%nat.
Proof.
  apply (proj2 single_main_quest (add_many 2 onboarded)).
  unfold add_many, onboarded.
  repeat (apply guarded_step; [|simpl; try reflexivity; discriminate]).
  apply guarded_empty.
Defined.

(** ** Completed quests are paid for *)

Lemma paid_inv_rows (db db1 : Store) :
  paid_inv db ->
  NoDup (map Quest.id (quests db1)) ->
  settings db1 = settings db ->
  (quests db = [] -> quests db1 = []) ->
  completed_count db1 <= completed_count db ->
  paid_inv db1.
Proof.
  intros [Hnd [Hempty Hpaid]] Hnd1 Hset Hq Hc. split; [exact Hnd1|]. split.
  - rewrite Hset. auto.
  - intros st Hs. unfold query_settings in *. rewrite Hset in Hs.
    specialize (Hpaid st Hs). unfold xp_gain in *. lia.
Qed.

Lemma save_quest_paid (db : Store) (q q1 : Quest.t) :
  paid_inv db -> In q (quests db) ->
  Quest.id q1 = Quest.id q -> Quest.is_completed q1 = Quest.is_completed q ->
  paid_inv (save_quest db q1).
Proof.
  intros Hinv Hin Hid Hflag. pose proof Hinv as [Hnd _].
  destruct (replace_rows Quest.is_completed (quests db) q1) as [H1 H2].
  - intros x Hx Hxid.
    rewrite (unique_by_id _ x q Hnd Hx Hin) by congruence. now symmetry.
  - apply (paid_inv_rows db); [exact Hinv | | reflexivity | |].
    + unfold save_quest. cbn [quests]. now rewrite H1.
    + unfold save_quest. cbn [quests]. now intros ->.
    + unfold completed_count, save_quest. cbn [quests]. rewrite H2. lia.
Qed.

Lemma save_settings_paid (db : Store) (st st1 : Settings.t) :
  paid_inv db -> query_settings db = Some st ->
  Settings.id st1 = Settings.id st ->
  xp_gain * completed_count db <= Settings.xp st1 ->
  paid_inv (save_settings db st1).
Proof.
  intros [Hnd [Hempty Hpaid]] Hs Hid Hxp. split; [exact Hnd|]. split.
  - unfold save_settings. cbn [settings quests]. intros H.
    apply map_eq_nil in H. auto.
  - intros st2 Hs2. rewrite (query_settings_save db st st1 Hs Hid) in Hs2.
    injection Hs2 as <-. exact Hxp.
Qed.

Lemma add_quest_row_paid (db : Store) (mkq : Z -> Quest.t) :
  paid_inv db ->
  (forall n, Quest.id (mkq n) = n) ->
  (forall n, Quest.is_completed (mkq n) = false) ->
  settings db <> [] ->
  paid_inv (fst (add_quest_row db mkq)).
Proof.
  intros [Hnd [Hempty Hpaid]] Hid Hflag Hset.
  unfold paid_inv, completed_count, add_quest_row in *. cbn [fst quests settings].
  rewrite map_app, filter_app, length_app. cbn [map filter].
  rewrite Hid, Hflag. cbn [List.length]. split; [|split].
  - apply NoDup_app; [exact Hnd | repeat constructor; simpl; tauto |].
    intros k Hk [<-|[]]. apply in_map_iff in Hk as [x [Hx Hin]].
    pose proof (next_id_fresh _ _ Hin). lia.
  - intros H. contradiction.
  - intros st Hs. specialize (Hpaid st Hs). lia.
Qed.

Lemma delete_quest_row_paid (db : Store) (q : Quest.t) :
  paid_inv db -> paid_inv (delete_quest_row db q).
Proof.
  intros Hinv. pose proof Hinv as [Hnd _].
  destruct (filter_rows Quest.is_completed
              (fun x => negb (Quest.id x =? Quest.id q)) (quests db) Hnd) as [F1 F2].
  destruct (map_preserving Quest.is_completed
              (fun x => if oint_eqb (Quest.parent_id x) (Quest.id q)
                        then Quest.set_parent_id x None else x)
              (filter (fun x => negb (Quest.id x =? Quest.id q)) (quests db)))
    as [M1 M2].
  { intros x. destruct (oint_eqb _ _); split; reflexivity. }
  apply (paid_inv_rows db); [exact Hinv | | reflexivity | |].
  - unfold delete_quest_row. cbn [quests]. now rewrite M1.
  - unfold delete_quest_row. cbn [quests]. now intros ->.
  - unfold completed_count, delete_quest_row. cbn [quests]. rewrite M2. lia.
Qed.

Lemma assign_loop_paid (item : list string) (index : Z) (db : Store) :
  paid_inv db -> paid_inv (assign_loop index item db).
Proof.
  revert index db. induction item as [|s item IH]; intros index db Hinv; simpl; [exact Hinv|].
  apply IH. unfold assign_one.
  destruct (token_id _) as [quest_id|]; [|exact Hinv].
  destruct (query_quest db quest_id) as [q|] eqn:Hq; [|exact Hinv].
  apply save_quest_paid with (q := q); eauto using query_quest_In.
Qed.

Lemma architect_loop_paid (e : Env) (mq : Quest.t) (tasks : list ai_service.task)
    (db : Store) :
  paid_inv db -> settings db <> [] ->
  paid_inv (fst (architect_loop e mq tasks db)).
Proof.
  revert db. induction tasks as [|t tasks IH]; intros db Hinv Hset; simpl; [exact Hinv|].
  pose proof (add_quest_row_paid db (architect_quest e mq t) Hinv
                (fun n => eq_refl) (fun n => eq_refl) Hset) as Hadd.
  unfold add_quest_row in *. cbn [fst] in Hadd.
  specialize (IH (mkStore (quests db
      ++ [architect_quest e mq t (next_id Quest.id (quests db))]) (settings db))).
  destruct (architect_loop e mq tasks _) as [db2 saved]. cbn [fst] in *.
  apply IH; [exact Hadd | exact Hset].
Qed.

Lemma has_rows_has_settings (db : Store) (q : Quest.t) :
  paid_inv db -> In q (quests db) -> settings db <> [].
Proof.
  intros [_ [Hempty _]] Hin Hset. rewrite (Hempty Hset) in Hin. destruct Hin.
Qed.

Lemma toggle_paid (quest_id : Z) (db : Store) (q : Quest.t) (st : Settings.t) :
  paid_inv db ->
  query_quest db quest_id = Some q ->
  query_settings db = Some st ->
  paid_inv (committed (toggle_quest quest_id db)).
Proof.
  intros Hinv Hq Hs.
  destruct (toggle_queries _ _ _ _ Hq Hs) as [_ Hs1].
  rewrite (toggle_committed _ _ _ _ Hq Hs) in Hs1 |- *.
  pose proof Hinv as [Hnd [Hempty Hpaid]].
  pose proof (query_quest_In _ _ _ Hq) as Hin.
  pose proof (flip_row Quest.is_completed (quests db) q
                (Quest.set_is_completed q (negb (Quest.is_completed q)))
                Hnd Hin eq_refl eq_refl) as Hflip.
  destruct (replace_rows (fun _ => true) (quests db)
              (Quest.set_is_completed q (negb (Quest.is_completed q)))) as [Hids _].
  { reflexivity. }
  specialize (Hpaid st Hs). unfold completed_count in Hpaid.
  split; [|split].
  - cbn [save_settings save_quest quests]. now rewrite Hids.
  - cbn [save_settings save_quest settings]. intros H.
    apply map_eq_nil in H. rewrite (Hempty H) in Hin. destruct Hin.
  - intros st2 Hs2. rewrite Hs1 in Hs2. injection Hs2 as <-.
    unfold completed_count.
    cbn [save_settings save_quest quests Settings.set_level Settings.set_xp Settings.xp].
    rewrite Hflip. unfold toggled_xp, xp_gain in *.
    destruct (Quest.is_completed q); cbn [negb andb]; lia.
Qed.

(** Every handler keeps the completed quests paid for. *)
Lemma step_paid_inv (e : Env) (r : Request) (db : Store) :
  paid_inv db -> paid_inv (step e r db).
Proof.
  intros Hinv. unfold step, handle. destruct r.
  - unfold read_root. destruct (query_settings db) as [st|] eqn:Hs; [|exact Hinv].
    destruct (query_main_quest db) as [mq|] eqn:Hm; [|exact Hinv].
    destruct (ensure_image db mq) as [[db1 mq1] calls1] eqn:E.
    assert (Hdb1 : paid_inv db1 /\ query_settings db1 = Some st
                   /\ completed_count db1 = completed_count db).
    { unfold ensure_image in E. destruct (negb _); inversion E; subst; [|auto].
      split; [apply save_quest_paid with (q := mq); eauto using query_main_In|].
      split; [exact Hs|].
      destruct (replace_rows Quest.is_completed (quests db)
                  (Quest.set_image_url mq
                     (Some (ai_service.get_vision_image (Quest.title mq)))))
        as [_ H2].
      - intros x Hx Hxid. destruct Hinv as [Hnd _].
        now rewrite (unique_by_id _ x mq Hnd Hx (query_main_In _ _ Hm) Hxid).
      - unfold completed_count, save_quest. cbn [quests]. now rewrite H2. }
    destruct Hdb1 as [Hdb1 [Hs1 Hc1]].
    destruct (quote_is_fresh e st); cbn [committed]; [exact Hdb1|].
    apply save_settings_paid with (st := st); [exact Hdb1 | exact Hs1 | reflexivity |].
    rewrite Hc1. destruct Hinv as [_ [_ Hpaid]]. exact (Hpaid st Hs).
  - unfold settings_page. destruct (query_settings db); exact Hinv.
  - rewrite reorder_quests_cases. destruct (forallb _ _); cbn [committed]; [|exact Hinv].
    now apply assign_loop_paid.
  - unfold update_settings. destruct (query_settings db) as [st|] eqn:Hs; [|exact Hinv].
    cbn [committed].
    apply save_settings_paid with (st := st); [exact Hinv | exact Hs | reflexivity |].
    destruct Hinv as [_ [_ Hpaid]]. exact (Hpaid st Hs).
  - exact Hinv.
  - unfold ai_architect. destruct (query_main_quest db) as [mq|] eqn:Hm; [|exact Hinv].
    pose proof (architect_loop_paid e mq (generate_subquests e (Quest.title mq)) db Hinv
                  (has_rows_has_settings db mq Hinv (query_main_In _ _ Hm))) as H.
    destruct (architect_loop e mq _ db) as [db1 saved]. exact H.
  - destruct (query_quest db quest_id) as [q|] eqn:Hq.
    + destruct (query_settings db) as [st|] eqn:Hs.
      * exact (toggle_paid quest_id db q st Hinv Hq Hs).
      * unfold toggle_quest. rewrite Hq, Hs. exact Hinv.
    + unfold toggle_quest. rewrite Hq. exact Hinv.
  - unfold delete_quest. destruct (query_quest db quest_id) as [q|]; [|exact Hinv].
    pose proof (delete_quest_row_paid db q Hinv) as Hdel.
    destruct (Py.truthy_oint _); [|exact Hdel].
    destruct (Quest.parent_id q); [|exact Hdel].
    destruct (parent_progress _ _); exact Hdel.
  - unfold add_quest. destruct (query_main_quest db) as [mq|] eqn:Hm; [|exact Hinv].
    cbn [add_quest_row]. rewrite card_response_committed.
    exact (add_quest_row_paid db
             (fun new_id => Quest.mk new_id title (Some "Manual Entry") (Some category)
                              (Some (Quest.id mq)) false None (utcnow e) None
                              (count_children db (Quest.id mq)))
             Hinv (fun n => eq_refl) (fun n => eq_refl)
             (has_rows_has_settings db mq Hinv (query_main_In _ _ Hm))).
  - unfold edit_quest_form. destruct (query_quest db quest_id); exact Hinv.
  - unfold cancel_edit_quest. rewrite card_response_committed. exact Hinv.
  - destruct (query_quest db quest_id) as [q|] eqn:Hq.
    + rewrite (update_committed e _ title deadline _ _ Hq). cbv zeta. cbn [committed].
      apply save_quest_paid with (q := q); eauto using query_quest_In.
    + unfold update_quest. rewrite Hq. exact Hinv.
  - unfold onboarding_submit, add_quest_row, query_settings. cbn [settings quests].
    destruct (settings db) as [|s0 l] eqn:Hset; cbn [hd_error committed].
    + destruct Hinv as [_ [Hempty _]]. rewrite (Hempty Hset).
      split; [repeat constructor; simpl; tauto|]. split; [discriminate|].
      intros st [= <-]. vm_compute. discriminate.
    + pose proof (add_quest_row_paid db
             (fun new_id => Quest.mk new_id goal None (Some "Main") None false
                (if Py.truthy_ostr deadline
                 then match deadline with Some s => datetime.strptime s | None => None end
                 else None)
                (utcnow e) (Some (ai_service.get_vision_image goal))
                Quest.default_position)
             Hinv (fun n => eq_refl) (fun n => eq_refl)) as Hadd.
      unfold add_quest_row in Hadd. cbn [fst] in Hadd. rewrite Hset in Hadd.
      apply Hadd. discriminate.
  - exact Hinv.
  - split; [apply NoDup_nil|]. split; [reflexivity|]. intros st Hs. discriminate.
Qed.

Lemma flagged_row_counts (flag : Quest.t -> bool) (l : list Quest.t) (q : Quest.t) :
  In q l -> flag q = true -> (1 <= List.length (filter flag l))%nat.
Proof.
  intros Hin Hflag.
  assert (H : In q (filter flag l)) by (apply filter_In; auto).
  destruct (filter flag l); [destruct H | simpl; lia].
Qed.

(** In the stores the handlers produce from the empty database the two
    toggles of any quest restore the completion flag, the XP and the level:
    the clamp is never reached there. *)
Lemma reachable_toggle_twice (db : Store) (quest_id : Z) (q : Quest.t) :
  reachable db ->
  query_quest db quest_id = Some q ->
  exists st q2 st2,
    query_settings db = Some st
    /\ query_quest (toggle_twice quest_id db) quest_id = Some q2
    /\ query_settings (toggle_twice quest_id db) = Some st2
    /\ Quest.is_completed q2 = Quest.is_completed q
    /\ Settings.xp st2 = Settings.xp st
    /\ Settings.level st2 = Settings.level st.
Proof.
  intros Hr Hq.
  assert (Hinv : settings_inv db /\ paid_inv db).
  { clear Hq. induction Hr as [|e r db Hr [IH1 IH2]].
    - split; [intros st []|].
      split; [apply NoDup_nil|]. split; [reflexivity|]. intros st Hs. discriminate.
    - split; [now apply step_settings_inv | now apply step_paid_inv]. }
  destruct Hinv as [Hsinv Hpinv].
  pose proof (query_quest_In _ _ _ Hq) as Hin.
  pose proof (has_rows_has_settings db q Hpinv Hin) as Hset.
  destruct (query_settings db) as [st|] eqn:Hs.
  2:{ unfold query_settings in Hs. destruct (settings db); [contradiction | discriminate]. }
  destruct (Hsinv st (query_settings_In _ _ Hs)) as [Hxp Hlv].
  assert (Hc : Quest.is_completed q = true -> 100 <= Settings.xp st).
  { intros Hflag. destruct Hpinv as [_ [_ Hpaid]]. specialize (Hpaid st Hs).
    pose proof (flagged_row_counts Quest.is_completed _ _ Hin Hflag) as Hone.
    unfold completed_count, xp_gain in Hpaid. lia. }
  unfold toggle_twice.
  destruct (toggle_queries _ _ _ _ Hq Hs) as [Hq1 Hs1].
  destruct (toggle_queries _ _ _ _ Hq1 Hs1) as [Hq2 Hs2].
  exists st. eexists. eexists. split; [reflexivity|].
  split; [exact Hq2|]. split; [exact Hs2|].
  cbn [Quest.set_is_completed Quest.is_completed Settings.set_level Settings.set_xp
       Settings.xp Settings.level].
  rewrite (toggled_xp_twice _ _ Hxp Hc), Hlv.
  split; [apply negb_involutive|]. split; reflexivity.
Qed.

(** ** Deadline of the onboarding form *)

Lemma find_appended (l : list Quest.t) (q : Quest.t) :
  (forall x, In x l -> Quest.id x < Quest.id q) ->
  find (fun x => Quest.id x =? Quest.id q) (l ++ [q]) = Some q.
Proof.
  induction l as [|a l IH]; intros H; cbn [app find].
  - now rewrite Z.eqb_refl.
  - destruct (Z.eqb_spec (Quest.id a) (Quest.id q)) as [E|_].
    + specialize (H a (or_introl eq_refl)). lia.
    + apply IH. intros x Hx. apply H. now right.
Qed.

(** The Main Quest of the onboarding form gets a null deadline when the form
    sends no date, an empty one or one that does not parse. *)
Lemma onboarding_deadline (e : Env) (goal : string) (deadline : option string)
    (db : Store) :
  Py.truthy_ostr deadline = false
  \/ (exists s, deadline = Some s /\ datetime.strptime s = None) ->
  exists q,
    query_quest (step e (PostOnboarding goal deadline) db) (next_id Quest.id (quests db))
    = Some q
    /\ Quest.title q = goal
    /\ Quest.category q = Some "Main"
    /\ Quest.deadline q = None.
Proof.
  intros Hd.
  assert (Hdl : (if Py.truthy_ostr deadline
                 then match deadline with Some s => datetime.strptime s | None => None end
                 else None) = None).
  { destruct Hd as [->|[s [-> Hs]]]; [reflexivity|].
    rewrite Hs. now destruct (Py.truthy_ostr (Some s)). }
  unfold step, handle, onboarding_submit, add_quest_row. rewrite Hdl.
  eexists. split.
  - unfold query_quest.
    match goal with
    | |- find _ (quests (committed (mkOutcome ?d _ _))) = _ =>
        assert (Hq : quests d = quests db ++ [Quest.mk (next_id Quest.id (quests db)) goal
                       None (Some "Main") None false None (utcnow e)
                       (Some (ai_service.get_vision_image goal)) Quest.default_position])
          by (destruct (query_settings _); reflexivity)
    end.
    cbn [committed]. rewrite Hq.
    apply (find_appended (quests db)
             (Quest.mk (next_id Quest.id (quests db)) goal None (Some "Main") None false
                None (utcnow e) (Some (ai_service.get_vision_image goal))
                Quest.default_position)).
    intros x Hx. exact (next_id_fresh _ _ Hx).
  - repeat split.
Qed.

(** * Further properties of the handlers *)

(** ** Reordering *)

Lemma assign_one_token (index : Z) (item_str : string) (db : Store) :
  assign_one index item_str db
  = match token_id item_str with
    | Some quest_id =>
        match query_quest db quest_id with
        | Some quest => save_quest db (Quest.set_position quest index)
        | None => db
        end
    | None => db
    end.
Proof.
  reflexivity.
Qed.

Lemma assign_one_other (index : Z) (item_str : string) (db : Store) (k : Z) :
  token_id item_str <> Some k ->
  query_quest (assign_one index item_str db) k = query_quest db k.
Proof.
  intros Hne. rewrite assign_one_token.
  destruct (token_id item_str) as [k1|]; [|reflexivity].
  destruct (query_quest db k1) as [q|] eqn:Hq; [|reflexivity].
  apply query_quest_save_other. cbn [Quest.set_position Quest.id].
  rewrite (query_quest_id _ _ _ Hq). congruence.
Qed.

Lemma assign_one_same (index : Z) (item_str : string) (db : Store) (k : Z) (q : Quest.t) :
  token_id item_str = Some k ->
  query_quest db k = Some q ->
  query_quest (assign_one index item_str db) k = Some (Quest.set_position q index).
Proof.
  intros Ht Hq. rewrite assign_one_token, Ht, Hq.
  pose proof (query_quest_id _ _ _ Hq) as Hid. rewrite <- Hid in Hq |- *.
  exact (query_quest_save_same db q (Quest.set_position q index) Hq).
Qed.

Lemma assign_one_frame (index : Z) (item_str : string) (db : Store) (k : Z) (q : Quest.t) :
  query_quest db k = Some q ->
  exists q1, query_quest (assign_one index item_str db) k = Some q1
             /\ Quest.set_position q (Quest.position q1) = q1.
Proof.
  intros Hq. destruct (token_id item_str) as [k1|] eqn:Ht.
  - destruct (Z.eq_dec k1 k) as [->|Hne].
    + rewrite (assign_one_same _ _ _ _ _ Ht Hq). eexists. split; reflexivity.
    + rewrite assign_one_other by congruence. exists q. split; [exact Hq|].
      now destruct q.
  - rewrite assign_one_other by congruence. exists q. split; [exact Hq|].
    now destruct q.
Qed.

Lemma assign_loop_frame (item : list string) (index : Z) (db : Store) (k : Z) (q : Quest.t) :
  query_quest db k = Some q ->
  exists q1, query_quest (assign_loop index item db) k = Some q1
             /\ Quest.set_position q (Quest.position q1) = q1.
Proof.
  revert index db q. induction item as [|s item IH]; intros index db q Hq; cbn [assign_loop].
  - exists q. split; [exact Hq | now destruct q].
  - destruct (assign_one_frame index s db k q Hq) as [q1 [Hq1 E1]].
    destruct (IH (index + 1) _ q1 Hq1) as [q2 [Hq2 E2]].
    exists q2. split; [exact Hq2|]. rewrite <- E2, <- E1. reflexivity.
Qed.

Lemma assign_loop_ids (item : list string) (index : Z) (db : Store) :
  map Quest.id (quests (assign_loop index item db)) = map Quest.id (quests db).
Proof.
  revert index db. induction item as [|s item IH]; intros index db; cbn [assign_loop];
    [reflexivity|].
  rewrite IH, assign_one_token.
  destruct (token_id s) as [k|]; [|reflexivity].
  destruct (query_quest db k) as [q|]; [|reflexivity].
  destruct (replace_rows (fun _ => true) (quests db) (Quest.set_position q index))
    as [H _]; [reflexivity | exact H].
Qed.

(** X1: when every token of the list that parses as an integer names a
    key SQLite can bind, [reorder_quests] answers with the empty body; when
    some token names a key outside the 64-bit range, binding it raises
    [OverflowError], which the handler does not catch, and nothing is
    committed.  In both cases the committed store differs from the old one
    in positions only: the table keeps its primary keys in their order, a
    quest keeps every other column, and the settings stay. *)
Theorem reorder_changes_positions_only (item : list string) (db : Store) :
  (forallb token_in_range item = true ->
     response (reorder_quests item db) = Ok (Body ""))
  /\ (forallb token_in_range item = false ->
       reorder_quests item db = mkOutcome db [] (Raise Py.OverflowError))
  /\ map Quest.id (quests (committed (reorder_quests item db))) = map Quest.id (quests db)
  /\ settings (committed (reorder_quests item db)) = settings db
  /\ (forall k q, query_quest db k = Some q ->
        exists q1, query_quest (committed (reorder_quests item db)) k = Some q1
                   /\ Quest.id q1 = Quest.id q
                   /\ Quest.title q1 = Quest.title q
                   /\ Quest.description q1 = Quest.description q
                   /\ Quest.category q1 = Quest.category q
                   /\ Quest.parent_id q1 = Quest.parent_id q
                   /\ Quest.is_completed q1 = Quest.is_completed q
                   /\ Quest.deadline q1 = Quest.deadline q
                   /\ Quest.created_at q1 = Quest.created_at q
                   /\ Quest.image_url q1 = Quest.image_url q).
Proof.
  rewrite reorder_quests_cases.
  destruct (forallb token_in_range item); cbn [committed response].
  - split; [reflexivity|]. split; [discriminate|].
    split; [apply assign_loop_ids|].
    split; [apply assign_loop_settings|].
    intros k q Hq. destruct (assign_loop_frame item 0 db k q Hq) as [q1 [Hq1 E]].
    exists q1. split; [exact Hq1|]. rewrite <- E. repeat split.
  - split; [discriminate|]. split; [reflexivity|].
    split; [reflexivity|]. split; [reflexivity|].
    intros k q Hq. exists q. split; [exact Hq|]. repeat split.
Qed.

Lemma reorder_changes_positions_only_witness :
  response (reorder_quests ["quest-4"; "quest-9223372036854775807"] three_subquests)
  = Ok (Body "")
  /\ reorder_quests ["quest-4"; "quest-9223372036854775808"] three_subquests
     = mkOutcome three_subquests [] (Raise Py.OverflowError).
Proof.
  split.
  - apply (reorder_changes_positions_only ["quest-4"; "quest-9223372036854775807"]
             three_subquests).
    vm_compute. reflexivity.
  - apply (reorder_changes_positions_only ["quest-4"; "quest-9223372036854775808"]
             three_subquests).
    vm_compute. reflexivity.
Defined.

Lemma assign_loop_untouched (item : list string) (index : Z) (db : Store) (k : Z) :
  Forall (fun s => ~ names k s) item ->
  query_quest (assign_loop index item db) k = query_quest db k.
Proof.
  revert index db. induction item as [|s item IH]; intros index db Hall; cbn [assign_loop];
    [reflexivity|].
  inversion Hall as [|? ? Hs Hrest]; subst.
  rewrite (IH _ _ Hrest). now apply assign_one_other.
Qed.

Lemma assign_loop_app (pre post : list string) (index : Z) (db : Store) :
  assign_loop index (pre ++ post) db
  = assign_loop (index + Z.of_nat (List.length pre)) post (assign_loop index pre db).
Proof.
  revert index db. induction pre as [|s pre IH]; intros index db.
  - cbn [app assign_loop List.length]. now rewrite Z.add_0_r.
  - cbn [app assign_loop]. rewrite IH. f_equal.
    change (List.length (s :: pre)) with (S (List.length pre)). lia.
Qed.

(** X2: when every token of the list that parses as an integer names a key
    SQLite can bind, then after [reorder_quests] a quest that the last token
    naming it names at index [i] of the list has position [i] and is
    otherwise the row it was; tokens that do not parse or name no quest are
    skipped. *)
Theorem reorder_assigns_index (pre post : list string) (item_str : string) (db : Store)
    (k : Z) (q : Quest.t) :
  forallb token_in_range (pre ++ item_str :: post) = true ->
  query_quest db k = Some q ->
  names k item_str ->
  Forall (fun s => ~ names k s) post ->
  exists q1,
    query_quest (committed (reorder_quests (pre ++ item_str :: post) db)) k = Some q1
    /\ Quest.position q1 = Z.of_nat (List.length pre)
    /\ Quest.set_position q (Quest.position q1) = q1.
Proof.
  intros Hrange Hq Hname Hpost. rewrite reorder_quests_cases, Hrange. cbn [committed].
  rewrite assign_loop_app. cbn [assign_loop].
  destruct (assign_loop_frame pre 0 db k q Hq) as [q0 [Hq0 E0]].
  rewrite (assign_loop_untouched post _ _ k Hpost).
  rewrite (assign_one_same _ _ _ _ _ Hname Hq0).
  eexists. split; [reflexivity|]. split; [reflexivity|].
  rewrite <- E0. reflexivity.
Qed.

Lemma reorder_assigns_index_witness :
  exists q1,
    query_quest (committed (reorder_quests ["quest-4"; "bogus"; "quest-2"; "quest-x"]
                              three_subquests)) 2 = Some q1
    /\ Quest.position q1 = 2.
Proof.
  destruct (reorder_assigns_index ["quest-4"; "bogus"] ["quest-x"] "quest-2"
              three_subquests 2 _ eq_refl eq_refl eq_refl) as [q1 [H1 [H2 _]]].
  - repeat constructor; vm_compute; discriminate.
  - exists q1. split; [exact H1 | exact H2].
Defined.

(** X3: a quest that no token of the list names is left as it is by
    [reorder_quests]. *)
Theorem reorder_keeps_unnamed (item : list string) (db : Store) (k : Z) :
  Forall (fun s => ~ names k s) item ->
  query_quest (committed (reorder_quests item db)) k = query_quest db k.
Proof.
  intros H. rewrite reorder_quests_cases.
  destruct (forallb token_in_range item); cbn [committed]; [|reflexivity].
  exact (assign_loop_untouched item 0 db k H).
Qed.

Lemma reorder_keeps_unnamed_witness :
  query_quest (committed (reorder_quests ["quest-4"; "quest"; "quest-2"] three_subquests)) 3
  = query_quest three_subquests 3.
Proof.
  apply (reorder_keeps_unnamed ["quest-4"; "quest"; "quest-2"] three_subquests 3).
  repeat constructor; vm_compute; discriminate.
Defined.

(** ** Keys and references in reachable stores *)

Lemma query_quest_found (db : Store) (k : Z) :
  In k (map Quest.id (quests db)) -> exists q, query_quest db k = Some q.
Proof.
  unfold query_quest. intros Hin. apply in_map_iff in Hin as [x [Hx Hin]].
  destruct (find (fun q => Quest.id q =? k) (quests db)) as [q|] eqn:E; [eauto|].
  exfalso. pose proof (find_none _ _ E x Hin) as H. cbv beta in H.
  apply Z.eqb_neq in H. contradiction.
Qed.

(** Rows rewritten with their key, and with their parent kept or cleared. *)
Lemma refs_map (g : Quest.t -> Quest.t) (db db1 : Store) :
  quests db1 = map g (quests db) ->
  settings db1 = settings db ->
  (forall x, In x (quests db) ->
     Quest.id (g x) = Quest.id x
     /\ (Quest.parent_id (g x) = Quest.parent_id x \/ Quest.parent_id (g x) = None)) ->
  refs_inv db -> refs_inv db1.
Proof.
  intros Hq Hs Hg [H1 [H2 H3]].
  assert (Hids : map Quest.id (quests db1) = map Quest.id (quests db)).
  { rewrite Hq, map_map. apply map_ext_in. intros x Hx. now destruct (Hg x Hx). }
  split; [|split].
  - intros q Hin. rewrite Hq in Hin. apply in_map_iff in Hin as [x [<- Hx]].
    destruct (Hg x Hx) as [-> _]. auto.
  - now rewrite Hs.
  - intros q p Hin Hp. rewrite Hq in Hin. apply in_map_iff in Hin as [x [<- Hx]].
    destruct (Hg x Hx) as [Hid [Hpar|Hpar]]; rewrite Hpar in Hp; [|discriminate].
    rewrite Hids, Hid. eauto.
Qed.

Lemma save_quest_refs (db : Store) (q q1 : Quest.t) :
  refs_inv db -> NoDup (map Quest.id (quests db)) -> In q (quests db) ->
  Quest.id q1 = Quest.id q -> Quest.parent_id q1 = Quest.parent_id q ->
  refs_inv (save_quest db q1).
Proof.
  intros Hinv Hnd Hin Hid Hpar.
  apply (refs_map (fun x => if Quest.id x =? Quest.id q1 then q1 else x) db);
    [reflexivity | reflexivity | | exact Hinv].
  intros x Hx. destruct (Z.eqb_spec (Quest.id x) (Quest.id q1)) as [E|_]; [|auto].
  rewrite (unique_by_id _ x q Hnd Hx Hin) by congruence. auto.
Qed.

Lemma next_id_pos (l : list Quest.t) : 1 <= next_id Quest.id l.
Proof.
  unfold next_id.
  assert (0 <= fold_right (fun r m => Z.max (Quest.id r) m) 0 l); [|lia].
  induction l as [|a l IH]; cbn [fold_right]; [lia|].
  pose proof (Z.le_max_r (Quest.id a) (fold_right (fun r m => Z.max (Quest.id r) m) 0 l)).
  lia.
Qed.

Lemma add_quest_row_refs (db : Store) (mkq : Z -> Quest.t) :
  refs_inv db ->
  (forall n, Quest.id (mkq n) = n) ->
  (forall n p, Quest.parent_id (mkq n) = Some p -> In p (map Quest.id (quests db))) ->
  refs_inv (fst (add_quest_row db mkq)).
Proof.
  intros [H1 [H2 H3]] Hid Hpar. unfold add_quest_row. cbn [fst].
  pose proof (next_id_pos (quests db)) as Hnext.
  split; [|split]; cbn [quests settings].
  - intros q Hin. apply in_app_or in Hin as [Hin|[<-|[]]]; [auto|]. now rewrite Hid.
  - exact H2.
  - intros q p Hin Hp. rewrite map_app. apply in_app_or in Hin as [Hin|[<-|[]]].
    + destruct (H3 q p Hin Hp). split; [apply in_or_app; now left | assumption].
    + specialize (Hpar _ _ Hp). split; [apply in_or_app; now left|].
      rewrite Hid. apply in_map_iff in Hpar as [x [<- Hx]]. now apply next_id_fresh.
Qed.

Lemma delete_quest_row_refs (db : Store) (q : Quest.t) :
  refs_inv db -> refs_inv (delete_quest_row db q).
Proof.
  intros [H1 [H2 H3]]. unfold delete_quest_row. split; [|split]; cbn [quests settings].
  - intros x Hin. apply in_map_iff in Hin as [y [<- Hy]].
    apply filter_In in Hy as [Hy _].
    destruct (oint_eqb _ _); cbn [Quest.set_parent_id Quest.id]; auto.
  - exact H2.
  - intros x p Hin Hp. apply in_map_iff in Hin as [y [<- Hy]].
    apply filter_In in Hy as [Hy Hkeep].
    destruct (oint_eqb (Quest.parent_id y) (Quest.id q)) eqn:E; [discriminate|].
    destruct (H3 y p Hy Hp) as [Hin Hlt]. split; [|exact Hlt].
    apply in_map_iff in Hin as [z [Hz Hin]].
    apply in_map_iff.
    exists (if oint_eqb (Quest.parent_id z) (Quest.id q)
            then Quest.set_parent_id z None else z).
    split; [destruct (oint_eqb (Quest.parent_id z) _); exact Hz|].
    apply (in_map (fun x => if oint_eqb (Quest.parent_id x) (Quest.id q)
                            then Quest.set_parent_id x None else x)).
    apply filter_In. split; [exact Hin|].
    rewrite Hz. rewrite Hp in E. cbn [oint_eqb] in E. now rewrite E.
Qed.

Lemma assign_loop_refs (item : list string) (index : Z) (db : Store) :
  refs_inv db -> NoDup (map Quest.id (quests db)) ->
  refs_inv (assign_loop index item db).
Proof.
  revert index db. induction item as [|s item IH]; intros index db Hinv Hnd;
    cbn [assign_loop]; [exact Hinv|].
  assert (H : refs_inv (assign_one index s db)
              /\ NoDup (map Quest.id (quests (assign_one index s db)))).
  { rewrite assign_one_token.
    destruct (token_id s) as [k|]; [|auto].
    destruct (query_quest db k) as [q|] eqn:Hq; [|auto]. split.
    - apply save_quest_refs with (q := q); eauto using query_quest_In.
    - destruct (replace_rows (fun _ => true) (quests db) (Quest.set_position q index))
        as [E _]; [reflexivity|]. unfold save_quest. cbn [quests]. now rewrite E. }
  destruct H. now apply IH.
Qed.

Lemma architect_loop_refs (e : Env) (mq : Quest.t) (tasks : list ai_service.task)
    (db : Store) :
  refs_inv db -> In (Quest.id mq) (map Quest.id (quests db)) ->
  refs_inv (fst (architect_loop e mq tasks db)).
Proof.
  revert db. induction tasks as [|t tasks IH]; intros db Hinv Hmq; cbn [architect_loop];
    [exact Hinv|].
  pose proof (add_quest_row_refs db (architect_quest e mq t) Hinv (fun n => eq_refl)) as Hadd.
  unfold add_quest_row in *. cbn [fst] in Hadd.
  specialize (IH (mkStore (quests db
      ++ [architect_quest e mq t (next_id Quest.id (quests db))]) (settings db))).
  destruct (architect_loop e mq tasks _) as [db2 saved]. cbn [fst] in *.
  apply IH.
  - apply Hadd. intros n p [= <-]. exact Hmq.
  - cbn [quests]. rewrite map_app. apply in_or_app. now left.
Qed.

Lemma query_main_id_In (db : Store) (mq : Quest.t) :
  query_main_quest db = Some mq -> In (Quest.id mq) (map Quest.id (quests db)).
Proof.
  intros H. apply in_map. now apply query_main_In.
Qed.

(** Every handler keeps the references of the quests table. *)
Lemma step_refs_inv (e : Env) (r : Request) (db : Store) :
  refs_inv db -> NoDup (map Quest.id (quests db)) -> refs_inv (step e r db).
Proof.
  intros Hinv Hnd. unfold step, handle. destruct r.
  - unfold read_root. destruct (query_settings db) as [st|]; [|exact Hinv].
    destruct (query_main_quest db) as [mq|] eqn:Hm; [|exact Hinv].
    destruct (ensure_image db mq) as [[db1 mq1] calls1] eqn:E.
    assert (Hdb1 : refs_inv db1).
    { unfold ensure_image in E. destruct (negb _); inversion E; subst; [|exact Hinv].
      apply save_quest_refs with (q := mq); eauto using query_main_In. }
    destruct (quote_is_fresh e st); cbn [committed]; [exact Hdb1|].
    destruct Hdb1 as [H1 [H2 H3]]. split; [exact H1|]. split; [|exact H3].
    cbn [save_settings settings]. now rewrite length_map.
  - unfold settings_page. destruct (query_settings db); exact Hinv.
  - rewrite reorder_quests_cases. destruct (forallb _ _); cbn [committed]; [|exact Hinv].
    now apply assign_loop_refs.
  - unfold update_settings. destruct (query_settings db); [|exact Hinv].
    cbn [committed]. destruct Hinv as [H1 [H2 H3]]. split; [exact H1|]. split; [|exact H3].
    cbn [save_settings settings]. now rewrite length_map.
  - exact Hinv.
  - unfold ai_architect. destruct (query_main_quest db) as [mq|] eqn:Hm; [|exact Hinv].
    pose proof (architect_loop_refs e mq (generate_subquests e (Quest.title mq)) db Hinv
                  (query_main_id_In _ _ Hm)) as H.
    destruct (architect_loop e mq _ db) as [db1 saved]. exact H.
  - destruct (query_quest db quest_id) as [q|] eqn:Hq.
    + destruct (query_settings db) as [st|] eqn:Hs.
      * rewrite (toggle_committed _ _ _ _ Hq Hs).
        assert (H : refs_inv (save_quest db
                      (Quest.set_is_completed q (negb (Quest.is_completed q)))))
          by (apply save_quest_refs with (q := q); eauto using query_quest_In).
        destruct H as [H1 [H2 H3]]. split; [exact H1|]. split; [|exact H3].
        cbn [save_settings settings]. now rewrite length_map.
      * unfold toggle_quest. rewrite Hq, Hs. exact Hinv.
    + unfold toggle_quest. rewrite Hq. exact Hinv.
  - unfold delete_quest. destruct (query_quest db quest_id) as [q|]; [|exact Hinv].
    pose proof (delete_quest_row_refs db q Hinv) as Hdel.
    destruct (Py.truthy_oint _); [|exact Hdel].
    destruct (Quest.parent_id q); [|exact Hdel].
    destruct (parent_progress _ _); exact Hdel.
  - unfold add_quest. destruct (query_main_quest db) as [mq|] eqn:Hm; [|exact Hinv].
    cbn [add_quest_row]. rewrite card_response_committed.
    refine (add_quest_row_refs db
              (fun new_id => Quest.mk new_id title (Some "Manual Entry") (Some category)
                               (Some (Quest.id mq)) false None (utcnow e) None
                               (count_children db (Quest.id mq)))
              Hinv (fun n => eq_refl) _).
    intros n p [= <-]. exact (query_main_id_In _ _ Hm).
  - unfold edit_quest_form. destruct (query_quest db quest_id); exact Hinv.
  - unfold cancel_edit_quest. rewrite card_response_committed. exact Hinv.
  - destruct (query_quest db quest_id) as [q|] eqn:Hq.
    + rewrite (update_committed e _ title deadline _ _ Hq). cbv zeta. cbn [committed].
      apply save_quest_refs with (q := q); eauto using query_quest_In.
    + unfold update_quest. rewrite Hq. exact Hinv.
  - unfold onboarding_submit.
    match goal with
    | |- refs_inv (committed (let '(db1, _) := add_quest_row db ?f in _)) =>
        pose proof (add_quest_row_refs db f Hinv (fun n => eq_refl)) as Hadd
    end.
    unfold add_quest_row in *. cbn [fst] in Hadd.
    assert (Hadd1 : refs_inv _) by (apply Hadd; intros n p Hp; discriminate).
    clear Hadd. cbv zeta. unfold query_settings. cbn [settings quests].
    destruct Hadd1 as [H1 [H2 H3]]. cbn [quests settings] in *.
    destruct (settings db) as [|s0 l] eqn:Hset; cbn [hd_error committed];
      (split; [exact H1|]; split; [|exact H3]); cbn [settings app List.length] in *; lia.
  - exact Hinv.
  - split; [intros q []|]. split; [cbn; lia | intros q p []].
Qed.

Lemma reachable_invariants (db : Store) :
  reachable db -> settings_inv db /\ paid_inv db /\ refs_inv db.
Proof.
  intros Hr. induction Hr as [|e r db Hr [IH1 [IH2 IH3]]].
  - split; [intros st []|]. split.
    + split; [apply NoDup_nil|]. split; [reflexivity|]. intros st Hs. discriminate.
    + split; [intros q []|]. split; [cbn; lia | intros q p []].
  - split; [now apply step_settings_inv|]. split; [now apply step_paid_inv|].
    apply step_refs_inv; [exact IH3 | exact (proj1 IH2)].
Qed.

(** X4: in every store the handlers produce from the empty database the
    primary keys of the quests are distinct and at least 1, there is at most
    one settings row and it exists as soon as a quest exists, and a parent
    reference names an existing quest with a smaller key (no quest is its own
    ancestor, no reference dangles). *)
Theorem reachable_store_wellformed (db : Store) :
  reachable db ->
  NoDup (map Quest.id (quests db))
  /\ (forall q, In q (quests db) -> 1 <= Quest.id q)
  /\ (List.length (settings db) <= 1)%nat
  /\ (forall q, In q (quests db) -> exists st, query_settings db = Some st)
  /\ (forall q p, In q (quests db) -> Quest.parent_id q = Some p ->
      p < Quest.id q /\ exists parent, query_quest db p = Some parent).
Proof.
  intros Hr. destruct (reachable_invariants db Hr) as [_ [Hpaid [H1 [H2 H3]]]].
  split; [exact (proj1 Hpaid)|]. split; [exact H1|]. split; [exact H2|]. split.
  - intros q Hin. pose proof (has_rows_has_settings db q Hpaid Hin) as Hne.
    unfold query_settings. destruct (settings db); [contradiction | cbn; eauto].
  - intros q p Hin Hp. destruct (H3 q p Hin Hp) as [Hex Hlt].
    split; [exact Hlt | now apply query_quest_found].
Qed.

Lemma reachable_store_wellformed_witness :
  NoDup (map Quest.id (quests three_subquests))
  /\ (forall q, In q (quests three_subquests) -> 1 <= Quest.id q)
  /\ (List.length (settings three_subquests) <= 1)%nat
  /\ (forall q, In q (quests three_subquests) ->
      exists st, query_settings three_subquests = Some st)
  /\ (forall q p, In q (quests three_subquests) -> Quest.parent_id q = Some p ->
      p < Quest.id q /\ exists parent, query_quest three_subquests p = Some parent).
Proof.
  apply (reachable_store_wellformed three_subquests).
  unfold three_subquests, add_many, onboarded. repeat apply reachable_step.
  apply reachable_empty.
Defined.

(** ** Answers of the toggle *)

(** The response of [toggle_quest] when the quest and the settings exist. *)
Lemma toggle_response (quest_id : Z) (db : Store) (q : Quest.t) (st : Settings.t) :
  query_quest db quest_id = Some q ->
  query_settings db = Some st ->
  response (toggle_quest quest_id db)
  = match (if Py.truthy_oint (Quest.parent_id q)
           then match Quest.parent_id q with
                | Some pid => parent_progress (committed (toggle_quest quest_id db)) pid
                | None => Ok 0
                end
           else Ok 0) with
    | Raise x => Raise x
    | Ok p =>
        Ok (ToggleFragments p
              (level_of (toggled_xp (Quest.is_completed q) (Settings.xp st)))
              (toggled_xp (Quest.is_completed q) (Settings.xp st))
              (xp_percent_of (toggled_xp (Quest.is_completed q) (Settings.xp st)))
              (negb (Quest.is_completed q) && negb (Quest.is_completed q)))
    end.
Proof.
  intros Hq Hs. rewrite (toggle_committed _ _ _ _ Hq Hs).
  unfold toggle_quest. rewrite Hq, Hs. cbv zeta.
  cbn [Quest.set_is_completed Quest.parent_id Quest.is_completed
       Settings.set_level Settings.set_xp Settings.xp Settings.level].
  destruct (Py.truthy_oint (Quest.parent_id q)); [|reflexivity].
  destruct (Quest.parent_id q) as [pid|]; [|reflexivity].
  destruct (parent_progress _ pid); reflexivity.
Qed.

Lemma parent_progress_found (db : Store) (p : Z) (parent : Quest.t) :
  query_quest db p = Some parent ->
  parent_progress db p
  = match progress_of (count_completed_children db p) (count_children db p) with
    | Some v => Ok v
    | None => Raise Py.ValueError
    end.
Proof.
  intros H. unfold parent_progress. rewrite H, (query_quest_id _ _ _ H). reflexivity.
Qed.

Lemma count_children_bounds (db : Store) (p : Z) :
  0 <= count_completed_children db p <= count_children db p.
Proof.
  unfold count_completed_children, count_children.
  pose proof (filter_length_le Quest.is_completed (children_of db p)). lia.
Qed.

(** X5: in a reachable store the toggle of an existing quest never fails on
    a missing row: a quest without parent is answered with progress 0, and a
    child whose parent has at most 49 children is answered with
    floor(100 * completed / total) over the children as committed. *)
Theorem reachable_toggle_answers (db : Store) (quest_id : Z) (q : Quest.t) :
  reachable db ->
  query_quest db quest_id = Some q ->
  response (toggle_quest quest_id db) <> Raise Py.AttributeError
  /\ (Quest.parent_id q = None -> shown_progress (toggle_quest quest_id db) = Some 0)
  /\ (forall p, Quest.parent_id q = Some p ->
      count_children (committed (toggle_quest quest_id db)) p <= 49 ->
      1 <= count_children (committed (toggle_quest quest_id db)) p
      /\ shown_progress (toggle_quest quest_id db)
         = Some (100 * count_completed_children (committed (toggle_quest quest_id db)) p
                 / count_children (committed (toggle_quest quest_id db)) p)).
Proof.
  intros Hr Hq.
  destruct (reachable_invariants db Hr) as [_ [Hpaid [Hpos [_ Hrefs]]]].
  pose proof (query_quest_In _ _ _ Hq) as Hin.
  destruct (query_settings db) as [st|] eqn:Hs.
  2:{ exfalso. apply (has_rows_has_settings db q Hpaid Hin).
      unfold query_settings in Hs. destruct (settings db); [reflexivity | discriminate]. }
  destruct (toggle_queries _ _ _ _ Hq Hs) as [Hq1 _].
  unfold shown_progress. rewrite (toggle_response _ _ _ _ Hq Hs).
  destruct (Quest.parent_id q) as [p|] eqn:Hp.
  - destruct (Hrefs q p Hin Hp) as [Hparent _].
    apply query_quest_found in Hparent as [parent Hparent].
    assert (Hp1 : 1 <= p).
    { rewrite <- (query_quest_id _ _ _ Hparent).
      exact (Hpos parent (query_quest_In _ _ _ Hparent)). }
    assert (Htruthy : Py.truthy_oint (Some p) = true).
    { cbn [Py.truthy_oint]. destruct (Z.eqb_spec p 0); [lia | reflexivity]. }
    rewrite Htruthy.
    assert (Hfound : exists parent1,
               query_quest (committed (toggle_quest quest_id db)) p = Some parent1).
    { apply query_quest_found. rewrite (toggle_committed _ _ _ _ Hq Hs).
      cbn [save_settings save_quest quests].
      destruct (replace_rows (fun _ => true) (quests db)
                  (Quest.set_is_completed q (negb (Quest.is_completed q)))) as [E _];
        [reflexivity|].
      rewrite E. apply in_map_iff. exists parent.
      split; [exact (query_quest_id _ _ _ Hparent) | exact (query_quest_In _ _ _ Hparent)]. }
    destruct Hfound as [parent1 Hparent1].
    rewrite (parent_progress_found _ _ _ Hparent1).
    split; [|split].
    + destruct (progress_of _ _); discriminate.
    + discriminate.
    + intros p0 [= <-] Hsmall.
      assert (Hone : 1 <= count_children (committed (toggle_quest quest_id db)) p).
      { unfold count_children, children_of.
        pose proof (flagged_row_counts (fun x => oint_eqb (Quest.parent_id x) p)
                      _ _ (query_quest_In _ _ _ Hq1)) as H.
        cbn [Quest.set_is_completed Quest.parent_id] in H. rewrite Hp in H.
        cbn [oint_eqb] in H. rewrite Z.eqb_refl in H. specialize (H eq_refl). lia. }
      split; [exact Hone|].
      rewrite (progress_of_small _ _ (count_children_bounds _ p) Hsmall).
      destruct (Z.eqb_spec (count_children (committed (toggle_quest quest_id db)) p) 0);
        [lia | reflexivity].
  - cbn [Py.truthy_oint]. split; [discriminate|]. split; [reflexivity|].
    intros p0 Hp0. discriminate.
Qed.

Lemma reachable_toggle_answers_witness :
  shown_progress (toggle_quest 3 three_subquests)
  = Some (100 * count_completed_children (committed (toggle_quest 3 three_subquests)) 1
          / count_children (committed (toggle_quest 3 three_subquests)) 1).
Proof.
  assert (Hr : reachable three_subquests).
  { unfold three_subquests, add_many, onboarded. repeat apply reachable_step.
    apply reachable_empty. }
  destruct (reachable_toggle_answers three_subquests 3 _ Hr eq_refl) as [_ [_ H]].
  destruct (H 1 eq_refl) as [_ H1]; [vm_compute; discriminate | exact H1].
Defined.

(** ** Deleting a quest *)

Lemma delete_committed (quest_id : Z) (db : Store) (q : Quest.t) :
  query_quest db quest_id = Some q ->
  committed (delete_quest quest_id db) = delete_quest_row db q.
Proof.
  intros Hq. unfold delete_quest. rewrite Hq.
  destruct (Py.truthy_oint _); [|reflexivity].
  destruct (Quest.parent_id q); [|reflexivity].
  destruct (parent_progress _ _); reflexivity.
Qed.

Lemma find_after_delete (l : list Quest.t) (k k1 : Z) :
  find (fun x => Quest.id x =? k1)
    (map (fun x => if oint_eqb (Quest.parent_id x) k then Quest.set_parent_id x None else x)
       (filter (fun x => negb (Quest.id x =? k)) l))
  = if k1 =? k then None
    else option_map
           (fun x => if oint_eqb (Quest.parent_id x) k then Quest.set_parent_id x None else x)
           (find (fun x => Quest.id x =? k1) l).
Proof.
  induction l as [|a l IH]; cbn [filter map find option_map].
  - now destruct (k1 =? k).
  - destruct (Z.eqb_spec (Quest.id a) k) as [Ea|Ea]; cbn [negb map find].
    + rewrite IH. destruct (Z.eqb_spec k1 k) as [E1|E1]; [reflexivity|].
      destruct (Z.eqb_spec (Quest.id a) k1); [congruence | reflexivity].
    + assert (Hid : Quest.id (if oint_eqb (Quest.parent_id a) k
                              then Quest.set_parent_id a None else a) = Quest.id a)
        by (destruct (oint_eqb _ _); reflexivity).
      rewrite Hid. destruct (Z.eqb_spec (Quest.id a) k1) as [E|E].
      * destruct (Z.eqb_spec k1 k); [congruence | reflexivity].
      * exact IH.
Qed.

(** X6: [delete_quest] on an existing quest removes its row and nothing
    else: the settings keep their XP and level (the XP of a completed quest
    is not revoked), a later lookup of the id finds nothing, every other
    quest keeps its row except that a parent reference to the deleted quest
    becomes null, so that no row refers to the deleted quest any more. *)
Theorem delete_quest_effect (quest_id : Z) (db : Store) (q : Quest.t) :
  query_quest db quest_id = Some q ->
  query_quest (committed (delete_quest quest_id db)) quest_id = None
  /\ settings (committed (delete_quest quest_id db)) = settings db
  /\ (forall k1, k1 <> quest_id ->
      query_quest (committed (delete_quest quest_id db)) k1
      = option_map (fun x => if oint_eqb (Quest.parent_id x) quest_id
                             then Quest.set_parent_id x None else x)
                   (query_quest db k1))
  /\ (forall x, In x (quests (committed (delete_quest quest_id db))) ->
      Quest.parent_id x <> Some quest_id)
  /\ (Quest.parent_id q = None -> response (delete_quest quest_id db) = Ok (Body "")).
Proof.
  intros Hq. rewrite (delete_committed _ _ _ Hq).
  pose proof (query_quest_id _ _ _ Hq) as Hid.
  unfold delete_quest_row, query_quest. cbn [quests settings]. rewrite Hid.
  split; [|split; [reflexivity|split; [|split]]].
  - rewrite find_after_delete. now rewrite Z.eqb_refl.
  - intros k1 Hne. rewrite find_after_delete.
    destruct (Z.eqb_spec k1 quest_id); [contradiction | reflexivity].
  - intros x Hin. apply in_map_iff in Hin as [y [<- _]].
    destruct (oint_eqb (Quest.parent_id y) quest_id) eqn:E.
    + discriminate.
    + intros Hp. rewrite Hp in E. cbn [oint_eqb] in E. now rewrite Z.eqb_refl in E.
  - intros Hp. unfold delete_quest. fold (query_quest db quest_id). rewrite Hq, Hp.
    reflexivity.
Qed.

Lemma delete_quest_effect_witness :
  query_quest (committed (delete_quest 1 three_subquests)) 1 = None
  /\ settings (committed (delete_quest 1 three_subquests)) = settings three_subquests
  /\ option_map Quest.parent_id (query_quest (committed (delete_quest 1 three_subquests)) 3)
     = Some None.
Proof.
  destruct (delete_quest_effect 1 three_subquests _ eq_refl) as [H1 [H2 [H3 _]]].
  split; [exact H1|]. split; [exact H2|].
  rewrite (H3 3) by discriminate. reflexivity.
Defined.

(** ** Adding a sub-quest *)

Lemma insert_before_last (a q : Quest.t) (l : list Quest.t) :
  Quest.position a <= Quest.position q ->
  insert_by_position a (l ++ [q]) = insert_by_position a l ++ [q].
Proof.
  intros Hle. induction l as [|x l IH]; cbn [app insert_by_position].
  - destruct (Z.leb_spec (Quest.position a) (Quest.position q)); [reflexivity | lia].
  - destruct (Quest.position a <=? Quest.position x); [reflexivity|].
    cbn [app]. now rewrite IH.
Qed.

Lemma order_by_position_last (l : list Quest.t) (q : Quest.t) :
  (forall x, In x l -> Quest.position x <= Quest.position q) ->
  order_by_position (l ++ [q]) = order_by_position l ++ [q].
Proof.
  unfold order_by_position. induction l as [|a l IH]; intros H; cbn [app fold_right].
  - reflexivity.
  - rewrite IH by (intros x Hx; apply H; now right).
    apply insert_before_last. apply H. now left.
Qed.

(** X7: with a Main Quest, [add_quest] appends one row (fresh primary key,
    child of the Main Quest, not completed, position = number of children
    before) and answers with its card; rows and settings that existed stay,
    the number of children grows by one, and when no sibling has a position
    above the previous number of children the new quest is the last of the
    dashboard order. *)
Theorem add_quest_appends (e : Env) (title category : string) (db : Store) (mq : Quest.t) :
  query_main_quest db = Some mq ->
  quests (committed (add_quest e title category db))
  = quests db ++ [added_quest e title category db mq]
  /\ settings (committed (add_quest e title category db)) = settings db
  /\ response (add_quest e title category db)
     = Ok (Cards [quest_card e (added_quest e title category db mq)])
  /\ (forall x, In x (quests db) -> Quest.id x < Quest.id (added_quest e title category db mq))
  /\ count_children (committed (add_quest e title category db)) (Quest.id mq)
     = count_children db (Quest.id mq) + 1
  /\ ((forall x, In x (children_of db (Quest.id mq)) ->
         Quest.position x <= count_children db (Quest.id mq)) ->
      subquests_of (committed (add_quest e title category db)) (Quest.id mq)
      = subquests_of db (Quest.id mq) ++ [added_quest e title category db mq]).
Proof.
  intros Hm. unfold add_quest. rewrite Hm. cbn [add_quest_row render_quest_card card_response
    committed response quests settings].
  fold (added_quest e title category db mq).
  assert (Hchild : children_of (mkStore (quests db ++ [added_quest e title category db mq])
                                  (settings db)) (Quest.id mq)
                   = children_of db (Quest.id mq) ++ [added_quest e title category db mq]).
  { unfold children_of. cbn [quests]. rewrite filter_app. cbn [filter added_quest
      Quest.parent_id oint_eqb]. now rewrite Z.eqb_refl. }
  split; [reflexivity|]. split; [reflexivity|]. split; [reflexivity|].
  split; [|split].
  - intros x Hx. exact (next_id_fresh _ _ Hx).
  - unfold count_children. rewrite Hchild, length_app. cbn [List.length]. lia.
  - intros Hpos. unfold subquests_of. rewrite Hchild.
    apply order_by_position_last. exact Hpos.
Qed.

Lemma add_quest_appends_witness :
  subquests_of (committed (add_quest demo_env "Stretch" "Health" three_subquests)) 1
  = subquests_of three_subquests 1
    ++ [added_quest demo_env "Stretch" "Health" three_subquests demo_main].
Proof.
  destruct (add_quest_appends demo_env "Stretch" "Health" three_subquests demo_main eq_refl)
    as [_ [_ [_ [_ [_ H]]]]].
  apply H. intros x Hx. vm_compute in Hx.
  repeat (destruct Hx as [<-|Hx]; [vm_compute; discriminate|]). destruct Hx.
Defined.

(** ** The rows of the Quest Architect *)

Lemma max_id_app (l : list Quest.t) (q : Quest.t) :
  fold_right (fun r n => Z.max (Quest.id r) n) 0 (l ++ [q])
  = Z.max (Quest.id q) (fold_right (fun r n => Z.max (Quest.id r) n) 0 l).
Proof.
  induction l as [|a l IH]; cbn [app fold_right]; [lia|]. rewrite IH. lia.
Qed.

Lemma next_id_app (l : list Quest.t) (q : Quest.t) :
  Quest.id q = next_id Quest.id l -> next_id Quest.id (l ++ [q]) = next_id Quest.id l + 1.
Proof.
  unfold next_id. intros Hq. rewrite max_id_app, Hq. lia.
Qed.

Lemma architect_loop_rows (e : Env) (mq : Quest.t) (tasks : list ai_service.task)
    (db : Store) :
  architect_loop e mq tasks db
  = (mkStore (quests db ++ architect_rows e mq tasks (next_id Quest.id (quests db)))
       (settings db),
     architect_rows e mq tasks (next_id Quest.id (quests db))).
Proof.
  revert db. induction tasks as [|t tasks IH]; intros db; cbn [architect_loop architect_rows].
  - rewrite app_nil_r. now destruct db.
  - unfold add_quest_row. rewrite IH. cbn [quests settings].
    rewrite next_id_app by reflexivity. rewrite <- app_assoc. reflexivity.
Qed.

Lemma architect_rows_facts (e : Env) (mq : Quest.t) (tasks : list ai_service.task)
    (first_id : Z) :
  List.length (architect_rows e mq tasks first_id) = List.length tasks
  /\ map Quest.title (architect_rows e mq tasks first_id)
     = map ai_service.task_title tasks
  /\ (forall i q, nth_error (architect_rows e mq tasks first_id) i = Some q ->
      Quest.id q = first_id + Z.of_nat i
      /\ Quest.parent_id q = Some (Quest.id mq)
      /\ Quest.is_completed q = false
      /\ Quest.image_url q = None).
Proof.
  revert first_id. induction tasks as [|t tasks IH]; intros first_id;
    cbn [architect_rows List.length map].
  - split; [reflexivity|]. split; [reflexivity|]. intros [|i] q H; discriminate.
  - destruct (IH (first_id + 1)) as [H1 [H2 H3]].
    split; [now rewrite H1|]. split; [now rewrite H2|].
    intros [|i] q H; cbn [nth_error] in H.
    + injection H as <-. cbn. repeat split. lia.
    + destruct (H3 i q H) as [Hid Hrest]. split; [|exact Hrest]. lia.
Qed.

(** X8: [ai_architect] asks the AI service once and appends one row per
    returned task, in the order of the tasks, with consecutive fresh primary
    keys, each a child of the Main Quest, not completed and without image;
    the rows and the settings that existed stay, and the cards of the new
    rows are the response.  Without a Main Quest, or with an empty answer of
    the AI service, the store is left as it is. *)
Theorem architect_appends_tasks (e : Env) (db : Store) :
  (forall mq, query_main_quest db = Some mq ->
     let rows := architect_rows e mq (generate_subquests e (Quest.title mq))
                   (next_id Quest.id (quests db)) in
     quests (committed (ai_architect e db)) = quests db ++ rows
     /\ settings (committed (ai_architect e db)) = settings db
     /\ response (ai_architect e db) = Ok (Cards (map (quest_card e) rows))
     /\ calls (ai_architect e db) = [CallGenerateSubquests (Quest.title mq)]
     /\ List.length rows = List.length (generate_subquests e (Quest.title mq))
     /\ map Quest.title rows
        = map ai_service.task_title (generate_subquests e (Quest.title mq))
     /\ (forall i q, nth_error rows i = Some q ->
         Quest.id q = next_id Quest.id (quests db) + Z.of_nat i
         /\ Quest.parent_id q = Some (Quest.id mq)
         /\ Quest.is_completed q = false
         /\ Quest.image_url q = None)
     /\ (generate_subquests e (Quest.title mq) = [] -> committed (ai_architect e db) = db))
  /\ (query_main_quest db = None ->
      ai_architect e db = mkOutcome db [] (Ok (Body "<p>Error: No Main Quest found.</p>"))).
Proof.
  split.
  - intros mq Hm rows. unfold ai_architect. rewrite Hm, architect_loop_rows.
    fold rows. cbn [committed response calls quests settings].
    destruct (architect_rows_facts e mq (generate_subquests e (Quest.title mq))
                (next_id Quest.id (quests db))) as [H1 [H2 H3]].
    split; [reflexivity|]. split; [reflexivity|]. split; [reflexivity|].
    split; [reflexivity|]. split; [exact H1|]. split; [exact H2|]. split; [exact H3|].
    intros Hnil. subst rows. rewrite Hnil. cbn [architect_rows].
    rewrite app_nil_r. now destruct db.
  - intros Hm. unfold ai_architect. now rewrite Hm.
Qed.

Lemma architect_appends_tasks_witness :
  quests (committed (ai_architect demo_env three_subquests))
  = quests three_subquests
    ++ architect_rows demo_env demo_main
         (generate_subquests demo_env (Quest.title demo_main))
         (next_id Quest.id (quests three_subquests)).
Proof.
  destruct (architect_appends_tasks demo_env three_subquests) as [H _].
  destruct (H demo_main eq_refl) as [H1 _]. exact H1.
Defined.

(** ** Settings update *)

(** X9: [update_settings] answers 204 in every store; with a settings row
    it writes the two names on the first row and nothing else (XP, level,
    cached quote and its date stay, the quests stay), without one it writes
    nothing. *)
Theorem update_settings_frame (theme_name hero_name : string) (db : Store) :
  response (update_settings theme_name hero_name db) = Ok NoContent
  /\ quests (committed (update_settings theme_name hero_name db)) = quests db
  /\ (query_settings db = None -> committed (update_settings theme_name hero_name db) = db)
  /\ (forall st, query_settings db = Some st ->
      exists st1,
        query_settings (committed (update_settings theme_name hero_name db)) = Some st1
        /\ Settings.theme_name st1 = theme_name
        /\ Settings.hero_name st1 = hero_name
        /\ Settings.id st1 = Settings.id st
        /\ Settings.xp st1 = Settings.xp st
        /\ Settings.level st1 = Settings.level st
        /\ Settings.daily_quote st1 = Settings.daily_quote st
        /\ Settings.last_quote_date st1 = Settings.last_quote_date st).
Proof.
  unfold update_settings. destruct (query_settings db) as [st|] eqn:Hs.
  - split; [reflexivity|]. split; [reflexivity|]. split; [discriminate|].
    intros st0 [= <-]. eexists. split.
    + cbn [committed]. apply query_settings_save with (st := st); [exact Hs | reflexivity].
    + repeat split.
  - split; [reflexivity|]. split; [reflexivity|]. split; [reflexivity|]. discriminate.
Qed.

Lemma update_settings_frame_witness :
  exists st1,
    query_settings (committed (update_settings "Forest" "Ada" three_subquests)) = Some st1
    /\ Settings.theme_name st1 = "Forest"
    /\ Settings.hero_name st1 = "Ada"
    /\ Settings.xp st1 = 0.
Proof.
  destruct (update_settings_frame "Forest" "Ada" three_subquests) as [_ [_ [_ H]]].
  destruct (H _ eq_refl) as [st1 [H1 [H2 [H3 [_ [H5 _]]]]]].
  exists st1. repeat split; assumption.
Defined.

(** ** Reset and onboarding *)

Lemma find_app_last (p : Quest.t -> bool) (l : list Quest.t) (q : Quest.t) :
  find p (l ++ [q])
  = match find p l with
    | Some x => Some x
    | None => if p q then Some q else None
    end.
Proof.
  induction l as [|a l IH]; cbn [app find]; [reflexivity|].
  destruct (p a); [reflexivity | exact IH].
Qed.

Lemma onboarding_committed (e : Env) (goal : string) (deadline : option string)
    (db : Store) :
  committed (onboarding_submit e goal deadline db)
  = mkStore (quests db ++ [onboarding_quest e goal deadline db])
      (match settings db with [] => [default_settings] | _ => settings db end).
Proof.
  unfold onboarding_submit, add_quest_row, query_settings. cbv zeta. cbn [settings quests].
  destruct (settings db); reflexivity.
Qed.

(** X10: after [reset_data] both tables are empty whatever the store was:
    the home page is the first-run page again, the settings page asks for the
    onboarding, and an onboarding then starts over with the quest of primary
    key 1 and the default settings (Hero, Cyberpunk, 0 XP, level 1). *)
Theorem reset_starts_over (e0 e1 e2 : Env) (goal : string) (deadline : option string)
    (db : Store) :
  step e0 PostReset db = empty_store
  /\ response (read_root e1 (step e0 PostReset db)) = Ok IndexPage
  /\ response (settings_page (step e0 PostReset db))
     = Ok (Body "<p>Please finish onboarding first.</p>")
  /\ settings (step e2 (PostOnboarding goal deadline) (step e0 PostReset db))
     = [Settings.mk 1 "Hero" "Cyberpunk" 0 1 None None]
  /\ map (fun q => (Quest.id q, Quest.title q, Quest.category q, Quest.parent_id q,
                    Quest.is_completed q))
         (quests (step e2 (PostOnboarding goal deadline) (step e0 PostReset db)))
     = [(1, goal, Some "Main", None, false)].
Proof.
  repeat split.
Qed.

(** X11: [onboarding_submit] always inserts a quest of category "Main"
    with a fresh primary key and redirects; it creates the default settings
    row only when there is none and otherwise leaves the settings (XP and
    level included) as they are; a Main Quest that existed stays the one the
    handlers work on, the new quest is it only when there was none; after it
    the home page is the dashboard. *)
Theorem onboarding_effect (e e1 : Env) (goal : string) (deadline : option string)
    (db : Store) :
  response (onboarding_submit e goal deadline db) = Ok (HxRedirect "/")
  /\ (exists q,
        quests (step e (PostOnboarding goal deadline) db) = quests db ++ [q]
        /\ Quest.id q = next_id Quest.id (quests db)
        /\ Quest.title q = goal
        /\ Quest.category q = Some "Main"
        /\ Quest.parent_id q = None
        /\ Quest.is_completed q = false
        /\ Quest.image_url q = Some (ai_service.get_vision_image goal)
        /\ (query_main_quest db = None ->
            query_main_quest (step e (PostOnboarding goal deadline) db) = Some q))
  /\ (forall mq, query_main_quest db = Some mq ->
      query_main_quest (step e (PostOnboarding goal deadline) db) = Some mq)
  /\ (forall st, query_settings db = Some st ->
      settings (step e (PostOnboarding goal deadline) db) = settings db)
  /\ (query_settings db = None ->
      settings (step e (PostOnboarding goal deadline) db)
      = [Settings.mk 1 "Hero" "Cyberpunk" 0 1 None None])
  /\ response (read_root e1 (step e (PostOnboarding goal deadline) db)) <> Ok IndexPage.
Proof.
  unfold step, handle. rewrite onboarding_committed.
  split; [reflexivity|]. split; [|split; [|split; [|split]]].
  - exists (onboarding_quest e goal deadline db). repeat split.
    intros Hm. unfold query_main_quest in *. cbn [quests].
    rewrite find_app_last, Hm. reflexivity.
  - intros mq Hm. unfold query_main_quest in *. cbn [quests].
    now rewrite find_app_last, Hm.
  - intros st Hs. unfold query_settings in Hs. cbn [settings].
    destruct (settings db); [discriminate | reflexivity].
  - intros Hs. unfold query_settings in Hs. cbn [settings].
    destruct (settings db); [reflexivity | discriminate].
  - unfold read_root, query_settings. cbn [settings].
    assert (Hex : exists st, hd_error (match settings db with
                                       | [] => [default_settings]
                                       | _ :: _ => settings db
                                       end) = Some st)
      by (destruct (settings db); cbn; eauto).
    destruct Hex as [st ->].
    destruct (query_main_quest _); [|discriminate].
    destruct (ensure_image _ _) as [[db1 mq1] calls1].
    destruct (quote_is_fresh e1 st); discriminate.
Qed.

Lemma onboarding_effect_witness :
  query_main_quest (step demo_env (PostOnboarding "Learn French" None) onboarded)
  = Some demo_main
  /\ settings (step demo_env (PostOnboarding "Learn French" None) onboarded)
     = settings onboarded.
Proof.
  destruct (onboarding_effect demo_env demo_env "Learn French" None onboarded)
    as [_ [_ [H1 [H2 _]]]].
  split; [exact (H1 demo_main eq_refl) | exact (H2 _ eq_refl)].
Defined.

(** ** The home page *)

Lemma vision_image_truthy (title : string) :
  Py.truthy_str (ai_service.get_vision_image title) = true.
Proof.
  reflexivity.
Qed.

Lemma query_main_save (db : Store) (mq mq1 : Quest.t) :
  query_main_quest db = Some mq ->
  Quest.id mq1 = Quest.id mq -> is_main mq1 = true ->
  query_main_quest (save_quest db mq1) = Some mq1.
Proof.
  unfold query_main_quest, save_quest. cbn [quests]. fold is_main. intros Hm Hid Hmain.
  induction (quests db) as [|a l IH]; cbn [map find] in *; [discriminate|].
  destruct (is_main a) eqn:Ea.
  - injection Hm as ->. rewrite Hid, Z.eqb_refl, Hmain. reflexivity.
  - destruct (Quest.id a =? Quest.id mq1).
    + now rewrite Hmain.
    + rewrite Ea. exact (IH Hm).
Qed.

Lemma query_main_is_main (db : Store) (mq : Quest.t) :
  query_main_quest db = Some mq -> is_main mq = true.
Proof.
  unfold query_main_quest. fold is_main. intros H. now apply find_some in H as [_ H].
Qed.

(** The store and the rows [read_root] works on, with settings and a Main
    Quest. *)
Lemma read_root_dashboard (e : Env) (db : Store) (st : Settings.t) (mq : Quest.t) :
  query_settings db = Some st ->
  query_main_quest db = Some mq ->
  let mq1 := if Py.truthy_ostr (Quest.image_url mq) then mq
             else Quest.set_image_url mq
                    (Some (ai_service.get_vision_image (Quest.title mq))) in
  let db1 := if Py.truthy_ostr (Quest.image_url mq) then db else save_quest db mq1 in
  let st1 := if quote_is_fresh e st then st
             else Settings.set_quote st (Some (generate_motivation e (Quest.title mq)))
                    (Some (utcnow e)) in
  read_root e db
  = mkOutcome (if quote_is_fresh e st then db1 else save_settings db1 st1)
      ((if Py.truthy_ostr (Quest.image_url mq) then []
        else [CallGetVisionImage (Quest.title mq)])
       ++ (if quote_is_fresh e st then []
           else [CallGenerateMotivation (Quest.title mq)]))
      (Ok (Dashboard (Some mq1) (subquests_of db1 (Quest.id mq)) st1
             (xp_percent_of (Settings.xp st))))
  /\ query_main_quest db1 = Some mq1
  /\ query_settings db1 = Some st.
Proof.
  intros Hs Hm mq1 db1 st1. subst mq1 db1 st1.
  unfold read_root, ensure_image. rewrite Hs, Hm.
  destruct (Py.truthy_ostr (Quest.image_url mq)) eqn:Himg; cbn [negb].
  - destruct (quote_is_fresh e st); cbn [app]; auto.
  - split; [destruct (quote_is_fresh e st); reflexivity|]. split; [|exact Hs].
    apply query_main_save with (mq := mq); [exact Hm | reflexivity|].
    exact (query_main_is_main _ _ Hm).
Qed.

(** X12: a load of the home page with settings and a Main Quest leaves the
    Main Quest with an image URL and changes no other column and no other
    quest: a missing URL is the one [get_vision_image] builds from the
    title, and that call is the only image call of the load; an existing URL
    is kept and no image call is made.  The load keeps the names, the XP and
    the level of the settings, and the next load does not build an image URL
    again. *)
Theorem read_root_image_once (e e1 : Env) (db : Store) (st : Settings.t) (mq : Quest.t) :
  query_settings db = Some st ->
  query_main_quest db = Some mq ->
  exists mq1 st1,
    query_main_quest (step e GetRoot db) = Some mq1
    /\ query_settings (step e GetRoot db) = Some st1
    /\ Py.truthy_ostr (Quest.image_url mq1) = true
    /\ Quest.set_image_url mq (Quest.image_url mq1) = mq1
    /\ (Py.truthy_ostr (Quest.image_url mq) = false ->
          Quest.image_url mq1 = Some (ai_service.get_vision_image (Quest.title mq))
          /\ exists rest,
               calls (read_root e db) = CallGetVisionImage (Quest.title mq) :: rest
               /\ (forall t, ~ In (CallGetVisionImage t) rest))
    /\ (Py.truthy_ostr (Quest.image_url mq) = true ->
          mq1 = mq
          /\ (forall t, ~ In (CallGetVisionImage t) (calls (read_root e db))))
    /\ (forall k, k <> Quest.id mq -> query_quest (step e GetRoot db) k = query_quest db k)
    /\ Settings.set_quote st (Settings.daily_quote st1) (Settings.last_quote_date st1) = st1
    /\ (forall t, ~ In (CallGetVisionImage t) (calls (read_root e1 (step e GetRoot db)))).
Proof.
  intros Hs Hm. destruct (read_root_dashboard e db st mq Hs Hm) as [Hout [Hm1 Hs1]].
  cbv zeta in *. unfold step, handle. rewrite Hout. cbn [committed calls].
  set (mq1 := if Py.truthy_ostr (Quest.image_url mq) then mq
              else Quest.set_image_url mq
                     (Some (ai_service.get_vision_image (Quest.title mq)))) in *.
  set (db1 := if Py.truthy_ostr (Quest.image_url mq) then db else save_quest db mq1) in *.
  set (st1 := if quote_is_fresh e st then st
              else Settings.set_quote st (Some (generate_motivation e (Quest.title mq)))
                     (Some (utcnow e))).
  set (db2 := if quote_is_fresh e st then db1 else save_settings db1 st1).
  assert (Hm2 : query_main_quest db2 = Some mq1)
    by (subst db2; destruct (quote_is_fresh e st); exact Hm1).
  assert (Hs2 : query_settings db2 = Some st1).
  { subst db2 st1. destruct (quote_is_fresh e st); [exact Hs1|].
    apply query_settings_save with (st := st); [exact Hs1 | reflexivity]. }
  assert (Himg : Py.truthy_ostr (Quest.image_url mq1) = true).
  { subst mq1. destruct (Py.truthy_ostr (Quest.image_url mq)) eqn:E; [exact E|].
    reflexivity. }
  exists mq1, st1. split; [exact Hm2|]. split; [exact Hs2|]. split; [exact Himg|].
  split; [|split; [|split; [|split; [|split]]]].
  - subst mq1. destruct (Py.truthy_ostr (Quest.image_url mq)); now destruct mq.
  - intros H. subst mq1. rewrite H. split; [reflexivity|].
    eexists. split; [reflexivity|].
    intros t. destruct (quote_is_fresh e st); cbn [In]; [tauto|].
    intros [H1|[]]. discriminate.
  - intros H. subst mq1. rewrite H. split; [reflexivity|].
    intros t. cbn [app]. destruct (quote_is_fresh e st); cbn [In]; [tauto|].
    intros [H1|[]]. discriminate.
  - intros k Hk.
    assert (H1 : query_quest db1 k = query_quest db k).
    { subst db1. destruct (Py.truthy_ostr (Quest.image_url mq)); [reflexivity|].
      apply query_quest_save_other. subst mq1. cbn [Quest.set_image_url Quest.id].
      exact Hk. }
    subst db2. destruct (quote_is_fresh e st); exact H1.
  - subst st1. destruct (quote_is_fresh e st); now destruct st.
  - intros t.
    destruct (read_root_dashboard e1 db2 st1 mq1 Hs2 Hm2) as [Hout2 _].
    cbv zeta in Hout2. rewrite Hout2. cbn [calls]. rewrite Himg. cbn [app].
    destruct (quote_is_fresh e1 st1); cbn [In]; [tauto|]. intros [H|[]]. discriminate.
Qed.

Lemma read_root_image_once_witness :
  exists mq1,
    query_main_quest (step demo_env GetRoot migrated_db) = Some mq1
    /\ Quest.image_url mq1 = Some (ai_service.get_vision_image "Run a Marathon")
    /\ In (CallGetVisionImage "Run a Marathon") (calls (read_root demo_env migrated_db))
    /\ (forall t, ~ In (CallGetVisionImage t)
                    (calls (read_root demo_env (step demo_env GetRoot migrated_db)))).
Proof.
  destruct (read_root_image_once demo_env demo_env migrated_db _ _ eq_refl eq_refl)
    as [mq1 [st1 [H1 [_ [_ [_ [H2 [_ [_ [_ H]]]]]]]]]].
  destruct (H2 eq_refl) as [Hurl [rest [Hcalls _]]].
  exists mq1. split; [exact H1|]. split; [exact Hurl|]. split; [|exact H].
  rewrite Hcalls. now left.
Defined.

Lemma insert_by_position_perm (a : Quest.t) (l : list Quest.t) :
  Permutation (insert_by_position a l) (a :: l).
Proof.
  induction l as [|x l IH]; cbn [insert_by_position]; [reflexivity|].
  destruct (Quest.position a <=? Quest.position x); [reflexivity|].
  rewrite IH. apply perm_swap.
Qed.

Lemma order_by_position_perm (l : list Quest.t) : Permutation (order_by_position l) l.
Proof.
  unfold order_by_position. induction l as [|a l IH]; cbn [fold_right]; [reflexivity|].
  rewrite insert_by_position_perm. now constructor.
Qed.

Lemma insert_by_position_sorted (a : Quest.t) (l : list Quest.t) :
  Sorted position_le l -> Sorted position_le (insert_by_position a l).
Proof.
  induction l as [|x l IH]; intros Hsorted; cbn [insert_by_position].
  - repeat constructor.
  - destruct (Z.leb_spec (Quest.position a) (Quest.position x)) as [Hle|Hgt].
    + constructor; [exact Hsorted | constructor; exact Hle].
    + inversion Hsorted as [|? ? Hl Hhd]; subst.
      constructor; [apply IH; exact Hl|].
      destruct l as [|y l]; cbn [insert_by_position].
      * constructor. unfold position_le. lia.
      * destruct (Quest.position a <=? Quest.position y); constructor.
        -- unfold position_le. lia.
        -- now inversion Hhd.
Qed.

Lemma order_by_position_sorted (l : list Quest.t) :
  StronglySorted position_le (order_by_position l).
Proof.
  apply Sorted_StronglySorted.
  - intros a b c. unfold position_le. lia.
  - unfold order_by_position. induction l as [|a l IH]; cbn [fold_right].
    + constructor.
    + now apply insert_by_position_sorted.
Qed.

(** X13: the sub-quests the dashboard shows are exactly the quests whose
    parent is the Main Quest, each one once, in ascending position. *)
Theorem dashboard_subquests (e : Env) (db : Store) (st : Settings.t) (mq : Quest.t) :
  query_settings db = Some st ->
  query_main_quest db = Some mq ->
  exists m subs st1 x,
    response (read_root e db) = Ok (Dashboard m subs st1 x)
    /\ Permutation subs (children_of (step e GetRoot db) (Quest.id mq))
    /\ (forall q, In q subs <->
          In q (quests (step e GetRoot db)) /\ Quest.parent_id q = Some (Quest.id mq))
    /\ StronglySorted position_le subs.
Proof.
  intros Hs Hm. destruct (read_root_dashboard e db st mq Hs Hm) as [Hout _].
  cbv zeta in Hout. unfold step, handle. rewrite Hout. cbn [response committed].
  do 4 eexists. split; [reflexivity|].
  set (db1 := if Py.truthy_ostr (Quest.image_url mq) then db else save_quest db _).
  assert (Hq : children_of (if quote_is_fresh e st then db1 else save_settings db1
                 (if quote_is_fresh e st then st
                  else Settings.set_quote st
                         (Some (generate_motivation e (Quest.title mq))) (Some (utcnow e))))
                 (Quest.id mq)
               = children_of db1 (Quest.id mq))
    by (destruct (quote_is_fresh e st); reflexivity).
  assert (Hquests : quests (if quote_is_fresh e st then db1 else save_settings db1
                 (if quote_is_fresh e st then st
                  else Settings.set_quote st
                         (Some (generate_motivation e (Quest.title mq))) (Some (utcnow e))))
               = quests db1)
    by (destruct (quote_is_fresh e st); reflexivity).
  rewrite Hq, Hquests. unfold subquests_of.
  split; [apply order_by_position_perm|]. split; [|apply order_by_position_sorted].
  intros q. split.
  - intros Hin. apply (Permutation_in _ (order_by_position_perm _)) in Hin.
    unfold children_of in Hin. apply filter_In in Hin as [Hin Hp]. split; [exact Hin|].
    destruct (Quest.parent_id q) as [p|]; [|discriminate].
    cbn [oint_eqb] in Hp. apply Z.eqb_eq in Hp. now subst p.
  - intros [Hin Hp].
    apply (Permutation_in _ (Permutation_sym (order_by_position_perm _))).
    unfold children_of. apply filter_In. split; [exact Hin|].
    rewrite Hp. cbn [oint_eqb]. apply Z.eqb_refl.
Qed.

Lemma dashboard_subquests_witness :
  exists m subs st1 x,
    response (read_root demo_env three_subquests) = Ok (Dashboard m subs st1 x)
    /\ StronglySorted position_le subs.
Proof.
  destruct (dashboard_subquests demo_env three_subquests _ _ eq_refl eq_refl)
    as [m [subs [st1 [x [H1 [_ [_ H2]]]]]]].
  exists m, subs, st1, x. split; [exact H1 | exact H2].
Defined.

(** ** Effect of a toggle *)

Lemma level_after_gain (xp : Z) :
  (xp + 100) / 500 = xp / 500 + (if 400 <=? xp mod 500 then 1 else 0).
Proof.
  destruct (Z.leb_spec 400 (xp mod 500)); Z.div_mod_to_equations; lia.
Qed.

(** X14: a toggle of an existing quest flips its completion flag and writes
    the XP and the level of the settings, nothing else: the other columns of
    the quest, the other quests, the names and the cached quote stay.
    Completing awards 100 XP and shows the toast, and the level rises, by
    one, exactly when the XP was within 100 of the next multiple of 500;
    unchecking stores max(0, xp - 100), shows no toast and never raises the
    level. *)
Theorem toggle_quest_effect (quest_id : Z) (db : Store) (q : Quest.t) (st : Settings.t) :
  query_quest db quest_id = Some q ->
  query_settings db = Some st ->
  exists q1 st1,
    query_quest (committed (toggle_quest quest_id db)) quest_id = Some q1
    /\ query_settings (committed (toggle_quest quest_id db)) = Some st1
    /\ Quest.set_is_completed q (negb (Quest.is_completed q)) = q1
    /\ (forall k, k <> quest_id ->
        query_quest (committed (toggle_quest quest_id db)) k = query_quest db k)
    /\ Settings.set_level (Settings.set_xp st (Settings.xp st1)) (Settings.level st1) = st1
    /\ (forall p l x pc toast,
        response (toggle_quest quest_id db) = Ok (ToggleFragments p l x pc toast) ->
        l = Settings.level st1 /\ x = Settings.xp st1
        /\ toast = negb (Quest.is_completed q))
    /\ (Quest.is_completed q = false ->
        Settings.xp st1 = Settings.xp st + 100
        /\ Settings.level st1
           = 1 + Settings.xp st / 500 + (if 400 <=? Settings.xp st mod 500 then 1 else 0))
    /\ (Quest.is_completed q = true ->
        Settings.xp st1 = Z.max 0 (Settings.xp st - 100)
        /\ (0 <= Settings.xp st -> 1 <= Settings.level st1 <= 1 + Settings.xp st / 500)).
Proof.
  intros Hq Hs. destruct (toggle_queries _ _ _ _ Hq Hs) as [Hq1 Hs1].
  eexists. eexists. split; [exact Hq1|]. split; [exact Hs1|]. split; [reflexivity|].
  cbn [Settings.set_level Settings.set_xp Settings.xp Settings.level].
  split; [|split; [|split; [|split]]].
  - intros k Hk. rewrite (toggle_committed _ _ _ _ Hq Hs).
    change (query_quest (save_quest db (Quest.set_is_completed q
              (negb (Quest.is_completed q)))) k = query_quest db k).
    apply query_quest_save_other. cbn [Quest.set_is_completed Quest.id].
    rewrite (query_quest_id _ _ _ Hq). exact Hk.
  - now destruct st.
  - intros p l x pc toast Hresp. rewrite (toggle_response _ _ _ _ Hq Hs) in Hresp.
    match type of Hresp with
    | match ?r with _ => _ end = _ => destruct r; [|discriminate]
    end.
    injection Hresp as _ <- <- _ <-.
    split; [reflexivity|]. split; [reflexivity|]. apply andb_diag.
  - intros Hc. rewrite Hc. unfold toggled_xp, level_of, xp_gain. cbn [negb andb].
    split; [reflexivity|]. rewrite level_after_gain. lia.
  - intros Hc. rewrite Hc. unfold toggled_xp, level_of, xp_gain. cbn [negb andb].
    split; [reflexivity|]. intros Hxp.
    assert (0 <= Z.max 0 (Settings.xp st - 100) / 500)
      by (apply Z.div_pos; lia).
    assert (Z.max 0 (Settings.xp st - 100) / 500 <= Settings.xp st / 500)
      by (apply Z.div_le_mono; lia).
    lia.
Qed.

Lemma toggle_quest_effect_witness :
  exists q1 st1,
    query_quest (committed (toggle_quest 2 three_subquests)) 2 = Some q1
    /\ query_settings (committed (toggle_quest 2 three_subquests)) = Some st1
    /\ Quest.is_completed q1 = true
    /\ Settings.xp st1 = 100
    /\ Settings.level st1 = 1.
Proof.
  destruct (toggle_quest_effect 2 three_subquests _ _ eq_refl eq_refl)
    as [q1 [st1 [H1 [H2 [H3 [_ [_ [_ [H4 _]]]]]]]]].
  destruct (H4 eq_refl) as [Hxp Hlv].
  exists q1, st1. split; [exact H1|]. split; [exact H2|]. split; [now rewrite <- H3|].
  split; [exact Hxp | exact Hlv].
Defined.

(** ** Image URLs *)

Lemma string_forall_append (p : ascii -> bool) (a b : string) :
  string_forall p (String.append a b) = string_forall p a && string_forall p b.
Proof.
  induction a as [|c a IH]; cbn [String.append string_forall]; [reflexivity|].
  now rewrite IH, andb_assoc.
Qed.

Lemma hex_digits_url (c : ascii) :
  url_char (ai_service.hex_digit (Py.code c / 16)) = true
  /\ url_char (ai_service.hex_digit (Py.code c mod 16)) = true.
Proof.
  destruct c as [[] [] [] [] [] [] [] []]; vm_compute; split; reflexivity.
Qed.

Lemma quote_url_chars (s : string) : string_forall url_char (ai_service.quote s) = true.
Proof.
  induction s as [|c s IH]; cbn [ai_service.quote]; [reflexivity|].
  destruct (ai_service.is_safe c) eqn:E; cbn [string_forall].
  - rewrite IH. unfold url_char. now rewrite E.
  - destruct (hex_digits_url c) as [-> ->]. now rewrite IH.
Qed.

(** X15: whatever the title, the image URL starts with the address of the
    image service and consists of letters, digits and the characters
    [_ . - ~ / % : ? & =] only: the title is percent-encoded, so no white
    space, quote or angle bracket of a title reaches the URL, and the URL is
    never empty. *)
Theorem vision_image_url_chars (title : string) :
  String.prefix "https://image.pollinations.ai/prompt/" (ai_service.get_vision_image title)
  = true
  /\ string_forall url_char (ai_service.get_vision_image title) = true
  /\ Py.truthy_str (ai_service.get_vision_image title) = true.
Proof.
  split; [reflexivity|]. split; [|reflexivity].
  unfold ai_service.get_vision_image.
  rewrite !string_forall_append, quote_url_chars. reflexivity.
Qed.

(** ** Text processing of the AI service *)

Lemma lstrip_forall (p : ascii -> bool) (s : string) :
  string_forall p s = true -> string_forall p (Py.lstrip s) = true.
Proof.
  induction s as [|c s IH]; cbn [Py.lstrip string_forall]; [reflexivity|].
  intros H. apply andb_true_iff in H as [Hc Hs].
  destruct (Py.is_space c); [auto|]. cbn [string_forall]. now rewrite Hc, Hs.
Qed.

Lemma rstrip_forall (p : ascii -> bool) (s : string) :
  string_forall p s = true -> string_forall p (AIService.rstrip s) = true.
Proof.
  induction s as [|c s IH]; cbn [AIService.rstrip string_forall]; [reflexivity|].
  intros H. apply andb_true_iff in H as [Hc Hs]. specialize (IH Hs).
  destruct (AIService.rstrip s) as [|c1 r1].
  - destruct (Py.is_space c); cbn [string_forall]; [reflexivity | now rewrite Hc].
  - cbn [string_forall] in *. now rewrite Hc, IH.
Qed.

Lemma strip_forall (p : ascii -> bool) (s : string) :
  string_forall p s = true -> string_forall p (AIService.strip s) = true.
Proof.
  intros H. unfold AIService.strip. now apply rstrip_forall, lstrip_forall.
Qed.

Lemma lstrip_head (s : string) :
  Py.lstrip s = EmptyString
  \/ exists c r, Py.lstrip s = String c r /\ Py.is_space c = false.
Proof.
  induction s as [|c s IH]; cbn [Py.lstrip]; [now left|].
  destruct (Py.is_space c) eqn:E; [exact IH|]. right. eauto.
Qed.

Lemma rstrip_rstrip (s : string) : AIService.rstrip (AIService.rstrip s) = AIService.rstrip s.
Proof.
  induction s as [|c s IH]; cbn [AIService.rstrip]; [reflexivity|].
  destruct (AIService.rstrip s) as [|c1 r1] eqn:E.
  - destruct (Py.is_space c) eqn:Ec; cbn [AIService.rstrip]; [reflexivity|].
    now rewrite Ec.
  - cbn [AIService.rstrip]. cbn [AIService.rstrip] in IH.
    destruct (AIService.rstrip r1) as [|c2 r2].
    + destruct (Py.is_space c1); [discriminate|]. injection IH as ->. reflexivity.
    + now rewrite IH.
Qed.

Lemma strip_stripped (s : string) : stripped (AIService.strip s).
Proof.
  unfold stripped, AIService.strip. split; [|apply rstrip_rstrip].
  destruct (lstrip_head s) as [->|[c [r [-> Hc]]]]; [reflexivity|].
  cbn [AIService.rstrip]. destruct (AIService.rstrip r).
  - rewrite Hc. cbn [Py.lstrip]. now rewrite Hc.
  - cbn [Py.lstrip]. now rewrite Hc.
Qed.

Lemma split_aux_chars (p : ascii -> bool) (sep : ascii) (s cur piece : string) :
  string_forall p s = true -> string_forall p cur = true ->
  In piece (Py.split_aux sep s cur) -> string_forall p piece = true.
Proof.
  revert cur. induction s as [|c s IH]; intros cur Hs Hcur Hin; cbn [Py.split_aux] in Hin.
  - destruct Hin as [<-|[]]. exact Hcur.
  - cbn [string_forall] in Hs. apply andb_true_iff in Hs as [Hc Hs].
    destruct (Ascii.eqb c sep).
    + destruct Hin as [<-|Hin]; [exact Hcur|]. now apply (IH EmptyString).
    + apply (IH (String.append cur (String c EmptyString))); [exact Hs | | exact Hin].
      rewrite string_forall_append, Hcur. cbn [string_forall]. now rewrite Hc.
Qed.

Lemma split_aux_no_sep (sep : ascii) (s cur piece : string) :
  string_forall (fun x => negb (Ascii.eqb x sep)) cur = true ->
  In piece (Py.split_aux sep s cur) ->
  string_forall (fun x => negb (Ascii.eqb x sep)) piece = true.
Proof.
  revert cur. induction s as [|c s IH]; intros cur Hcur Hin; cbn [Py.split_aux] in Hin.
  - destruct Hin as [<-|[]]. exact Hcur.
  - destruct (Ascii.eqb c sep) eqn:E.
    + destruct Hin as [<-|Hin]; [exact Hcur|]. now apply (IH EmptyString).
    + apply (IH (String.append cur (String c EmptyString))); [|exact Hin].
      rewrite string_forall_append, Hcur. cbn [string_forall]. now rewrite E.
Qed.

Lemma parse_line_length (line : string) : (List.length (AIService.parse_line line) <= 1)%nat.
Proof.
  unfold AIService.parse_line. destruct (Py.split "|" line) as [|p0 [|p1 [|p2 l]]]; cbn; lia.
Qed.

Lemma flat_map_length_le (lines : list string) :
  (List.length (flat_map AIService.parse_line lines) <= List.length lines)%nat.
Proof.
  induction lines as [|l lines IH]; cbn [flat_map List.length]; [lia|].
  rewrite length_app. pose proof (parse_line_length l). lia.
Qed.

(** X16: the list [generate_subquests] returns holds at most one task per
    line of the (stripped) answer, and every field of every task is free of
    the separator [|] and of line breaks and has no white space at either
    end; without API key or when the call fails the list is empty. *)
Theorem generate_subquests_fields (client : bool) (api : option string) :
  (forall text, api = Some text ->
     (List.length (AIService.generate_subquests client api)
      <= List.length (Py.split AIService.newline (AIService.strip text)))%nat)
  /\ (forall t f,
        In t (AIService.generate_subquests client api) -> In f (task_fields t) ->
        stripped f
        /\ string_forall (fun x => negb (Ascii.eqb x "|")) f = true
        /\ string_forall (fun x => negb (Ascii.eqb x AIService.newline)) f = true)
  /\ (client = false \/ api = None -> AIService.generate_subquests client api = []).
Proof.
  unfold AIService.generate_subquests. split; [|split].
  - intros text ->. destruct client; cbn [negb List.length]; [|lia].
    apply flat_map_length_le.
  - intros t f Ht Hf. destruct client; cbn [negb] in Ht; [|destruct Ht].
    destruct api as [text|]; [|destruct Ht].
    unfold AIService.parse_subquests in Ht. apply in_flat_map in Ht as [line [Hline Ht]].
    assert (Hnl : string_forall (fun x => negb (Ascii.eqb x AIService.newline)) line = true)
      by (apply (split_aux_no_sep _ _ EmptyString line eq_refl Hline)).
    unfold AIService.parse_line in Ht.
    destruct (Py.split "|" line) as [|p0 [|p1 [|p2 l]]] eqn:Hsplit; try destruct Ht.
    2: destruct H.
    assert (Hparts : forall p, In p (p0 :: p1 :: p2 :: l) ->
              string_forall (fun x => negb (Ascii.eqb x "|")) p = true
              /\ string_forall (fun x => negb (Ascii.eqb x AIService.newline)) p = true).
    { intros p Hp. rewrite <- Hsplit in Hp. split.
      - exact (split_aux_no_sep _ _ EmptyString p eq_refl Hp).
      - exact (split_aux_chars _ _ _ EmptyString p Hnl eq_refl Hp). }
    subst t. cbn [task_fields ai_service.task_title ai_service.task_deadline
                  ai_service.task_category In] in Hf.
    assert (Hfield : exists p, In p (p0 :: p1 :: p2 :: l) /\ f = AIService.strip p).
    { destruct Hf as [<-|[<-|[<-|[]]]]; eexists; (split; [|reflexivity]); cbn; auto. }
    destruct Hfield as [p [Hp ->]]. destruct (Hparts p Hp) as [H1 H2].
    split; [apply strip_stripped|]. split; now apply strip_forall.
  - intros [-> | ->]; [reflexivity|]. now destruct client.
Qed.

Lemma generate_subquests_fields_witness :
  List.length (AIService.generate_subquests true (Some demo_answer)) = 2%nat
  /\ stripped "Research Running Shoes"
  /\ AIService.generate_subquests false (Some demo_answer) = [].
Proof.
  destruct (generate_subquests_fields true (Some demo_answer)) as [_ [H _]].
  destruct (generate_subquests_fields false (Some demo_answer)) as [_ [_ H0]].
  split; [reflexivity|]. split; [|apply H0; now left].
  refine (proj1 (H (ai_service.mk_task "Research Running Shoes" "1 week" "Preparation")
                   "Research Running Shoes" _ _)).
  - vm_compute. now left.
  - now left.
Defined.

Lemma remove_char_removed (c : ascii) (s : string) :
  string_forall (fun x => negb (Ascii.eqb x c)) (AIService.remove_char c s) = true.
Proof.
  induction s as [|x s IH]; cbn [AIService.remove_char]; [reflexivity|].
  destruct (Ascii.eqb x c) eqn:E; [exact IH|]. cbn [string_forall]. now rewrite E, IH.
Qed.

(** X17: whatever the model answers, and also without API key or when the
    call fails, the quote [generate_motivation] returns holds no double
    quote character. *)
Theorem generate_motivation_unquoted (client : bool) (api : option string) :
  string_forall (fun x => negb (Ascii.eqb x AIService.dquote))
    (AIService.generate_motivation client api) = true.
Proof.
  unfold AIService.generate_motivation. destruct client; cbn [negb]; [|reflexivity].
  destruct api as [text|]; [apply remove_char_removed | reflexivity].
Qed.

Lemma string_append_assoc (a b c : string) :
  String.append (String.append a b) c = String.append a (String.append b c).
Proof.
  induction a as [|x a IH]; cbn [String.append]; [reflexivity | now rewrite IH].
Qed.

Lemma string_append_empty (a : string) : String.append a EmptyString = a.
Proof.
  induction a as [|x a IH]; cbn [String.append]; [reflexivity | now rewrite IH].
Qed.

Lemma split_aux_piece (sep : ascii) (a r cur : string) :
  string_forall (fun x => negb (Ascii.eqb x sep)) a = true ->
  Py.split_aux sep (String.append a (String sep r)) cur
  = String.append cur a :: Py.split_aux sep r EmptyString.
Proof.
  revert cur. induction a as [|x a IH]; intros cur Ha; cbn [String.append Py.split_aux].
  - now rewrite Ascii.eqb_refl, string_append_empty.
  - cbn [string_forall] in Ha. apply andb_true_iff in Ha as [Hx Ha].
    apply negb_true_iff in Hx. rewrite Hx, (IH _ Ha), string_append_assoc. reflexivity.
Qed.

Lemma split_aux_whole (sep : ascii) (a cur : string) :
  string_forall (fun x => negb (Ascii.eqb x sep)) a = true ->
  Py.split_aux sep a cur = [String.append cur a].
Proof.
  revert cur. induction a as [|x a IH]; intros cur Ha; cbn [Py.split_aux].
  - now rewrite string_append_empty.
  - cbn [string_forall] in Ha. apply andb_true_iff in Ha as [Hx Ha].
    apply negb_true_iff in Hx. rewrite Hx, (IH _ Ha), string_append_assoc. reflexivity.
Qed.

Lemma rstrip_append_space (s : string) :
  AIService.rstrip (String.append s " ") = AIService.rstrip s.
Proof.
  induction s as [|c s IH]; cbn [String.append AIService.rstrip]; [reflexivity|].
  now rewrite IH.
Qed.

Lemma stripped_head (s : string) :
  stripped s -> s = EmptyString \/ exists c r, s = String c r /\ Py.is_space c = false.
Proof.
  intros [Hl _]. destruct (lstrip_head s) as [H|[c [r [H Hc]]]]; rewrite Hl in H; eauto.
Qed.

Lemma strip_padded (s : string) :
  stripped s ->
  AIService.strip (String.append s " ") = s
  /\ AIService.strip (String " " (String.append s " ")) = s
  /\ AIService.strip (String " " s) = s.
Proof.
  intros Hs. pose proof Hs as [Hl Hr].
  assert (H1 : AIService.strip (String.append s " ") = s).
  { unfold AIService.strip. destruct (stripped_head s Hs) as [->|[c [r [-> Hc]]]];
      [reflexivity|].
    cbn [String.append Py.lstrip]. rewrite Hc.
    change (String c (String.append r " ")) with (String.append (String c r) " ").
    now rewrite rstrip_append_space. }
  split; [exact H1|]. split.
  - unfold AIService.strip in *. cbn [Py.lstrip]. exact H1.
  - unfold AIService.strip. cbn [Py.lstrip]. now rewrite Hl.
Qed.

Lemma format_line_shape (t : ai_service.task) :
  format_line t
  = String.append (String.append (ai_service.task_title t) " ")
      (String "|"
         (String.append (String.append (String " " (ai_service.task_deadline t)) " ")
            (String "|" (String " " (ai_service.task_category t))))).
Proof.
  unfold format_line. rewrite !string_append_assoc. reflexivity.
Qed.

(** X18: a line written in the format the prompt asks for,
    [Title | Duration | Category], with fields that are free of [|] and have
    no white space at their ends, is parsed back to exactly these three
    fields; a line without the separator gives no task. *)
Theorem parse_line_format (t : ai_service.task) (line : string) :
  (forall f, In f (task_fields t) ->
     stripped f /\ string_forall (fun x => negb (Ascii.eqb x "|")) f = true) ->
  (string_forall (fun x => negb (Ascii.eqb x "|")) line = true ->
   AIService.parse_line line = [])
  /\ AIService.parse_line (format_line t) = [t].
Proof.
  intros Hf. split.
  - intros Hline. unfold AIService.parse_line, Py.split.
    now rewrite (split_aux_whole _ _ _ Hline).
  - rewrite format_line_shape. destruct t as [title dur cat].
    cbn [task_fields ai_service.task_title ai_service.task_deadline
         ai_service.task_category] in *.
    destruct (Hf title) as [St Nt]; [cbn; auto|].
    destruct (Hf dur) as [Sd Nd]; [cbn; auto|].
    destruct (Hf cat) as [Sc Nc]; [cbn; auto|].
    unfold AIService.parse_line, Py.split.
    rewrite (split_aux_piece "|" (String.append title " "))
      by (rewrite string_forall_append, Nt; reflexivity).
    rewrite (split_aux_piece "|" (String.append (String " " dur) " "))
      by (rewrite string_forall_append; cbn [string_forall]; rewrite Nd; reflexivity).
    rewrite (split_aux_whole "|" (String " " cat))
      by (cbn [string_forall]; now rewrite Nc).
    cbn [String.append].
    destruct (strip_padded title St) as [-> _].
    destruct (strip_padded dur Sd) as [_ [-> _]].
    destruct (strip_padded cat Sc) as [_ [_ ->]].
    reflexivity.
Qed.

Lemma parse_line_format_witness :
  AIService.parse_line
    (format_line (ai_service.mk_task "Join a local running club" "2 weeks" "Social"))
  = [ai_service.mk_task "Join a local running club" "2 weeks" "Social"].
Proof.
  refine (proj2 (parse_line_format
                   (ai_service.mk_task "Join a local running club" "2 weeks" "Social")
                   EmptyString _)).
  intros f Hf. cbn in Hf.
  destruct Hf as [<-|[<-|[<-|[]]]]; repeat split.
Defined.

(** ** Handlers that only read *)

(** X19: the settings page, the edit form, the cancel of an edit, the
    export and the goal suggestion commit nothing in any store, whether the
    quest or the settings they ask for exist or not; the export holds the
    first settings row and all the quests, the edit form and the cancel show
    the quest as stored. *)
Theorem read_only_handlers (e : Env) (quest_id : Z) (goal : option string) (db : Store) :
  step e GetSettings db = db
  /\ step e (GetEdit quest_id) db = db
  /\ step e (GetCancel quest_id) db = db
  /\ step e GetExport db = db
  /\ step e (PostSuggestGoal goal) db = db
  /\ response (export_data e db) = Ok (Export (query_settings db) (quests db) (utcnow e))
  /\ ai_suggest_goal e goal db
     = mkOutcome db [CallSuggestGoal goal] (Ok (GoalInput (suggest_goal e goal)))
  /\ (forall q, query_quest db quest_id = Some q ->
      response (edit_quest_form quest_id db) = Ok (EditForm q (Quest.deadline q))
      /\ response (cancel_edit_quest e quest_id db) = Ok (Cards [quest_card e q]))
  /\ (forall st, query_settings db = Some st ->
      response (settings_page db) = Ok (SettingsPage st)).
Proof.
  unfold step, handle, settings_page, edit_quest_form, cancel_edit_quest.
  split; [destruct (query_settings db); reflexivity|].
  split; [destruct (query_quest db quest_id); reflexivity|].
  split; [apply card_response_committed|].
  split; [reflexivity|]. split; [reflexivity|]. split; [reflexivity|].
  split; [reflexivity|]. split.
  - intros q ->. split; reflexivity.
  - intros st ->. reflexivity.
Qed.

Lemma read_only_handlers_witness :
  response (edit_quest_form 2 three_subquests)
  = Ok (EditForm (Quest.mk 2 "Sub-quest" (Some "Manual Entry") (Some "General") (Some 1)
                    false None (utcnow demo_env) None 0) None).
Proof.
  destruct (read_only_handlers demo_env 2 None three_subquests)
    as [_ [_ [_ [_ [_ [_ [_ [H _]]]]]]]].
  exact (proj1 (H _ eq_refl)).
Defined.

(** ** The quest card *)

(** X20: the card of a quest is marked overdue exactly when the quest is
    not completed and has a deadline strictly before the present instant
    (an earlier day, or the same day at an earlier time); it shows the
    deadline when there is one, else the description when that is not empty,
    else "No deadline", and it carries the id, category, title and completion
    flag of the quest. *)
Theorem quest_card_overdue (e : Env) (q : Quest.t) :
  (card_overdue (quest_card e q) = true <->
   Quest.is_completed q = false
   /\ exists d, Quest.deadline q = Some d
                /\ (datetime.ordinal d < datetime.ordinal (utcnow e)
                    \/ (datetime.ordinal d = datetime.ordinal (utcnow e)
                        /\ datetime.micros d < datetime.micros (utcnow e))))
  /\ (forall d, Quest.deadline q = Some d -> card_date (quest_card e q) = ShowDate d)
  /\ (Quest.deadline q = None ->
      card_date (quest_card e q)
      = ShowText (match Quest.description q with
                  | Some EmptyString => "No deadline"
                  | Some s => s
                  | None => "No deadline"
                  end))
  /\ card_id (quest_card e q) = Quest.id q
  /\ card_category (quest_card e q) = Quest.category q
  /\ card_title (quest_card e q) = Quest.title q
  /\ card_completed (quest_card e q) = Quest.is_completed q.
Proof.
  unfold quest_card. cbn [card_overdue card_date card_id card_category card_title
                         card_completed].
  split; [|split; [|split; [|repeat split]]].
  - unfold is_overdue, datetime.ltb. destruct (Quest.deadline q) as [d|].
    + rewrite andb_true_iff, negb_true_iff, orb_true_iff, andb_true_iff,
        Z.ltb_lt, Z.eqb_eq, Z.ltb_lt.
      split.
      * intros [Hc H]. split; [exact Hc|]. exists d. split; [reflexivity | exact H].
      * intros [Hc [d0 [[= <-] H]]]. split; assumption.
    + split; [discriminate|]. intros [_ [d [H _]]]. discriminate.
  - intros d ->. reflexivity.
  - intros ->. destruct (Quest.description q) as [[|c s]|]; reflexivity.
Qed.

(** ** XP and completed quests *)

(** X21: in every store the handlers produce from the empty database the
    XP of the settings row is at least 100 per completed quest (deleting a
    completed quest keeps its XP, nothing else lowers the XP), so the clamp
    of the revoke never cuts anything off there and two toggles of any
    existing quest restore its completion flag, the XP and the level. *)
Theorem reachable_xp_covers_completed (db : Store) :
  reachable db ->
  (forall st, query_settings db = Some st ->
     100 * completed_count db <= Settings.xp st)
  /\ (forall quest_id q st,
        query_quest db quest_id = Some q -> Quest.is_completed q = true ->
        query_settings db = Some st ->
        Z.max 0 (Settings.xp st - 100) = Settings.xp st - 100)
  /\ (forall quest_id q,
        query_quest db quest_id = Some q ->
        exists st q2 st2,
          query_settings db = Some st
          /\ query_quest (toggle_twice quest_id db) quest_id = Some q2
          /\ query_settings (toggle_twice quest_id db) = Some st2
          /\ Quest.is_completed q2 = Quest.is_completed q
          /\ Settings.xp st2 = Settings.xp st
          /\ Settings.level st2 = Settings.level st).
Proof.
  intros Hr. destruct (reachable_invariants db Hr) as [_ [[_ [_ Hpaid]] _]].
  split; [exact Hpaid|]. split.
  - intros quest_id q st Hq Hc Hs. specialize (Hpaid st Hs).
    pose proof (flagged_row_counts Quest.is_completed _ _ (query_quest_In _ _ _ Hq) Hc).
    unfold completed_count, xp_gain in Hpaid. lia.
  - intros quest_id q Hq. exact (reachable_toggle_twice db quest_id q Hr Hq).
Qed.

Lemma reachable_xp_covers_completed_witness :
  exists st,
    query_settings (toggle_range 2 2 three_subquests) = Some st
    /\ 100 * completed_count (toggle_range 2 2 three_subquests) <= Settings.xp st.
Proof.
  assert (Hr : reachable (toggle_range 2 2 three_subquests)).
  { unfold toggle_range, three_subquests, add_many, onboarded.
    repeat apply reachable_step. apply reachable_empty. }
  destruct (reachable_xp_covers_completed _ Hr) as [H _].
  exists (Settings.mk 1 "Hero" "Cyberpunk" 200 1 None None).
  assert (Hs : query_settings (toggle_range 2 2 three_subquests)
               = Some (Settings.mk 1 "Hero" "Cyberpunk" 200 1 None None))
    by (vm_compute; reflexivity).
  split; [exact Hs | exact (H _ Hs)].
Defined.

(** ** Card ids as reorder tokens *)

Lemma digit_char_facts (d : Z) :
  0 <= d <= 9 ->
  Py.is_digit (ascii_of_N (Z.to_N (48 + d))) = true
  /\ Py.digit_val (ascii_of_N (Z.to_N (48 + d))) = d.
Proof.
  intros Hd.
  assert (H : d = 0 \/ d = 1 \/ d = 2 \/ d = 3 \/ d = 4 \/ d = 5 \/ d = 6 \/ d = 7
              \/ d = 8 \/ d = 9) by lia.
  repeat (destruct H as [->|H]; [split; reflexivity|]). subst d. split; reflexivity.
Qed.

Lemma digits_value_snoc (s : string) (c : ascii) (acc : Z) :
  string_forall Py.is_digit s = true -> Py.is_digit c = true ->
  Py.digits_value (String.append s (String c EmptyString)) acc
  = 10 * Py.digits_value s acc + Py.digit_val c.
Proof.
  revert acc. induction s as [|x s IH]; intros acc Hs Hc;
    cbn [String.append Py.digits_value string_forall] in *.
  - now rewrite Hc.
  - apply andb_true_iff in Hs as [Hx Hs]. rewrite Hx. now apply IH.
Qed.

Lemma digits_of_facts (fuel : nat) (n : Z) :
  0 <= n -> (Z.to_nat n < fuel)%nat ->
  string_forall Py.is_digit (digits_of fuel n) = true
  /\ digits_of fuel n <> EmptyString
  /\ Py.digits_value (digits_of fuel n) 0 = n.
Proof.
  revert n. induction fuel as [|f IH]; intros n Hn Hfuel; [lia|].
  cbn [digits_of]. destruct (Z.ltb_spec n 10) as [Hsmall|Hbig].
  - destruct (digit_char_facts n) as [H1 H2]; [lia|].
    cbn [string_forall Py.digits_value]. rewrite H1, H2.
    split; [reflexivity|]. split; [discriminate | lia].
  - assert (Hq : 0 <= n / 10 < n) by (Z.div_mod_to_equations; lia).
    assert (Hr : 0 <= n mod 10 <= 9) by (Z.div_mod_to_equations; lia).
    destruct (IH (n / 10)) as [I1 [I2 I3]]; [lia | lia|].
    destruct (digit_char_facts (n mod 10) Hr) as [H1 H2].
    split; [|split].
    + rewrite string_forall_append, I1. cbn [string_forall]. now rewrite H1.
    + destruct (digits_of f (n / 10)); [contradiction | discriminate].
    + rewrite digits_value_snoc by assumption. rewrite I3, H2.
      Z.div_mod_to_equations; lia.
Qed.

Lemma int_digits_all_digits (s : string) (prev : bool) (acc : Z) :
  string_forall Py.is_digit s = true ->
  Py.int_digits s prev acc
  = match s with
    | EmptyString => if prev then Some acc else None
    | _ => Some (Py.digits_value s acc)
    end.
Proof.
  revert prev acc. induction s as [|c s IH]; intros prev acc Hs; [reflexivity|].
  cbn [string_forall] in Hs. apply andb_true_iff in Hs as [Hc Hs].
  cbn [Py.int_digits Py.digits_value]. rewrite Hc, (IH _ _ Hs).
  destruct s; reflexivity.
Qed.

Lemma count_digits_length (s : string) :
  Py.count_digits s <= Z.of_nat (String.length s).
Proof.
  induction s as [|c s IH]; cbn [Py.count_digits String.length]; [lia|].
  destruct (Py.is_digit c); lia.
Qed.

Lemma length_append (s t : string) :
  String.length (String.append s t) = (String.length s + String.length t)%nat.
Proof.
  induction s as [|c s IH]; cbn [String.append String.length Nat.add]; [reflexivity|].
  now rewrite IH.
Qed.

Lemma digits_of_length (fuel : nat) (n : Z) (d : nat) :
  0 <= n < 10 ^ Z.of_nat (S d) -> (String.length (digits_of fuel n) <= S d)%nat.
Proof.
  revert n d. induction fuel as [|f IH]; intros n d Hn; cbn [digits_of String.length];
    [lia|].
  destruct (Z.ltb_spec n 10) as [Hsmall|Hbig]; [cbn [String.length]; lia|].
  rewrite length_append. cbn [String.length].
  destruct d as [|d]; [change (10 ^ Z.of_nat 1) with 10 in Hn; lia|].
  assert (Hq : 0 <= n / 10 < 10 ^ Z.of_nat (S d)).
  { split; [apply Z.div_pos; lia|].
    apply Z.div_lt_upper_bound; [lia|].
    replace (Z.of_nat (S (S d))) with (Z.succ (Z.of_nat (S d))) in Hn by lia.
    rewrite Z.pow_succ_r in Hn by lia. lia. }
  specialize (IH _ _ Hq). lia.
Qed.

Lemma int_of_str_digits (s : string) :
  s <> EmptyString -> string_forall Py.is_digit s = true ->
  Z.of_nat (String.length s) <= Py.MAX_STR_DIGITS ->
  Py.int_of_str s = Some (Py.digits_value s 0).
Proof.
  intros Hne Hs Hlen. unfold Py.int_of_str.
  pose proof (count_digits_length s) as Hc0.
  destruct (Z.ltb_spec Py.MAX_STR_DIGITS (Py.count_digits s)); [lia|].
  clear Hlen Hc0. unfold Py.int_literal.
  destruct s as [|c r]; [contradiction|].
  pose proof (int_digits_all_digits (String c r) false 0 Hs) as Hd.
  cbn [string_forall] in Hs. apply andb_true_iff in Hs as [Hc _].
  destruct c as [[] [] [] [] [] [] [] []]; try discriminate Hc; exact Hd.
Qed.

Lemma digit_not_dash (s : string) :
  string_forall Py.is_digit s = true ->
  string_forall (fun x => negb (Ascii.eqb x "-")) s = true.
Proof.
  induction s as [|c s IH]; cbn [string_forall]; [reflexivity|].
  intros H. apply andb_true_iff in H as [Hc Hs]. rewrite (IH Hs), andb_true_r.
  destruct (Ascii.eqb_spec c "-") as [->|_]; [discriminate | reflexivity].
Qed.

Lemma token_of_card_id (k : Z) :
  0 <= k <= SQLITE_MAX -> token_id (card_dom_id k) = Some k.
Proof.
  intros [Hk Hmax]. unfold card_dom_id, str_of_int.
  destruct (Z.ltb_spec k 0); [lia|].
  destruct (digits_of_facts (S (Z.to_nat k)) k Hk) as [H1 [H2 H3]]; [lia|].
  assert (Hlen : Z.of_nat (String.length (digits_of (S (Z.to_nat k)) k))
                 <= Py.MAX_STR_DIGITS).
  { pose proof (digits_of_length (S (Z.to_nat k)) k 18) as Hl.
    unfold SQLITE_MAX in Hmax. unfold Py.MAX_STR_DIGITS.
    change (10 ^ Z.of_nat 19) with 10000000000000000000 in Hl.
    change (2 ^ 63) with 9223372036854775808 in Hmax.
    assert ((String.length (digits_of (S (Z.to_nat k)) k) <= 19)%nat) by (apply Hl; lia).
    lia. }
  unfold token_id, Py.split.
  change (String.append "quest-" ?s) with (String.append "quest" (String "-" s)).
  rewrite split_aux_piece by reflexivity.
  rewrite split_aux_whole by (now apply digit_not_dash).
  cbn [nth_error String.append]. rewrite int_of_str_digits by assumption.
  now rewrite H3.
Qed.

(** X22: the id attribute of a quest card, ["quest-" + str(id)], is parsed
    back to the id by [reorder_quests]; so the ids of the cards, each a key
    SQLite can hold (at most 2^63-1) and not negative, sent in their new
    order without repetition, give every named quest that exists the
    position of its card in that order. *)
Theorem reorder_by_card_ids (ks : list Z) (db : Store) :
  NoDup ks ->
  (forall k, In k ks -> 0 <= k <= SQLITE_MAX) ->
  (forall k, In k ks -> token_id (card_dom_id k) = Some k)
  /\ (forall i k q,
        nth_error ks i = Some k ->
        query_quest db k = Some q ->
        exists q1,
          query_quest (committed (reorder_quests (map card_dom_id ks) db)) k = Some q1
          /\ Quest.position q1 = Z.of_nat i
          /\ Quest.set_position q (Quest.position q1) = q1).
Proof.
  intros Hnd Hrange.
  split; [intros k Hk; apply token_of_card_id; auto|].
  intros i k q Hnth Hq.
  assert (Hall : forallb token_in_range (map card_dom_id ks) = true).
  { apply forallb_forall. intros s Hs. apply in_map_iff in Hs as [k1 [<- Hk1]].
    unfold token_in_range. rewrite (token_of_card_id _ (Hrange _ Hk1)).
    unfold sqlite_int. apply andb_true_intro.
    pose proof (Hrange _ Hk1) as Hk. unfold SQLITE_MIN, SQLITE_MAX in *.
    split; apply Z.leb_le; lia. }
  rewrite reorder_quests_cases, Hall. cbn [committed]. clear Hall.
  destruct (nth_error_split _ _ Hnth) as [pre [post [-> Hlen]]].
  assert (Hpost : Forall (fun s => ~ names k s) (map card_dom_id post)).
  { apply Forall_forall. intros s Hs. apply in_map_iff in Hs as [k1 [<- Hk1]].
    unfold names. rewrite token_of_card_id
      by (apply Hrange; apply in_or_app; right; now right).
    intros [= ->]. apply NoDup_remove_2 in Hnd. apply Hnd.
    apply in_or_app. now right. }
  assert (Hname : names k (card_dom_id k))
    by (apply token_of_card_id, Hrange, in_or_app; right; now left).
  rewrite map_app. cbn [map]. rewrite assign_loop_app. cbn [assign_loop].
  destruct (assign_loop_frame (map card_dom_id pre) 0 db k q Hq) as [q0 [Hq0 E0]].
  rewrite (assign_loop_untouched _ _ _ k Hpost).
  rewrite (assign_one_same _ _ _ _ _ Hname Hq0).
  eexists. split; [reflexivity|]. cbn [Quest.set_position Quest.position].
  rewrite length_map, Hlen. split; [lia|].
  rewrite <- E0. reflexivity.
Qed.

Lemma reorder_by_card_ids_witness :
  token_id (card_dom_id 4) = Some 4
  /\ exists q1,
       query_quest (committed (reorder_quests (map card_dom_id [4; 2; 3]) three_subquests)) 2
       = Some q1
       /\ Quest.position q1 = 1.
Proof.
  assert (Hnd : NoDup [4; 2; 3]).
  { repeat constructor; cbn; intros H; repeat (destruct H as [H|H]; [discriminate|]);
      exact H. }
  assert (Hpos : forall k, In k [4; 2; 3] -> 0 <= k <= SQLITE_MAX).
  { intros k H. cbn in H. unfold SQLITE_MAX.
    repeat (destruct H as [<-|H]; [lia|]). destruct H. }
  destruct (reorder_by_card_ids [4; 2; 3] three_subquests Hnd Hpos) as [H1 H2].
  split; [apply H1; now left|].
  destruct (H2 1%nat 2 _ eq_refl eq_refl) as [q1 [Hq [Hp _]]].
  exists q1. split; [exact Hq | exact Hp].
Defined.
